(** * Inventory system back end: product and authentication rule layers

    A shallow embedding of [ProductService], [AuthService], the repositories
    they call and the product schema, followed by the properties of the
    specification that concern them.

    Conventions of the embedding.
    - JavaScript strings are sequences of 8-bit characters ([string]); the case
      conversions act on the letters a-z / A-Z and leave every other character
      alone.
    - JavaScript numbers that hold quantities, stock levels and prices are
      integers ([Z]); the sum of two of them that the engine computes is the
      sum of two doubles ([JS.add]), which is the exact sum up to 2^53 and
      rounds beyond; the arithmetic of an aggregation pipeline is the
      database's, and is taken exact.
    - The [createdAt] and [updatedAt] stamps that the schemas add to every
      document are not part of the documents of the embedding: what is
      said of a stored document is said of its other fields.
    - Document identifiers are the strings that [ObjectId.toString()] yields;
      a look-up by a string that is no such identifier, which the driver
      refuses with a [CastError] before it reads or writes anything, is not
      part of the embedding.
    - A collection is the list of its documents in insertion order; a
      [findOne] returns the first document that matches.
    - [async] methods are computations over the collection they touch:
      a thrown [Error] ends the computation and keeps every write made
      before it. *)

From Stdlib Require Import ZArith List String Ascii Bool Lia Permutation Sorted.
Import ListNotations.

Open Scope string_scope.
Open Scope list_scope.
Open Scope Z_scope.

(* ================================================================== *)
(** ** JavaScript string primitives used by the sources *)

Module JS.

Definition is_lower (c : ascii) : bool :=
  let n := nat_of_ascii c in (Nat.leb 97 n && Nat.leb n 122)%bool.

Definition is_upper (c : ascii) : bool :=
  let n := nat_of_ascii c in (Nat.leb 65 n && Nat.leb n 90)%bool.

Definition upper_char (c : ascii) : ascii :=
  if is_lower c then ascii_of_nat (nat_of_ascii c - 32) else c.

Definition lower_char (c : ascii) : ascii :=
  if is_upper c then ascii_of_nat (nat_of_ascii c + 32) else c.

Fixpoint map_chars (f : ascii -> ascii) (s : string) : string :=
  match s with
  | EmptyString => EmptyString
  | String c s' => String (f c) (map_chars f s')
  end.

(** [String.prototype.toUpperCase] and [toLowerCase]. *)
Definition toUpperCase (s : string) : string := map_chars upper_char s.
Definition toLowerCase (s : string) : string := map_chars lower_char s.

(** White space removed by [String.prototype.trim]: TAB, LF, VT, FF, CR
    and SPACE. *)
Definition is_space (c : ascii) : bool :=
  let n := nat_of_ascii c in
  ((Nat.leb 9 n && Nat.leb n 13) || Nat.eqb n 32)%bool.

Fixpoint trimStart (s : string) : string :=
  match s with
  | EmptyString => EmptyString
  | String c s' => if is_space c then trimStart s' else s
  end.

Fixpoint trimEnd (s : string) : string :=
  match s with
  | EmptyString => EmptyString
  | String c s' =>
      match trimEnd s' with
      | EmptyString => if is_space c then EmptyString else String c EmptyString
      | t => String c t
      end
  end.

Definition trim (s : string) : string := trimEnd (trimStart s).

(** Truthiness of a value of type [string | undefined]: [undefined] and the
    empty string are falsy. *)
Definition truthy (o : option string) : bool :=
  match o with
  | None => false
  | Some s => negb (String.eqb s "")
  end.

(** The string held by a truthy [string | undefined]. *)
Definition or_empty (o : option string) : string :=
  match o with
  | Some s => s
  | None => ""
  end.

(** [a || b] on an optional array: arrays, even empty, are truthy. *)
Definition or_default {A : Type} (o : option (list A)) (d : list A) : list A :=
  match o with
  | Some l => l
  | None => d
  end.

(** Equality of two strings up to letter case. *)
Definition eq_ignore_case (a b : string) : Prop :=
  toUpperCase a = toUpperCase b.

(** The characters of the string are ASCII characters; on such a string
    [toUpperCase], [toLowerCase] and [trim] above are the engine's. *)
Fixpoint is_ascii (s : string) : bool :=
  match s with
  | EmptyString => true
  | String c s' => (Nat.ltb (nat_of_ascii c) 128 && is_ascii s')%bool
  end.

(** The double nearest to an integer, as IEEE 754 rounds (to nearest, ties
    to the even significand of 53 bits): the integer itself up to 2^53 in
    magnitude, and beyond that the nearest multiple of the power of two
    that the 53 leading bits leave. Integers past the largest double, which
    the engine answers with [Infinity], are outside the embedding. *)
Definition round_to_double (x : Z) : Z :=
  let m := Z.abs x in
  if m <? 2 ^ 53 then x
  else
    let e := Z.log2 m - 52 in
    let q := m / 2 ^ e in
    let r := m mod 2 ^ e in
    let half := 2 ^ (e - 1) in
    let q' := if r <? half then q
              else if half <? r then q + 1
              else if Z.even q then q else q + 1 in
    Z.sgn x * (q' * 2 ^ e).

(** [a + b] on two numbers that hold integers. *)
Definition add (a b : Z) : Z := round_to_double (a + b).

(** [Array.prototype.sort()] without a comparator, on strings: ascending
    order of the character codes. Equal strings being one value, the
    engine's choice of algorithm does not show. *)
Fixpoint insert_sorted (s : string) (l : list string) : list string :=
  match l with
  | [] => [s]
  | x :: rest => if String.leb s x then s :: l else x :: insert_sorted s rest
  end.

Definition sort (l : list string) : list string := fold_right insert_sorted [] l.

(** [String.prototype.split(separator)] for a one-character separator. *)
Fixpoint split (sep : ascii) (s : string) : list string :=
  match s with
  | EmptyString => [EmptyString]
  | String c rest =>
      if Ascii.eqb c sep then EmptyString :: split sep rest
      else
        match split sep rest with
        | [] => [String c EmptyString]
        | piece :: pieces => String c piece :: pieces
        end
  end.

(** [String.prototype.includes(part)]. *)
Fixpoint includes (s part : string) : bool :=
  (String.prefix part s
   || match s with
      | EmptyString => false
      | String _ rest => includes rest part
      end)%bool.

(** [Array.prototype.join(separator)]. *)
Definition join (sep : string) (l : list string) : string := String.concat sep l.

End JS.

(* ================================================================== *)
(** ** Computations: a collection as state, [throw] as an early exit *)

(** What a method can throw: a plain [new Error(message)], or the
    [ValidationError] raised by the schema validators, with the messages of
    the validators that failed. *)
Inductive Exn : Type :=
| Error (message : string)
| ValidationError (messages : list string).

Definition M (S A : Type) : Type := S -> (Exn + A) * S.

Definition ret {S A : Type} (a : A) : M S A := fun s => (inr a, s).

Definition throw {S A : Type} (e : Exn) : M S A := fun s => (inl e, s).

Definition bind {S A B : Type} (m : M S A) (k : A -> M S B) : M S B :=
  fun s =>
    match m s with
    | (inl e, s') => (inl e, s')
    | (inr a, s') => k a s'
    end.

Definition gets {S A : Type} (f : S -> A) : M S A := fun s => (inr (f s), s).

Declare Scope eff_scope.
Delimit Scope eff_scope with eff.
Notation "x <- m ;; k" := (bind m (fun x => k))
  (at level 61, m at next level, right associativity) : eff_scope.
Notation "m ;;; k" := (bind m (fun _ => k))
  (at level 61, right associativity) : eff_scope.
Open Scope eff_scope.

(* ================================================================== *)
(** ** The operations of a Mongoose model that [BaseRepository] wraps *)

Inductive SortOrder : Type := asc | desc.

Record Pagination : Type := {
  pg_page : Z;
  pg_limit : Z;
  pg_total : Z;
  pg_pages : Z;
  pg_hasNext : bool;
  pg_hasPrev : bool
}.

Record PaginatedResponse (T : Type) : Type := {
  data : list T;
  pagination : Pagination
}.
Arguments data {T} _.
Arguments pagination {T} _.

(** [Math.ceil(total / limit)] for a positive [limit] (the controller clamps
    [limit] to 1..100). *)
Definition ceil_div (total limit : Z) : Z := (total + limit - 1) / limit.

Module BaseRepository.
Section Model.

Context {T : Type}.
(** The [_id] of a document, as a string. *)
Variable doc_id : T -> string.
(** [query.sort({ [sortBy]: 1 | -1 })]: the ordering is the driver's. *)
Variable sortDocs : string -> SortOrder -> list T -> list T.

Definition has_id (id : string) (d : T) : bool := String.eqb (doc_id d) id.

(** [model.findById(id)]. *)
Definition findById (id : string) : M (list T) (option T) :=
  gets (List.find (has_id id)).

(** [model.findOne(filter)]. *)
Definition findOne (filter : T -> bool) : M (list T) (option T) :=
  gets (List.find filter).

(** [model.find(filter)]. *)
Definition find (filter : T -> bool) : M (list T) (list T) :=
  gets (List.filter filter).

(** [model.countDocuments(filter)]. *)
Definition count (filter : T -> bool) : M (list T) Z :=
  gets (fun docs => Z.of_nat (List.length (List.filter filter docs))).

(** Replace the first document whose identifier is [id]. *)
Fixpoint replace_first (id : string) (f : T -> T) (docs : list T) : list T :=
  match docs with
  | [] => []
  | d :: rest =>
      if has_id id d then f d :: rest else d :: replace_first id f rest
  end.

(** [create(data)], that is [new model(data).save()]: the schema casts and
    validates [data]; a document that passes is appended to the
    collection. *)
Definition create (cast : list string + T) : M (list T) T :=
  match cast with
  | inl errs => throw (ValidationError errs)
  | inr d => fun docs => (inr d, docs ++ [d])
  end.

(** [model.findByIdAndUpdate(id, update, { new: true, runValidators })]:
    the update is cast and validated first; then the first document with
    that identifier is modified and returned, [null] when there is none. *)
Definition findByIdAndUpdate (id : string) (cast : list string + (T -> T))
  : M (list T) (option T) :=
  match cast with
  | inl errs => throw (ValidationError errs)
  | inr f =>
      fun docs =>
        match List.find (has_id id) docs with
        | None => (inr None, docs)
        | Some d => (inr (Some (f d)), replace_first id f docs)
        end
  end.

(** [update(id, data)]. *)
Definition update (id : string) (cast : list string + (T -> T))
  : M (list T) (option T) :=
  findByIdAndUpdate id cast.

(** [findWithPagination(filter, { page, limit, sortBy, sortOrder })], for
    [page >= 1] and [limit >= 1]. *)
Definition findWithPagination (filter : T -> bool)
    (page limit : Z) (sortBy : string) (sortOrder : SortOrder)
  : M (list T) (PaginatedResponse T) :=
  let skip := (page - 1) * limit in
  found <- gets (fun docs =>
             firstn (Z.to_nat limit)
               (skipn (Z.to_nat skip)
                  (sortDocs sortBy sortOrder (List.filter filter docs)))) ;;
  total <- count filter ;;
  let pages := ceil_div total limit in
  ret {| data := found;
         pagination := {| pg_page := page;
                          pg_limit := limit;
                          pg_total := total;
                          pg_pages := pages;
                          pg_hasNext := page <? pages;
                          pg_hasPrev := 1 <? page |} |}.

End Model.
End BaseRepository.

(* ================================================================== *)
(** ** The product schema (models/Product.ts) *)

(** The first rule of a path that fails gives the path's message. *)
Fixpoint first_failure (rules : list (bool * string)) : list string :=
  match rules with
  | [] => []
  | (ok, msg) :: rest => if ok then first_failure rest else [msg]
  end.

Definition String_length (s : string) : Z := Z.of_nat (String.length s).

Module Product.

Record t : Type := mk {
  _id : string;
  name : string;
  description : option string;
  sku : string;
  category : string;
  price : Z;
  quantity : Z;
  minStockLevel : Z;
  images : list string;
  isActive : bool;
  userId : string
}.

(** Virtual [isLowStock]. *)
Definition isLowStock (p : t) : bool := quantity p <=? minStockLevel p.

Inductive StockStatus : Type := OUT_OF_STOCK | LOW_STOCK | IN_STOCK.

(** Virtual [stockStatus]. *)
Definition stockStatus (p : t) : StockStatus :=
  if quantity p =? 0 then OUT_OF_STOCK
  else if quantity p <=? minStockLevel p then LOW_STOCK
  else IN_STOCK.

(** *** Setters declared by the schema *)

(** [trim: true]. *)
Definition set_trimmed (v : string) : string := JS.trim v.
(** [uppercase: true, trim: true] on [sku]. *)
Definition set_sku (v : string) : string := JS.trim (JS.toUpperCase v).

(** *** Validators declared by the schema, path by path *)

Definition validate_name (v : string) : list string :=
  first_failure
    [ (negb (String.eqb v ""), "Product name is required");
      (String_length v <=? 100, "Product name cannot exceed 100 characters") ].

Definition validate_description (v : option string) : list string :=
  match v with
  | None => []
  | Some d =>
      first_failure
        [ (String_length d <=? 500, "Description cannot exceed 500 characters") ]
  end.

Definition validate_sku (v : string) : list string :=
  first_failure
    [ (negb (String.eqb v ""), "SKU is required");
      (String_length v <=? 50, "SKU cannot exceed 50 characters") ].

Definition validate_category (v : string) : list string :=
  first_failure
    [ (negb (String.eqb v ""), "Category is required");
      (String_length v <=? 50, "Category cannot exceed 50 characters") ].

Definition validate_price (v : Z) : list string :=
  first_failure
    [ (0 <=? v, "Price cannot be negative");
      (v >=? 0, "Price must be a positive number") ].

Definition validate_quantity (v : Z) : list string :=
  first_failure [ (0 <=? v, "Quantity cannot be negative") ].

Definition validate_minStockLevel (v : Z) : list string :=
  first_failure [ (0 <=? v, "Minimum stock level cannot be negative") ].

(** [/^https?:\/\/.+/]: the scheme, then at least one character that is
    not a line terminator. *)
Definition after_scheme (rest : string) : bool :=
  match rest with
  | EmptyString => false
  | String c _ =>
      negb (Nat.eqb (nat_of_ascii c) 10 || Nat.eqb (nat_of_ascii c) 13)
  end.

Definition is_url (v : string) : bool :=
  ((String.prefix "http://" v
      && after_scheme (String.substring 7 (String.length v - 7) v))
   || (String.prefix "https://" v
      && after_scheme (String.substring 8 (String.length v - 8) v)))%bool.

Definition validate_images (v : list string) : list string :=
  flat_map (fun url => first_failure [ (is_url url, "Image must be a valid URL") ]) v.

Definition validate_userId (v : string) : list string :=
  first_failure [ (negb (String.eqb v ""), "User ID is required") ].

End Product.

Definition IProductDocument : Type := Product.t.

Module CreateProductRequest.
Record t : Type := mk {
  name : string;
  description : option string;
  sku : string;
  category : string;
  price : Z;
  quantity : Z;
  minStockLevel : Z;
  images : option (list string)
}.
End CreateProductRequest.

(** [UpdateProductRequest = Partial<CreateProductRequest>]. *)
Module UpdateProductRequest.
Record t : Type := mk {
  name : option string;
  description : option string;
  sku : option string;
  category : option string;
  price : option Z;
  quantity : option Z;
  minStockLevel : option Z;
  images : option (list string)
}.

Definition empty : t := mk None None None None None None None None.
End UpdateProductRequest.

(** What [repository.create] receives from the service:
    [{ ...productData, userId, images }]. *)
Module NewProduct.
Record t : Type := mk {
  name : string;
  description : option string;
  sku : string;
  category : string;
  price : Z;
  quantity : Z;
  minStockLevel : Z;
  images : list string;
  userId : string
}.
End NewProduct.

(** An update document for the product collection: the fields of an
    [UpdateProductRequest], [{ isActive }] or [{ quantity }]. *)
Module ProductUpdate.
Record t : Type := mk {
  name : option string;
  description : option string;
  sku : option string;
  category : option string;
  price : option Z;
  quantity : option Z;
  minStockLevel : option Z;
  images : option (list string);
  isActive : option bool
}.

Definition of_request (r : UpdateProductRequest.t) : t :=
  mk (UpdateProductRequest.name r) (UpdateProductRequest.description r)
     (UpdateProductRequest.sku r) (UpdateProductRequest.category r)
     (UpdateProductRequest.price r) (UpdateProductRequest.quantity r)
     (UpdateProductRequest.minStockLevel r) (UpdateProductRequest.images r)
     None.

(** [{ isActive: b }]. *)
Definition of_isActive (b : bool) : t :=
  mk None None None None None None None None (Some b).

(** [{ quantity }]. *)
Definition of_quantity (q : Z) : t :=
  mk None None None None None (Some q) None None None.
End ProductUpdate.

Definition on_some {A : Type} (validate : A -> list string) (o : option A)
  : list string :=
  match o with
  | Some v => validate v
  | None => []
  end.

Definition or_keep {A : Type} (o : option A) (old : A) : A :=
  match o with
  | Some v => v
  | None => old
  end.

(** [new Product(data)]: the setters applied and [isActive] defaulted to
    [true]. [newId] is the [ObjectId] the driver gives the new document. The
    request type makes [quantity] and [minStockLevel] mandatory, so their
    schema defaults are never used. *)
Definition newDocument (newId : string) (d : NewProduct.t) : Product.t :=
  {| Product._id := newId;
     Product.name := Product.set_trimmed (NewProduct.name d);
     Product.description := option_map Product.set_trimmed (NewProduct.description d);
     Product.sku := Product.set_sku (NewProduct.sku d);
     Product.category := Product.set_trimmed (NewProduct.category d);
     Product.price := NewProduct.price d;
     Product.quantity := NewProduct.quantity d;
     Product.minStockLevel := NewProduct.minStockLevel d;
     Product.images := NewProduct.images d;
     Product.isActive := true;
     Product.userId := NewProduct.userId d |}.

(** The validation [save()] runs: every path, in schema order. *)
Definition validateProduct (doc : Product.t) : list string :=
  Product.validate_name (Product.name doc)
    ++ Product.validate_description (Product.description doc)
    ++ Product.validate_sku (Product.sku doc)
    ++ Product.validate_category (Product.category doc)
    ++ Product.validate_price (Product.price doc)
    ++ Product.validate_quantity (Product.quantity doc)
    ++ Product.validate_minStockLevel (Product.minStockLevel doc)
    ++ Product.validate_images (Product.images doc)
    ++ Product.validate_userId (Product.userId doc).

Definition castNewProduct (newId : string) (d : NewProduct.t)
  : list string + Product.t :=
  match validateProduct (newDocument newId d) with
  | [] => inr (newDocument newId d)
  | errs => inl errs
  end.

(** The modification an update document makes once its values went through
    the setters. *)
Definition applyProductUpdate (u : ProductUpdate.t) (p : Product.t) : Product.t :=
  {| Product._id := Product._id p;
     Product.name :=
       or_keep (option_map Product.set_trimmed (ProductUpdate.name u)) (Product.name p);
     Product.description :=
       match ProductUpdate.description u with
       | Some v => Some (Product.set_trimmed v)
       | None => Product.description p
       end;
     Product.sku :=
       or_keep (option_map Product.set_sku (ProductUpdate.sku u)) (Product.sku p);
     Product.category :=
       or_keep (option_map Product.set_trimmed (ProductUpdate.category u))
         (Product.category p);
     Product.price := or_keep (ProductUpdate.price u) (Product.price p);
     Product.quantity := or_keep (ProductUpdate.quantity u) (Product.quantity p);
     Product.minStockLevel :=
       or_keep (ProductUpdate.minStockLevel u) (Product.minStockLevel p);
     Product.images := or_keep (ProductUpdate.images u) (Product.images p);
     Product.isActive := or_keep (ProductUpdate.isActive u) (Product.isActive p);
     Product.userId := Product.userId p |}.

(** Update validators ([runValidators: true]): the validators of the paths
    the update sets, on the values after the setters. *)
Definition castProductUpdate (u : ProductUpdate.t)
  : list string + (Product.t -> Product.t) :=
  match
    on_some Product.validate_name (option_map Product.set_trimmed (ProductUpdate.name u))
      ++ Product.validate_description
           (option_map Product.set_trimmed (ProductUpdate.description u))
      ++ on_some Product.validate_sku (option_map Product.set_sku (ProductUpdate.sku u))
      ++ on_some Product.validate_category
           (option_map Product.set_trimmed (ProductUpdate.category u))
      ++ on_some Product.validate_price (ProductUpdate.price u)
      ++ on_some Product.validate_quantity (ProductUpdate.quantity u)
      ++ on_some Product.validate_minStockLevel (ProductUpdate.minStockLevel u)
      ++ on_some Product.validate_images (ProductUpdate.images u)
  with
  | [] => inr (applyProductUpdate u)
  | errs => inl errs
  end.

(* ================================================================== *)
(** ** ProductRepository *)

Definition ProductStore : Type := list IProductDocument.

Module ProductQuery.
Record t : Type := mk {
  search : option string;
  category : option string;
  minPrice : option Z;
  maxPrice : option Z;
  inStock : option bool;
  page : option Z;
  limit : option Z;
  sortBy : option string;
  sortOrder : option SortOrder
}.
End ProductQuery.

Module ProductRepository.
Section Driver.

(** What the database driver decides and the sources do not: the test of
    [{ $regex: pattern, $options: 'i' }] on a field, the ordering of a
    sorted query, and whether an aggregation's [$match] on [userId] pairs
    the string it is given with a stored owner. *)
Variable regexTest : string -> string -> bool.
Variable sortProducts : string -> SortOrder -> ProductStore -> ProductStore.
Variable matchUserId : string -> string -> bool.

(** [create(data)] of [BaseRepository]. *)
Definition create (newId : string) (d : NewProduct.t)
  : M ProductStore IProductDocument :=
  BaseRepository.create (castNewProduct newId d).

(** [findById(id)] of [BaseRepository]. *)
Definition findById (id : string)
  : M ProductStore (option IProductDocument) :=
  BaseRepository.findById Product._id id.

(** [update(id, data)] of [BaseRepository]. *)
Definition update (id : string) (u : ProductUpdate.t)
  : M ProductStore (option IProductDocument) :=
  BaseRepository.update Product._id id (castProductUpdate u).

(** [findOne({ sku: sku.toUpperCase() })]: the value of the filter is cast
    by the schema, which runs the setters of the path on it. *)
Definition findBySku (sku : string) : M ProductStore (option IProductDocument) :=
  BaseRepository.findOne
    (fun p => String.eqb (Product.sku p) (Product.set_sku (JS.toUpperCase sku))).

Definition findByUserId (userId : string) : M ProductStore (list IProductDocument) :=
  BaseRepository.find
    (fun p => String.eqb (Product.userId p) userId && Product.isActive p)%bool.

(** [find({ category, isActive: true })], the category cast by the schema
    as in [findBySku]. *)
Definition findByCategory (category : string)
  : M ProductStore (list IProductDocument) :=
  BaseRepository.find
    (fun p => String.eqb (Product.category p) (Product.set_trimmed category)
              && Product.isActive p)%bool.

(** [matchConditions] of [findLowStock] followed by the [isLowStock]
    stage of the pipeline. *)
Definition lowStockMatch (userId : option string) (p : IProductDocument) : bool :=
  (Product.isActive p
   && (if JS.truthy userId
       then matchUserId (JS.or_empty userId) (Product.userId p)
       else true)
   && (Product.quantity p <=? Product.minStockLevel p))%bool.

Definition findLowStock (userId : option string)
  : M ProductStore (list IProductDocument) :=
  BaseRepository.find (lowStockMatch userId).

Definition searchFilter (q : ProductQuery.t) (p : IProductDocument) : bool :=
  (Product.isActive p
   && (if JS.truthy (ProductQuery.search q)
       then
         let s := JS.or_empty (ProductQuery.search q) in
         regexTest s (Product.name p)
         || match Product.description p with
            | Some d => regexTest s d
            | None => false
            end
         || regexTest s (Product.sku p)
       else true)
   && (if JS.truthy (ProductQuery.category q)
       then String.eqb (Product.category p)
              (Product.set_trimmed (JS.or_empty (ProductQuery.category q)))
       else true)
   && match ProductQuery.minPrice q with
      | Some lo => lo <=? Product.price p
      | None => true
      end
   && match ProductQuery.maxPrice q with
      | Some hi => Product.price p <=? hi
      | None => true
      end
   && match ProductQuery.inStock q with
      | Some true => 0 <? Product.quantity p
      | Some false => Product.quantity p =? 0
      | None => true
      end)%bool.

Definition searchProducts (q : ProductQuery.t)
  : M ProductStore (PaginatedResponse IProductDocument) :=
  BaseRepository.findWithPagination sortProducts (searchFilter q)
    (match ProductQuery.page q with Some n => n | None => 1 end)
    (match ProductQuery.limit q with Some n => n | None => 10 end)
    (match ProductQuery.sortBy q with Some f => f | None => "createdAt" end)
    (match ProductQuery.sortOrder q with Some o => o | None => desc end).

Definition updateStock (productId : string) (quantity : Z)
  : M ProductStore (option IProductDocument) :=
  BaseRepository.findByIdAndUpdate Product._id productId
    (castProductUpdate (ProductUpdate.of_quantity quantity)).

(** [model.distinct('category', { isActive: true })], then
    [categories.sort()]. *)
Definition getCategories : M ProductStore (list string) :=
  gets (fun docs =>
          JS.sort (nodup string_dec
                     (map Product.category (List.filter Product.isActive docs)))).



End Driver.
End ProductRepository.

(* ================================================================== *)
(** ** ProductService *)

Definition msg_duplicate_sku : string := "Product with this SKU already exists".
Definition msg_not_found : string := "Product not found or access denied".
Definition msg_negative_quantity : string := "Quantity cannot be negative".
Definition msg_insufficient_stock : string := "Insufficient stock for this adjustment".

Module StockUpdate.
(** An entry [{ productId, quantity }] of [bulkUpdateStock]. *)
Record t : Type := mk { productId : string; quantity : Z }.
End StockUpdate.

Module InventoryStats.
Record t : Type := mk {
  totalProducts : Z;
  totalValue : Z;
  lowStockCount : Z;
  outOfStockCount : Z
}.
End InventoryStats.

Module ProductService.
Section Driver.

Variable regexTest : string -> string -> bool.
Variable sortProducts : string -> SortOrder -> ProductStore -> ProductStore.
Variable matchUserId : string -> string -> bool.

(** [{ ...productData, userId, images: productData.images || [] }]. *)
Definition withOwner (userId : string) (productData : CreateProductRequest.t)
  : NewProduct.t :=
  {| NewProduct.name := CreateProductRequest.name productData;
     NewProduct.description := CreateProductRequest.description productData;
     NewProduct.sku := CreateProductRequest.sku productData;
     NewProduct.category := CreateProductRequest.category productData;
     NewProduct.price := CreateProductRequest.price productData;
     NewProduct.quantity := CreateProductRequest.quantity productData;
     NewProduct.minStockLevel := CreateProductRequest.minStockLevel productData;
     NewProduct.images :=
       JS.or_default (CreateProductRequest.images productData) [];
     NewProduct.userId := userId |}.

Definition createProduct (newId : string) (userId : string)
    (productData : CreateProductRequest.t)
  : M ProductStore IProductDocument :=
  existingProduct <-
    ProductRepository.findBySku (CreateProductRequest.sku productData) ;;
  match existingProduct with
  | Some _ => throw (Error msg_duplicate_sku)
  | None => ProductRepository.create newId (withOwner userId productData)
  end.

Definition getProductById (productId : string) (userId : option string)
  : M ProductStore (option IProductDocument) :=
  product <- ProductRepository.findById productId ;;
  match product with
  | None => ret None
  | Some p =>
      if negb (Product.isActive p) then ret None
      else if (JS.truthy userId
               && negb (String.eqb (Product.userId p) (JS.or_empty userId)))%bool
      then ret None
      else ret (Some p)
  end.

Definition getUserProducts (userId : string)
  : M ProductStore (list IProductDocument) :=
  ProductRepository.findByUserId userId.

Definition updateProduct (productId : string) (userId : string)
    (updateData : UpdateProductRequest.t)
  : M ProductStore (option IProductDocument) :=
  existingProduct <- getProductById productId (Some userId) ;;
  match existingProduct with
  | None => throw (Error msg_not_found)
  | Some existing =>
      (if (JS.truthy (UpdateProductRequest.sku updateData)
           && negb (String.eqb (JS.or_empty (UpdateProductRequest.sku updateData))
                      (Product.sku existing)))%bool
       then
         skuExists <-
           ProductRepository.findBySku
             (JS.or_empty (UpdateProductRequest.sku updateData)) ;;
         match skuExists with
         | Some _ => throw (Error msg_duplicate_sku)
         | None => ret tt
         end
       else ret tt) ;;;
      ProductRepository.update productId (ProductUpdate.of_request updateData)
  end.

Definition deleteProduct (productId : string) (userId : string)
  : M ProductStore bool :=
  existingProduct <- getProductById productId (Some userId) ;;
  match existingProduct with
  | None => throw (Error msg_not_found)
  | Some _ =>
      result <- ProductRepository.update productId (ProductUpdate.of_isActive false) ;;
      ret (match result with Some _ => true | None => false end)
  end.

Definition updateStock (productId : string) (quantity : Z)
    (userId : option string)
  : M ProductStore (option IProductDocument) :=
  if quantity <? 0 then throw (Error msg_negative_quantity)
  else
    existingProduct <- getProductById productId userId ;;
    match existingProduct with
    | None => throw (Error msg_not_found)
    | Some _ => ProductRepository.updateStock productId quantity
    end.

Definition getLowStockProducts (userId : option string)
  : M ProductStore (list IProductDocument) :=
  ProductRepository.findLowStock matchUserId userId.

Definition searchProducts (query : ProductQuery.t)
  : M ProductStore (PaginatedResponse IProductDocument) :=
  ProductRepository.searchProducts regexTest sortProducts query.

Fixpoint bulkUpdateStock (updates : list StockUpdate.t) (userId : option string)
  : M ProductStore unit :=
  match updates with
  | [] => ret tt
  | u :: rest =>
      updateStock (StockUpdate.productId u) (StockUpdate.quantity u) userId ;;;
      bulkUpdateStock rest userId
  end.

Definition getProductBySku (sku : string)
  : M ProductStore (option IProductDocument) :=
  ProductRepository.findBySku sku.

Definition adjustStock (productId : string) (adjustment : Z)
    (userId : option string)
  : M ProductStore (option IProductDocument) :=
  product <- getProductById productId userId ;;
  match product with
  | None => throw (Error msg_not_found)
  | Some p =>
      let newQuantity := JS.add (Product.quantity p) adjustment in
      if newQuantity <? 0 then throw (Error msg_insufficient_stock)
      else updateStock productId newQuantity userId
  end.

Definition getAllProducts (query : ProductQuery.t)
  : M ProductStore (PaginatedResponse IProductDocument) :=
  ProductRepository.searchProducts regexTest sortProducts query.

Definition getProductsByCategory (category : string)
  : M ProductStore (list IProductDocument) :=
  ProductRepository.findByCategory category.

Definition getCategories : M ProductStore (list string) :=
  ProductRepository.getCategories.



End Driver.
End ProductService.

(* ================================================================== *)
(** ** The scope the product controller hands to the service *)

Inductive UserRole : Type := ADMIN | USER | MANAGER.

Definition is_admin (r : UserRole) : bool :=
  match r with
  | ADMIN => true
  | _ => false
  end.

Module ProductController.

(** [userRole === UserRole.ADMIN ? undefined : userId], used by
    [getProductById], [updateStock], [adjustStock], [getLowStockProducts]. *)
Definition ownerUserId_or_undefined (userRole : UserRole) (userId : string)
  : option string :=
  if is_admin userRole then None else Some userId.

(** [userRole === UserRole.ADMIN ? '' : userId], used by [updateProduct]
    and [deleteProduct]. *)
Definition ownerUserId_or_empty (userRole : UserRole) (userId : string)
  : string :=
  if is_admin userRole then "" else userId.

End ProductController.

(* ================================================================== *)
(** ** Users: documents, UserRepository *)

Module User.
Record t : Type := mk {
  _id : string;
  email : string;
  password : string;
  firstName : string;
  lastName : string;
  role : UserRole;
  isActive : bool;
  profileImage : option string;
  lastLoginAt : option Z
}.
End User.

Definition IUserDocument : Type := User.t.
Definition UserStore : Type := list IUserDocument.

(** The update documents [UserRepository] and [AuthService] pass to
    [findByIdAndUpdate]. *)
Module UserUpdate.
Record t : Type := mk {
  password : option string;
  firstName : option string;
  lastName : option string;
  profileImage : option string;
  lastLoginAt : option Z
}.

(** [{ lastLoginAt: new Date() }]. *)
Definition of_lastLoginAt (now : Z) : t := mk None None None None (Some now).
(** [{ password }]. *)
Definition of_password (p : string) : t := mk (Some p) None None None None.
End UserUpdate.

Module UserRepository.
Section Schema.

(** Modelled from the spec: models/User.ts is not among the sources. The
    spec delegates the hashing of a password to the store layer;
    [hashPassword] is what the store keeps for a password it is given. *)
Variable hashPassword : string -> string.

Definition applyUserUpdate (u : UserUpdate.t) (d : IUserDocument) : IUserDocument :=
  {| User._id := User._id d;
     User.email := User.email d;
     User.password := or_keep (option_map hashPassword (UserUpdate.password u))
                        (User.password d);
     User.firstName := or_keep (UserUpdate.firstName u) (User.firstName d);
     User.lastName := or_keep (UserUpdate.lastName u) (User.lastName d);
     User.role := User.role d;
     User.isActive := User.isActive d;
     User.profileImage :=
       match UserUpdate.profileImage u with
       | Some v => Some v
       | None => User.profileImage d
       end;
     User.lastLoginAt :=
       match UserUpdate.lastLoginAt u with
       | Some v => Some v
       | None => User.lastLoginAt d
       end |}.

(** [update(id, data)] of [BaseRepository]. *)
Definition update (id : string) (u : UserUpdate.t)
  : M UserStore (option IUserDocument) :=
  BaseRepository.update User._id id (inr (applyUserUpdate u)).

Definition findByEmailWithPassword (email : string)
  : M UserStore (option IUserDocument) :=
  BaseRepository.findOne
    (fun d => String.eqb (User.email d) (JS.toLowerCase email)).

(** [now] is the value of [new Date()]. *)
Definition updateLastLogin (now : Z) (userId : string)
  : M UserStore (option IUserDocument) :=
  BaseRepository.findByIdAndUpdate User._id userId
    (inr (applyUserUpdate (UserUpdate.of_lastLoginAt now))).

(** [findById(id)] of [BaseRepository]. The document is returned as
    stored: which fields the missing schema leaves out of a plain query is
    not modelled. *)
Definition findById (id : string) : M UserStore (option IUserDocument) :=
  BaseRepository.findById User._id id.

Definition findActiveUsers : M UserStore (list IUserDocument) :=
  BaseRepository.find User.isActive.

(** The modification [{ isActive: b }] makes. *)
Definition set_isActive (b : bool) (d : IUserDocument) : IUserDocument :=
  {| User._id := User._id d;
     User.email := User.email d;
     User.password := User.password d;
     User.firstName := User.firstName d;
     User.lastName := User.lastName d;
     User.role := User.role d;
     User.isActive := b;
     User.profileImage := User.profileImage d;
     User.lastLoginAt := User.lastLoginAt d |}.

Definition deactivateUser (userId : string) : M UserStore (option IUserDocument) :=
  BaseRepository.findByIdAndUpdate User._id userId (inr (set_isActive false)).

Definition activateUser (userId : string) : M UserStore (option IUserDocument) :=
  BaseRepository.findByIdAndUpdate User._id userId (inr (set_isActive true)).

End Schema.
End UserRepository.

(* ================================================================== *)
(** ** AuthService *)

Module LoginRequest.
Record t : Type := mk { email : string; password : string }.
End LoginRequest.

Module IJWTPayload.
Record t : Type := mk { userId : string; email : string; role : UserRole }.
End IJWTPayload.

(** A user object once [delete userObj.password] has run. *)
Module SanitizedUser.
Record t : Type := mk {
  _id : string;
  email : string;
  firstName : string;
  lastName : string;
  role : UserRole;
  isActive : bool;
  profileImage : option string;
  lastLoginAt : option Z
}.
End SanitizedUser.

Module AuthResponse.
Record t : Type := mk { user : SanitizedUser.t; token : string }.
End AuthResponse.

Definition msg_invalid_credentials : string := "Invalid email or password".
Definition msg_deactivated : string :=
  "Account is deactivated. Please contact support".
Definition msg_user_not_found : string := "User not found".
Definition msg_wrong_current_password : string := "Current password is incorrect".
Definition msg_user_inactive : string := "User not found or inactive".
Definition msg_invalid_token : string := "Invalid or expired token".

(** [Partial<IUserDocument>], the body of a profile update. *)
Module ProfileData.
Record t : Type := mk {
  email : option string;
  password : option string;
  firstName : option string;
  lastName : option string;
  role : option UserRole;
  isActive : option bool;
  profileImage : option string
}.
End ProfileData.

Module AuthService.
Section Collaborators.

Variable hashPassword : string -> string.
(** Modelled from the spec: [comparePassword] is a method of the user
    schema, which is not among the sources; it tells whether a candidate
    password matches a stored hash. *)
Variable passwordMatches : string -> string -> bool.
(** [jwt.sign(payload, secret, { expiresIn })]. *)
Variable jwtSign : IJWTPayload.t -> string.

Definition comparePassword (user : IUserDocument) (candidatePassword : string)
  : bool :=
  passwordMatches candidatePassword (User.password user).

Definition generateToken (user : IUserDocument) : string :=
  jwtSign {| IJWTPayload.userId := User._id user;
             IJWTPayload.email := User.email user;
             IJWTPayload.role := User.role user |}.

Definition sanitizeUser (user : IUserDocument) : SanitizedUser.t :=
  {| SanitizedUser._id := User._id user;
     SanitizedUser.email := User.email user;
     SanitizedUser.firstName := User.firstName user;
     SanitizedUser.lastName := User.lastName user;
     SanitizedUser.role := User.role user;
     SanitizedUser.isActive := User.isActive user;
     SanitizedUser.profileImage := User.profileImage user;
     SanitizedUser.lastLoginAt := User.lastLoginAt user |}.

Definition login (now : Z) (credentials : LoginRequest.t)
  : M UserStore AuthResponse.t :=
  user <- UserRepository.findByEmailWithPassword (LoginRequest.email credentials) ;;
  match user with
  | None => throw (Error msg_invalid_credentials)
  | Some u =>
      if negb (User.isActive u) then throw (Error msg_deactivated)
      else if negb (comparePassword u (LoginRequest.password credentials))
      then throw (Error msg_invalid_credentials)
      else
        UserRepository.updateLastLogin hashPassword now (User._id u) ;;;
        ret {| AuthResponse.user := sanitizeUser u;
               AuthResponse.token := generateToken u |}
  end.

Definition changePassword (userId : string)
    (currentPassword newPassword : string)
  : M UserStore unit :=
  user <- UserRepository.findByEmailWithPassword "" ;;
  match user with
  | None => throw (Error msg_user_not_found)
  | Some u =>
      if negb (comparePassword u currentPassword)
      then throw (Error msg_wrong_current_password)
      else
        UserRepository.update hashPassword userId
          (UserUpdate.of_password newPassword) ;;;
        ret tt
  end.

(** [jwt.verify(token, secret)]: the payload of a token that is signed
    with the secret and has not expired, nothing for any other token. *)
Variable jwtVerify : string -> option IJWTPayload.t.

Definition getCurrentUser (userId : string) : M UserStore (option IUserDocument) :=
  user <- UserRepository.findById userId ;;
  match user with
  | None => ret None
  | Some u => if negb (User.isActive u) then ret None else ret (Some u)
  end.

Definition refreshToken (userId : string) : M UserStore string :=
  user <- UserRepository.findById userId ;;
  match user with
  | None => throw (Error msg_user_inactive)
  | Some u =>
      if negb (User.isActive u) then throw (Error msg_user_inactive)
      else ret (generateToken u)
  end.

Definition verifyToken (token : string) : Exn + IJWTPayload.t :=
  match jwtVerify token with
  | Some decoded => inr decoded
  | None => inl (Error msg_invalid_token)
  end.

(** [filteredData]: the allowed fields that the body defines. *)
Definition filteredData (profileData : ProfileData.t) : UserUpdate.t :=
  {| UserUpdate.password := None;
     UserUpdate.firstName := ProfileData.firstName profileData;
     UserUpdate.lastName := ProfileData.lastName profileData;
     UserUpdate.profileImage := ProfileData.profileImage profileData;
     UserUpdate.lastLoginAt := None |}.

Definition updateProfile (userId : string) (profileData : ProfileData.t)
  : M UserStore (option IUserDocument) :=
  UserRepository.update hashPassword userId (filteredData profileData).

End Collaborators.
End AuthService.

(* ================================================================== *)
(** ** Error handler (middleware/errorHandler.ts) *)

(** What a handler answers: the status and the envelope, less its payload
    and the stack trace shown in development. *)
Module ApiResponse.
Record t : Type := mk { status : Z; success : bool; message : string }.
End ApiResponse.

(** An error object as the handler reads it. *)
Module AppError.
Record t : Type := mk {
  name : string;
  message : string;
  statusCode : option Z;
  (** [errors] of a validation error: the messages, path by path. *)
  errors : list string;
  (** [keyValue] of a duplicate-key error. *)
  keyValue : list (string * string)
}.
End AppError.

Module ErrorHandler.

Definition handleValidationError (error : AppError.t) : string :=
  String.append "Validation Error: " (JS.join ". " (AppError.errors error)).

(** [Object.keys(error.keyValue)[0]] and its value, [undefined] printed as
    such when there is none. *)
Definition handleDuplicateKeyError (error : AppError.t) : string :=
  match AppError.keyValue error with
  | (field, value) :: _ =>
      String.append field
        (String.append " '" (String.append value "' already exists"))
  | [] => "undefined 'undefined' already exists"
  end.

(** [error.statusCode || 500]: 0 is falsy. *)
Definition statusCode_or_500 (error : AppError.t) : Z :=
  match AppError.statusCode error with
  | Some c => if c =? 0 then 500 else c
  | None => 500
  end.

Definition handle (error : AppError.t) : ApiResponse.t :=
  let statusCode := statusCode_or_500 error in
  let message :=
    if String.eqb (AppError.message error) "" then "Internal Server Error"
    else AppError.message error in
  if String.eqb (AppError.name error) "ValidationError" then
    ApiResponse.mk 400 false (handleValidationError error)
  else if String.eqb (AppError.name error) "CastError" then
    ApiResponse.mk 400 false "Invalid ID format"
  else if (String.eqb (AppError.name error) "MongoServerError"
           && JS.includes (AppError.message error) "duplicate key")%bool then
    ApiResponse.mk 409 false (handleDuplicateKeyError error)
  else if String.eqb (AppError.name error) "JsonWebTokenError" then
    ApiResponse.mk 401 false "Invalid token"
  else if String.eqb (AppError.name error) "TokenExpiredError" then
    ApiResponse.mk 401 false "Token expired"
  else ApiResponse.mk statusCode false message.

(** [createError(message, statusCode)]. *)
Definition createError (message : string) (statusCode : Z) : AppError.t :=
  AppError.mk "Error" message (Some statusCode) [] [].

(** The error objects behind the two kinds of exception of this
    development: [new Error(message)] carries neither status nor list of
    errors. *)
Definition thrown (e : Exn) : AppError.t :=
  match e with
  | Error message => AppError.mk "Error" message None [] []
  | ValidationError messages =>
      (* its own message is not read by the handler *)
      AppError.mk "ValidationError" "" None messages []
  end.

(** [catchAsync(fn)] followed by the handler: the answer of [fn], or the
    handler's answer to what [fn] throws. *)
Definition catchAsync {S A : Type} (fn : M S A) (answer : A -> ApiResponse.t)
  : S -> ApiResponse.t * S :=
  fun s =>
    match fn s with
    | (inl e, s') => (handle (thrown e), s')
    | (inr a, s') => (answer a, s')
    end.

End ErrorHandler.

(* ================================================================== *)
(** ** Authentication middleware (middleware/auth.ts) *)

(** A middleware answers the request or hands it on. *)
Inductive Handled (A : Type) : Type :=
| Responded (response : ApiResponse.t)
| Next (passed : A).
Arguments Responded {A} _.
Arguments Next {A} _.

Module AuthMiddleware.
Section Collaborators.

Variable jwtVerify : string -> option IJWTPayload.t.

(** [extractToken(req)], on the [authorization] header. *)
Definition extractToken (authHeader : option string) : option string :=
  if negb (JS.truthy authHeader) then None
  else
    match JS.split " " (JS.or_empty authHeader) with
    | [scheme; token] => if String.eqb scheme "Bearer" then Some token else None
    | _ => None
    end.

(** [authenticate]: on success the decoded payload becomes [req.user]. *)
Definition authenticate (authHeader : option string)
  : M UserStore (Handled IJWTPayload.t) :=
  let token := extractToken authHeader in
  if negb (JS.truthy token) then
    ret (Responded (ApiResponse.mk 401 false "Access token is required"))
  else
    match AuthService.verifyToken jwtVerify (JS.or_empty token) with
    | inl _ =>
        ret (Responded (ApiResponse.mk 401 false "Invalid or expired token"))
    | inr decoded =>
        user <- AuthService.getCurrentUser (IJWTPayload.userId decoded) ;;
        match user with
        | None =>
            ret (Responded (ApiResponse.mk 401 false "User not found or inactive"))
        | Some _ => ret (Next decoded)
        end
    end.

Definition role_eqb (a b : UserRole) : bool :=
  match a, b with
  | ADMIN, ADMIN | USER, USER | MANAGER, MANAGER => true
  | _, _ => false
  end.

(** [authorize(allowedRoles)], on [req.user]. *)
Definition authorize (allowedRoles : list UserRole) (user : option IJWTPayload.t)
  : Handled unit :=
  match user with
  | None => Responded (ApiResponse.mk 401 false "Authentication required")
  | Some u =>
      if negb (existsb (role_eqb (IJWTPayload.role u)) allowedRoles)
      then Responded (ApiResponse.mk 403 false "Insufficient permissions")
      else Next tt
  end.

Definition adminOnly (user : option IJWTPayload.t) : Handled unit :=
  authorize [ADMIN] user.

Definition managerOrAdmin (user : option IJWTPayload.t) : Handled unit :=
  authorize [MANAGER; ADMIN] user.

End Collaborators.
End AuthMiddleware.

(* ================================================================== *)
(** ** The product handlers behind [catchAsync] and the error handler *)

Module ProductEndpoints.

Definition not_authenticated : ApiResponse.t :=
  ApiResponse.mk 401 false "User not authenticated".

(** [req.user?.userId]. *)
Definition userId_of (user : option IJWTPayload.t) : option string :=
  option_map IJWTPayload.userId user.

(** [userRole === UserRole.ADMIN ? undefined : userId] on an optional
    identity. *)
Definition ownerUserId (user : option IJWTPayload.t) : option string :=
  match user with
  | Some u =>
      ProductController.ownerUserId_or_undefined (IJWTPayload.role u)
        (IJWTPayload.userId u)
  | None => None
  end.

Definition createProduct (newId : string) (user : option IJWTPayload.t)
    (productData : CreateProductRequest.t)
  : ProductStore -> ApiResponse.t * ProductStore :=
  if negb (JS.truthy (userId_of user)) then fun st => (not_authenticated, st)
  else
    ErrorHandler.catchAsync
      (ProductService.createProduct newId (JS.or_empty (userId_of user)) productData)
      (fun _ => ApiResponse.mk 201 true "Product created successfully").

Definition getProductById (user : option IJWTPayload.t) (id : string)
  : ProductStore -> ApiResponse.t * ProductStore :=
  ErrorHandler.catchAsync
    (ProductService.getProductById id (ownerUserId user))
    (fun product =>
       match product with
       | None => ApiResponse.mk 404 false "Product not found"
       | Some _ => ApiResponse.mk 200 true "Product retrieved successfully"
       end).

Definition updateProduct (user : option IJWTPayload.t) (id : string)
    (updateData : UpdateProductRequest.t)
  : ProductStore -> ApiResponse.t * ProductStore :=
  match user with
  | Some u =>
      if negb (JS.truthy (userId_of user)) then fun st => (not_authenticated, st)
      else
        ErrorHandler.catchAsync
          (ProductService.updateProduct id
             (ProductController.ownerUserId_or_empty (IJWTPayload.role u)
                (IJWTPayload.userId u))
             updateData)
          (fun _ => ApiResponse.mk 200 true "Product updated successfully")
  | None => fun st => (not_authenticated, st)
  end.

Definition deleteProduct (user : option IJWTPayload.t) (id : string)
  : ProductStore -> ApiResponse.t * ProductStore :=
  match user with
  | Some u =>
      if negb (JS.truthy (userId_of user)) then fun st => (not_authenticated, st)
      else
        ErrorHandler.catchAsync
          (ProductService.deleteProduct id
             (ProductController.ownerUserId_or_empty (IJWTPayload.role u)
                (IJWTPayload.userId u)))
          (fun success =>
             if success
             then ApiResponse.mk 200 true "Product deleted successfully"
             else ApiResponse.mk 400 false "Failed to delete product")
  | None => fun st => (not_authenticated, st)
  end.

Definition updateStock (user : option IJWTPayload.t) (id : string) (quantity : Z)
  : ProductStore -> ApiResponse.t * ProductStore :=
  if negb (JS.truthy (userId_of user)) then fun st => (not_authenticated, st)
  else
    ErrorHandler.catchAsync
      (ProductService.updateStock id quantity (ownerUserId user))
      (fun _ => ApiResponse.mk 200 true "Stock updated successfully").

Definition adjustStock (user : option IJWTPayload.t) (id : string) (adjustment : Z)
  : ProductStore -> ApiResponse.t * ProductStore :=
  if negb (JS.truthy (userId_of user)) then fun st => (not_authenticated, st)
  else
    ErrorHandler.catchAsync
      (ProductService.adjustStock id adjustment (ownerUserId user))
      (fun _ => ApiResponse.mk 200 true "Stock adjusted successfully").

End ProductEndpoints.

(* ================================================================== *)
(** ** Vocabulary of the properties *)

(** Identifiers of a collection are pairwise distinct. *)
Definition ids_unique (st : ProductStore) : Prop :=
  NoDup (map Product._id st).

(** Every stored SKU is what the schema's setters produce: in upper case
    and trimmed. *)
Definition skus_upper (st : ProductStore) : Prop :=
  forall p, In p st -> Product.set_sku (Product.sku p) = Product.sku p.

(** No stored quantity is negative. *)
Definition quantities_nonneg (st : ProductStore) : Prop :=
  forall p, In p st -> 0 <= Product.quantity p.

(** A product a caller with scope [userId] may reach: active, and owned by
    the caller when the scope is a non-empty string. *)
Definition visible (userId : option string) (p : IProductDocument) : bool :=
  (Product.isActive p
   && negb (JS.truthy userId
            && negb (String.eqb (Product.userId p) (JS.or_empty userId))))%bool.

(** The document stored under an identifier, if any. *)
Definition stored (st : ProductStore) (productId : string)
  : option IProductDocument :=
  List.find (BaseRepository.has_id Product._id productId) st.

(** The product with its quantity replaced. *)
Definition with_quantity (q : Z) (p : IProductDocument) : IProductDocument :=
  applyProductUpdate (ProductUpdate.of_quantity q) p.

(** Identifiers of the user collection are pairwise distinct. *)
Definition user_ids_unique (users : UserStore) : Prop :=
  NoDup (map User._id users).

(** No stored price and no stored minimum stock level is negative. *)
Definition prices_nonneg (st : ProductStore) : Prop :=
  forall p, In p st -> 0 <= Product.price p.

Definition minStockLevels_nonneg (st : ProductStore) : Prop :=
  forall p, In p st -> 0 <= Product.minStockLevel p.

(** What of a user an update of the profile must leave alone. *)
Definition credentials (u : IUserDocument)
  : string * string * string * UserRole * bool :=
  (User._id u, User.email u, User.password u, User.role u, User.isActive u).

(** The collection is as it was, or one product the scope reaches was
    modified by an update the validators accept. *)
Definition wrote_one (scope : option string) (productId : string)
    (st st' : ProductStore) : Prop :=
  st' = st
  \/ exists p u,
      stored st productId = Some p
      /\ visible scope p = true
      /\ castProductUpdate u = inr (applyProductUpdate u)
      /\ st' = BaseRepository.replace_first Product._id productId
                 (applyProductUpdate u) st.

(** The scope reaches a product under the identifier. *)
Definition reachable (scope : option string) (st : ProductStore)
    (productId : string) : Prop :=
  exists p, ProductService.getProductById productId scope st = (inr (Some p), st).

(** [a] comes no later than [b] in the order of [sort()]. *)
Definition leb_true (a b : string) : Prop := String.leb a b = true.

(** The character occurs in the string. *)
Fixpoint has_char (c : ascii) (s : string) : bool :=
  match s with
  | EmptyString => false
  | String x rest => (Ascii.eqb x c || has_char c rest)%bool
  end.

(** The user stored under an identifier, if any. *)
Definition stored_user (users : UserStore) (userId : string)
  : option IUserDocument :=
  List.find (BaseRepository.has_id User._id userId) users.

(** Whatever another user owns is stored as before. *)
Definition spares_others (scope : string) (st st' : ProductStore) : Prop :=
  forall other p,
    stored st other = Some p -> Product.userId p <> scope ->
    stored st' other = Some p.

(** The invariants of the product collection. *)
Definition store_ok (st : ProductStore) : Prop :=
  ids_unique st /\ skus_upper st /\ quantities_nonneg st
  /\ prices_nonneg st /\ minStockLevels_nonneg st.

(** The product soft-deleted. *)
Definition deactivated (p : IProductDocument) : IProductDocument :=
  applyProductUpdate (ProductUpdate.of_isActive false) p.

(* ================================================================== *)
(** ** Sample collections and collaborators *)

Module Sample.

Definition widget : IProductDocument :=
  {| Product._id := "p1"; Product.name := "Widget"; Product.description := None;
     Product.sku := "ABC-1"; Product.category := "tools";
     Product.price := 250; Product.quantity := 10; Product.minStockLevel := 5;
     Product.images := []; Product.isActive := true; Product.userId := "u1" |}.

Definition gadget : IProductDocument :=
  {| Product._id := "p2"; Product.name := "Gadget";
     Product.description := Some "pocket size";
     Product.sku := "X1"; Product.category := "tools";
     Product.price := 990; Product.quantity := 3; Product.minStockLevel := 5;
     Product.images := ["https://img.example/x1.png"];
     Product.isActive := true; Product.userId := "u2" |}.

Definition products : ProductStore := [widget; gadget].

(** A request of another user for the SKU of [gadget] in lower case. *)
Definition request_x1 : CreateProductRequest.t :=
  {| CreateProductRequest.name := "Other gadget";
     CreateProductRequest.description := None;
     CreateProductRequest.sku := "x1";
     CreateProductRequest.category := "toys";
     CreateProductRequest.price := 100;
     CreateProductRequest.quantity := 1;
     CreateProductRequest.minStockLevel := 5;
     CreateProductRequest.images := None |}.

(** The same request with a space before the SKU. *)
Definition request_padded_x1 : CreateProductRequest.t :=
  {| CreateProductRequest.name := "Other gadget";
     CreateProductRequest.description := None;
     CreateProductRequest.sku := " x1";
     CreateProductRequest.category := "toys";
     CreateProductRequest.price := 100;
     CreateProductRequest.quantity := 1;
     CreateProductRequest.minStockLevel := 5;
     CreateProductRequest.images := None |}.

(** A request for a SKU nobody has, with a negative price. *)
Definition request_negative_price : CreateProductRequest.t :=
  {| CreateProductRequest.name := "Sprocket";
     CreateProductRequest.description := None;
     CreateProductRequest.sku := "NEW-7";
     CreateProductRequest.category := "tools";
     CreateProductRequest.price := -1;
     CreateProductRequest.quantity := 1;
     CreateProductRequest.minStockLevel := 5;
     CreateProductRequest.images := None |}.

(** A request for a SKU nobody has. *)
Definition request_new : CreateProductRequest.t :=
  {| CreateProductRequest.name := " Sprocket ";
     CreateProductRequest.description := None;
     CreateProductRequest.sku := "new-7";
     CreateProductRequest.category := "tools";
     CreateProductRequest.price := 100;
     CreateProductRequest.quantity := 1;
     CreateProductRequest.minStockLevel := 5;
     CreateProductRequest.images := None |}.

Definition stored_new : IProductDocument :=
  {| Product._id := "p3"; Product.name := "Sprocket";
     Product.description := None;
     Product.sku := "NEW-7"; Product.category := "tools";
     Product.price := 100; Product.quantity := 1; Product.minStockLevel := 5;
     Product.images := []; Product.isActive := true; Product.userId := "u9" |}.

(** An update that re-submits the SKU of [widget] in lower case. *)
Definition resubmit_own_sku : UpdateProductRequest.t :=
  {| UpdateProductRequest.name := None;
     UpdateProductRequest.description := None;
     UpdateProductRequest.sku := Some "abc-1";
     UpdateProductRequest.category := None;
     UpdateProductRequest.price := None;
     UpdateProductRequest.quantity := None;
     UpdateProductRequest.minStockLevel := None;
     UpdateProductRequest.images := None |}.

Fixpoint contains (field pattern : string) : bool :=
  (String.prefix pattern field
   || match field with
      | EmptyString => false
      | String _ rest => contains rest pattern
      end)%bool.

(** A pattern without metacharacters matches where it occurs, whatever the
    letter case. *)
Definition regexTest (pattern field : string) : bool :=
  contains (JS.toUpperCase field) (JS.toUpperCase pattern).

(** Documents in insertion order. *)
Definition sortProducts (sortBy : string) (order : SortOrder)
    (docs : ProductStore) : ProductStore := docs.

Definition matchUserId (given owner : string) : bool := String.eqb given owner.

Definition hashPassword (password : string) : string :=
  String.append "hash:" password.

Definition passwordMatches (candidate hash : string) : bool :=
  String.eqb hash (hashPassword candidate).

Definition jwtSign (payload : IJWTPayload.t) : string :=
  String.append "token:" (IJWTPayload.userId payload).

Definition alice : IUserDocument :=
  {| User._id := "u1"; User.email := "a@x.com";
     User.password := hashPassword "secret123";
     User.firstName := "Alice"; User.lastName := "A"; User.role := USER;
     User.isActive := true; User.profileImage := None;
     User.lastLoginAt := None |}.

Definition bob : IUserDocument :=
  {| User._id := "u2"; User.email := "b@x.com";
     User.password := hashPassword "hunter2";
     User.firstName := "Bob"; User.lastName := "B"; User.role := USER;
     User.isActive := false; User.profileImage := None;
     User.lastLoginAt := None |}.

Definition users : UserStore := [alice; bob].

(** The identities of two callers, as the authentication middleware
    attaches them to a request. *)
Definition alice_identity : IJWTPayload.t :=
  {| IJWTPayload.userId := "u1"; IJWTPayload.email := "a@x.com";
     IJWTPayload.role := USER |}.

Definition admin_identity : IJWTPayload.t :=
  {| IJWTPayload.userId := "u9"; IJWTPayload.email := "root@x.com";
     IJWTPayload.role := ADMIN |}.

(** The one token that verifies is the token of [alice]. *)
Definition jwtVerify (token : string) : option IJWTPayload.t :=
  if String.eqb token "token:u1" then Some alice_identity else None.

(** The body of a profile update that names every field of a user. *)
Definition profile_all_fields : ProfileData.t :=
  {| ProfileData.email := Some "root@x.com";
     ProfileData.password := Some "letmein";
     ProfileData.firstName := Some "Alicia";
     ProfileData.lastName := None;
     ProfileData.role := Some ADMIN;
     ProfileData.isActive := Some false;
     ProfileData.profileImage := Some "https://img.example/a.png" |}.

(** [widget] soft-deleted, beside [gadget]. *)
Definition products_after_delete : ProductStore :=
  [deactivated widget; gadget].

End Sample.

(* ================================================================== *)
(** * Properties *)

(** ** Letter case and trimming *)

Lemma upper_char_idem (c : ascii) : JS.upper_char (JS.upper_char c) = JS.upper_char c.
Proof. destruct c as [[] [] [] [] [] [] [] []]; vm_compute; reflexivity. Qed.

Lemma is_space_upper_char (c : ascii) : JS.is_space (JS.upper_char c) = JS.is_space c.
Proof. destruct c as [[] [] [] [] [] [] [] []]; vm_compute; reflexivity. Qed.

Lemma toUpperCase_idem (s : string) :
  JS.toUpperCase (JS.toUpperCase s) = JS.toUpperCase s.
Proof.
  unfold JS.toUpperCase.
  induction s as [|c s IH]; simpl; [reflexivity|].
  now rewrite upper_char_idem, IH.
Qed.

Lemma toUpperCase_trimStart (s : string) :
  JS.toUpperCase (JS.trimStart s) = JS.trimStart (JS.toUpperCase s).
Proof.
  unfold JS.toUpperCase.
  induction s as [|c s IH]; simpl; [reflexivity|].
  rewrite is_space_upper_char.
  destruct (JS.is_space c); [exact IH | reflexivity].
Qed.

Lemma toUpperCase_trimEnd (s : string) :
  JS.toUpperCase (JS.trimEnd s) = JS.trimEnd (JS.toUpperCase s).
Proof.
  unfold JS.toUpperCase.
  induction s as [|c s IH]; simpl; [reflexivity|].
  rewrite <- IH, is_space_upper_char.
  destruct (JS.trimEnd s); simpl; [destruct (JS.is_space c)|]; reflexivity.
Qed.

Lemma toUpperCase_trim (s : string) :
  JS.toUpperCase (JS.trim s) = JS.trim (JS.toUpperCase s).
Proof.
  unfold JS.trim. now rewrite toUpperCase_trimEnd, toUpperCase_trimStart.
Qed.

Lemma trimEnd_idem (s : string) : JS.trimEnd (JS.trimEnd s) = JS.trimEnd s.
Proof.
  induction s as [|c s IH]; simpl; [reflexivity|].
  destruct (JS.trimEnd s) as [|c' t] eqn:E.
  - destruct (JS.is_space c) eqn:Hc; simpl; [reflexivity|]. now rewrite Hc.
  - simpl. simpl in IH. rewrite IH. reflexivity.
Qed.

Lemma trimStart_idem (s : string) :
  JS.trimStart (JS.trimStart s) = JS.trimStart s.
Proof.
  induction s as [|c s IH]; simpl; [reflexivity|].
  destruct (JS.is_space c) eqn:Hc; [exact IH|]. simpl. now rewrite Hc.
Qed.

(** A string that starts with something else than white space keeps its
    first character when it is trimmed at the end. *)
Lemma trimStart_trimEnd_fixed (s : string) :
  JS.trimStart s = s -> JS.trimStart (JS.trimEnd s) = JS.trimEnd s.
Proof.
  destruct s as [|c s]; [reflexivity|].
  simpl. destruct (JS.is_space c) eqn:Hc.
  - intros H. exfalso.
    assert (Hlen : forall t,
               (String.length (JS.trimStart t) <= String.length t)%nat).
    { induction t as [|x t IH]; simpl; [lia|].
      destruct (JS.is_space x); simpl; lia. }
    pose proof (Hlen s) as Hl. rewrite H in Hl. simpl in Hl. lia.
  - intros _. destruct (JS.trimEnd s); simpl; now rewrite Hc.
Qed.

Lemma trim_idem (s : string) : JS.trim (JS.trim s) = JS.trim s.
Proof.
  unfold JS.trim.
  rewrite (trimStart_trimEnd_fixed (JS.trimStart s) (trimStart_idem s)).
  apply trimEnd_idem.
Qed.

(** What the schema stores for a SKU is in upper case. *)
Lemma set_sku_upper (s : string) :
  JS.toUpperCase (Product.set_sku s) = Product.set_sku s.
Proof.
  unfold Product.set_sku. now rewrite toUpperCase_trim, toUpperCase_idem.
Qed.

(** It is trimmed, and the setter leaves it alone. *)
Lemma set_sku_trimmed (s : string) :
  JS.trim (Product.set_sku s) = Product.set_sku s.
Proof. unfold Product.set_sku. apply trim_idem. Qed.

Lemma set_sku_idem (s : string) :
  Product.set_sku (Product.set_sku s) = Product.set_sku s.
Proof.
  unfold Product.set_sku at 1. now rewrite set_sku_upper, set_sku_trimmed.
Qed.

(** The setter does not see the letter case of what it is given, nor the
    white space around it. *)
Lemma set_sku_toUpperCase (s : string) :
  Product.set_sku (JS.toUpperCase s) = Product.set_sku s.
Proof. unfold Product.set_sku. now rewrite toUpperCase_idem. Qed.

Lemma set_sku_trim (s : string) :
  Product.set_sku (JS.trim s) = Product.set_sku s.
Proof.
  unfold Product.set_sku. now rewrite toUpperCase_trim, trim_idem.
Qed.

Lemma eq_ignore_case_refl (s : string) : JS.eq_ignore_case s s.
Proof. reflexivity. Qed.

Lemma eq_ignore_case_upper (s : string) : JS.eq_ignore_case (JS.toUpperCase s) s.
Proof. unfold JS.eq_ignore_case. apply toUpperCase_idem. Qed.

(** ** Collections *)

Section CollectionFacts.

Context {T : Type}.
Variable doc_id : T -> string.
Variable f : T -> T.
Hypothesis f_keeps_id : forall d, doc_id (f d) = doc_id d.

Lemma find_replace_first_same (id : string) (docs : list T) :
  List.find (BaseRepository.has_id doc_id id)
    (BaseRepository.replace_first doc_id id f docs)
  = option_map f (List.find (BaseRepository.has_id doc_id id) docs).
Proof.
  induction docs as [|d rest IH]; simpl; [reflexivity|].
  destruct (BaseRepository.has_id doc_id id d) eqn:E; simpl.
  - unfold BaseRepository.has_id in *. now rewrite f_keeps_id, E.
  - now rewrite E.
Qed.

Lemma find_replace_first_other (id id' : string) (docs : list T) :
  id' <> id ->
  List.find (BaseRepository.has_id doc_id id')
    (BaseRepository.replace_first doc_id id f docs)
  = List.find (BaseRepository.has_id doc_id id') docs.
Proof.
  intros Hne.
  induction docs as [|d rest IH]; simpl; [reflexivity|].
  destruct (BaseRepository.has_id doc_id id d) eqn:E; simpl.
  - unfold BaseRepository.has_id in *.
    rewrite f_keeps_id.
    apply String.eqb_eq in E. rewrite E.
    destruct (String.eqb id id') eqn:E'; [|reflexivity].
    apply String.eqb_eq in E'. congruence.
  - now rewrite IH.
Qed.

Lemma map_id_replace_first (id : string) (docs : list T) :
  map doc_id (BaseRepository.replace_first doc_id id f docs) = map doc_id docs.
Proof.
  induction docs as [|d rest IH]; simpl; [reflexivity|].
  destruct (BaseRepository.has_id doc_id id d); simpl.
  - now rewrite f_keeps_id.
  - now rewrite IH.
Qed.


Lemma In_replace_first_other (id : string) (docs : list T) (x : T) :
  In x (BaseRepository.replace_first doc_id id f docs) ->
  doc_id x <> id ->
  In x docs.
Proof.
  induction docs as [|d rest IH]; simpl; [tauto|].
  destruct (BaseRepository.has_id doc_id id d) eqn:E; simpl.
  - intros [<- | Hin] Hne; [|now right].
    unfold BaseRepository.has_id in E. apply String.eqb_eq in E.
    rewrite f_keeps_id in Hne. contradiction.
  - intros [<- | Hin] Hne; [now left | right; now apply IH].
Qed.

Lemma In_replace_first_cases (id : string) (docs : list T) (x : T) :
  In x (BaseRepository.replace_first doc_id id f docs) ->
  In x docs \/ exists d, In d docs /\ x = f d.
Proof.
  induction docs as [|d rest IH]; simpl; [tauto|].
  destruct (BaseRepository.has_id doc_id id d); simpl.
  - intros [<- | Hin]; [right; exists d; tauto | left; tauto].
  - intros [<- | Hin]; [left; tauto|].
    destruct (IH Hin) as [H | (d' & H & ->)]; [left; tauto|].
    right. exists d'. tauto.
Qed.

End CollectionFacts.

(** ** Product look-up *)

Ltac run_eff :=
  unfold BaseRepository.findById, BaseRepository.findOne, BaseRepository.find in *;
  unfold bind, ret, throw, gets in *;
  cbn beta iota in *.

Lemma findById_stored (st : ProductStore) (productId : string) :
  ProductRepository.findById productId st = (inr (stored st productId), st).
Proof. reflexivity. Qed.

Lemma getProductById_eq (st : ProductStore) (productId : string)
    (userId : option string) :
  ProductService.getProductById productId userId st
  = (inr match stored st productId with
         | Some p => if visible userId p then Some p else None
         | None => None
         end, st).
Proof.
  unfold ProductService.getProductById, ProductRepository.findById, stored, visible.
  run_eff.
  destruct (List.find (BaseRepository.has_id Product._id productId) st) as [p|];
    [|reflexivity].
  destruct (Product.isActive p); simpl; [|reflexivity].
  destruct (JS.truthy userId); simpl; [|reflexivity].
  destruct (String.eqb (Product.userId p) (JS.or_empty userId)); reflexivity.
Qed.

Lemma getProductById_Some (st : ProductStore) (productId : string)
    (userId : option string) (p : IProductDocument) :
  ProductService.getProductById productId userId st = (inr (Some p), st)
  <-> stored st productId = Some p /\ visible userId p = true.
Proof.
  rewrite getProductById_eq. split.
  - intros H. destruct (stored st productId) as [p'|]; [|discriminate].
    destruct (visible userId p') eqn:V; [|discriminate].
    inversion H; subst. now split.
  - intros [-> ->]. reflexivity.
Qed.

Lemma stored_has_id (st : ProductStore) (productId : string) (p : IProductDocument) :
  stored st productId = Some p -> In p st /\ Product._id p = productId.
Proof.
  intros H. apply find_some in H. destruct H as [Hin Hid].
  split; [assumption|]. now apply String.eqb_eq in Hid.
Qed.

Lemma applyProductUpdate_id (u : ProductUpdate.t) (p : IProductDocument) :
  Product._id (applyProductUpdate u p) = Product._id p.
Proof. reflexivity. Qed.

(** What the repository does for a valid quantity. *)
Lemma repo_updateStock_eq (st : ProductStore) (productId : string) (q : Z)
    (p : IProductDocument) :
  0 <= q ->
  stored st productId = Some p ->
  ProductRepository.updateStock productId q st
  = (inr (Some (with_quantity q p)),
     BaseRepository.replace_first Product._id productId (with_quantity q) st).
Proof.
  intros Hq Hs.
  unfold ProductRepository.updateStock, BaseRepository.findByIdAndUpdate,
    castProductUpdate.
  simpl. unfold Product.validate_quantity. simpl.
  destruct (0 <=? q) eqn:E; [|lia]. simpl.
  unfold stored in Hs. rewrite Hs. reflexivity.
Qed.

Lemma stored_after_replace (st : ProductStore) (productId : string)
    (u : ProductUpdate.t) :
  stored (BaseRepository.replace_first Product._id productId (applyProductUpdate u) st)
    productId
  = option_map (applyProductUpdate u) (stored st productId).
Proof.
  unfold stored. apply find_replace_first_same. intros d. reflexivity.
Qed.

Lemma stored_after_replace_other (st : ProductStore) (productId other : string)
    (u : ProductUpdate.t) :
  other <> productId ->
  stored (BaseRepository.replace_first Product._id productId (applyProductUpdate u) st)
    other
  = stored st other.
Proof.
  intros Hne. unfold stored. apply find_replace_first_other; [|assumption].
  intros d. reflexivity.
Qed.

Lemma visible_with_quantity (userId : option string) (q : Z) (p : IProductDocument) :
  visible userId (with_quantity q p) = visible userId p.
Proof. reflexivity. Qed.

(** [updateStock] on a reachable product and a quantity that is not
    negative. *)
Lemma updateStock_ok (st : ProductStore) (productId : string) (q : Z)
    (userId : option string) (p : IProductDocument) :
  0 <= q ->
  stored st productId = Some p ->
  visible userId p = true ->
  ProductService.updateStock productId q userId st
  = (inr (Some (with_quantity q p)),
     BaseRepository.replace_first Product._id productId (with_quantity q) st).
Proof.
  intros Hq Hs Hv.
  unfold ProductService.updateStock.
  destruct (q <? 0) eqn:E; [lia|].
  unfold bind at 1. rewrite getProductById_eq, Hs, Hv.
  now apply repo_updateStock_eq.
Qed.

(** [updateStock] fails, and writes nothing, on a negative quantity or a
    product out of reach. *)
Lemma updateStock_fails (st : ProductStore) (productId : string) (q : Z)
    (userId : option string) :
  q < 0 \/ ProductService.getProductById productId userId st = (inr None, st) ->
  exists msg,
    ProductService.updateStock productId q userId st = (inl (Error msg), st)
    /\ (msg = msg_negative_quantity \/ msg = msg_not_found).
Proof.
  intros H. unfold ProductService.updateStock.
  destruct (q <? 0) eqn:E.
  - exists msg_negative_quantity. split; [reflexivity | now left].
  - destruct H as [H|H]; [lia|].
    exists msg_not_found. unfold bind. rewrite H. split; [reflexivity | now right].
Qed.

(* ================================================================== *)
(** ** Stock adjustment *)


(** Rounding keeps the sign. *)
Lemma round_to_double_sign (x : Z) :
  (0 <= x -> 0 <= JS.round_to_double x)
  /\ (x < 0 -> JS.round_to_double x < 0).
Proof.
  unfold JS.round_to_double.
  destruct (Z.ltb_spec (Z.abs x) (2 ^ 53)) as [Hlt | Hge]; [lia|].
  set (m := Z.abs x) in *.
  set (e := Z.log2 m - 52).
  assert (Hm : 0 < m) by lia.
  destruct (Z.log2_spec m Hm) as [Hlo _].
  assert (H53 : 53 <= Z.log2 m).
  { apply Z.log2_le_pow2; lia. }
  assert (He : 0 < e) by (unfold e; lia).
  assert (Hpe : 0 < 2 ^ e) by (apply Z.pow_pos_nonneg; lia).
  assert (Hq : 0 < m / 2 ^ e).
  { apply Z.div_str_pos. split; [exact Hpe|].
    eapply Z.le_trans; [|exact Hlo].
    apply Z.pow_le_mono_r; unfold e; lia. }
  set (q := m / 2 ^ e) in *.
  assert (Hq' : 0 <
    (if m mod 2 ^ e <? 2 ^ (e - 1) then q
     else if 2 ^ (e - 1) <? m mod 2 ^ e then q + 1
          else if Z.even q then q else q + 1)).
  { destruct (m mod 2 ^ e <? 2 ^ (e - 1)); [lia|].
    destruct (2 ^ (e - 1) <? m mod 2 ^ e); [lia|].
    destruct (Z.even q); lia. }
  split; intros Hx.
  - assert (x <> 0) by (unfold m in Hm; lia).
    rewrite Z.sgn_pos by lia. nia.
  - rewrite Z.sgn_neg by lia. nia.
Qed.


Lemma add_nonneg (a b : Z) : 0 <= a + b -> 0 <= JS.add a b.
Proof. apply round_to_double_sign. Qed.

Lemma add_neg_iff (a b : Z) : JS.add a b < 0 <-> a + b < 0.
Proof.
  unfold JS.add. destruct (round_to_double_sign (a + b)) as [H1 H2].
  split; intros H; [|now apply H2].
  destruct (Z.lt_ge_cases (a + b) 0) as [Hlt | Hge]; [assumption|].
  specialize (H1 Hge). lia.
Qed.

Lemma add_ltb_0 (a b : Z) : (JS.add a b <? 0) = (a + b <? 0).
Proof.
  destruct (Z.ltb_spec (a + b) 0) as [H | H].
  - apply Z.ltb_lt. now apply add_neg_iff.
  - apply Z.ltb_ge. now apply add_nonneg.
Qed.




(** Whatever its outcome, [adjustStock] leaves no negative quantity in a
    collection that had none. *)
Lemma adjustStock_keeps_quantities_nonneg
    (st st' : ProductStore) (productId : string) (adjustment : Z)
    (userId : option string) (r : Exn + option IProductDocument) :
  quantities_nonneg st ->
  ProductService.adjustStock productId adjustment userId st = (r, st') ->
  quantities_nonneg st'.
Proof.
  intros Hnn. unfold ProductService.adjustStock. unfold bind at 1.
  rewrite getProductById_eq.
  destruct (stored st productId) as [p|] eqn:Hs;
    [|intros H; inversion H; subst; exact Hnn].
  destruct (visible userId p) eqn:Hv;
    [|intros H; inversion H; subst; exact Hnn].
  cbv zeta. rewrite add_ltb_0.
  destruct (Z.ltb_spec (Product.quantity p + adjustment) 0) as [E | E];
    [intros H; inversion H; subst; exact Hnn|].
  pose proof (add_nonneg _ _ E) as Hn.
  rewrite (updateStock_ok st productId _ userId p Hn Hs Hv).
  intros H; inversion H; subst. clear H.
  intros x Hin.
  apply In_replace_first_cases in Hin.
  destruct Hin as [Hin | (d & Hd & ->)]; [now apply Hnn|].
  simpl. exact Hn.
Qed.

(* ================================================================== *)
(** ** Stock status *)

(** C4. For every product whose quantity is not negative (the schema
    rejects any other): [stockStatus] is OUT_OF_STOCK iff the quantity is 0,
    LOW_STOCK iff [0 < quantity <= minStockLevel], and IN_STOCK in every
    other case. *)
Theorem stockStatus_classification (p : IProductDocument) :
  0 <= Product.quantity p ->
  (Product.stockStatus p = Product.OUT_OF_STOCK <-> Product.quantity p = 0)
  /\ (Product.stockStatus p = Product.LOW_STOCK
      <-> 0 < Product.quantity p /\ Product.quantity p <= Product.minStockLevel p)
  /\ (Product.quantity p <> 0
      -> ~ (0 < Product.quantity p /\ Product.quantity p <= Product.minStockLevel p)
      -> Product.stockStatus p = Product.IN_STOCK).
Proof.
  intros Hq. unfold Product.stockStatus.
  destruct (Product.quantity p =? 0) eqn:E0;
    destruct (Product.quantity p <=? Product.minStockLevel p) eqn:E1;
    repeat split; intros; try discriminate; try lia; try reflexivity.
Qed.

(* ================================================================== *)
(** ** Ownership scoping *)

(** C3. With the non-empty identifier of a non-admin caller as scope,
    [getProductById] returns [null] when no product has the identifier, and
    returns [null] when the product exists but belongs to another user or is
    inactive; the collection is untouched in both cases, so the two
    outcomes are one and the same value. *)
Theorem getProductById_foreign_is_absent
    (st : ProductStore) (scopeOwnerId : string) :
  scopeOwnerId <> "" ->
  (forall absentId,
      ProductRepository.findById absentId st = (inr None, st) ->
      ProductService.getProductById absentId (Some scopeOwnerId) st = (inr None, st))
  /\ (forall foreignId p,
      ProductRepository.findById foreignId st = (inr (Some p), st) ->
      Product.userId p <> scopeOwnerId \/ Product.isActive p = false ->
      ProductService.getProductById foreignId (Some scopeOwnerId) st = (inr None, st))
  /\ (forall absentId foreignId p,
      ProductRepository.findById absentId st = (inr None, st) ->
      ProductRepository.findById foreignId st = (inr (Some p), st) ->
      Product.userId p <> scopeOwnerId \/ Product.isActive p = false ->
      ProductService.getProductById foreignId (Some scopeOwnerId) st
      = ProductService.getProductById absentId (Some scopeOwnerId) st).
Proof.
  intros Hne.
  assert (Habsent : forall absentId,
             ProductRepository.findById absentId st = (inr None, st) ->
             ProductService.getProductById absentId (Some scopeOwnerId) st
             = (inr None, st)).
  { intros id H. rewrite findById_stored in H. rewrite getProductById_eq.
    inversion H as [H']. now rewrite H'. }
  assert (Hforeign : forall foreignId p,
             ProductRepository.findById foreignId st = (inr (Some p), st) ->
             Product.userId p <> scopeOwnerId \/ Product.isActive p = false ->
             ProductService.getProductById foreignId (Some scopeOwnerId) st
             = (inr None, st)).
  { intros id p H Hp. rewrite findById_stored in H. rewrite getProductById_eq.
    inversion H as [H']. rewrite H'.
    unfold visible. simpl.
    destruct Hp as [Hown | Hina].
    - apply String.eqb_neq in Hne. rewrite Hne. simpl.
      apply String.eqb_neq in Hown. rewrite Hown. simpl.
      now rewrite Bool.andb_false_r.
    - now rewrite Hina. }
  split; [exact Habsent|]. split; [exact Hforeign|].
  intros absentId foreignId p Ha Hf Hp.
  now rewrite (Habsent _ Ha), (Hforeign _ _ Hf Hp).
Qed.

(* ================================================================== *)
(** ** SKU uniqueness on creation *)

Lemma findBySku_eq (st : ProductStore) (sku : string) :
  ProductRepository.findBySku sku st
  = (inr (List.find (fun p => String.eqb (Product.sku p) (Product.set_sku sku)) st),
     st).
Proof.
  unfold ProductRepository.findBySku. rewrite set_sku_toUpperCase. reflexivity.
Qed.

(** [findBySku] finds something as soon as a stored SKU is what the setter
    makes of the given one. *)
Lemma findBySku_finds (st : ProductStore) (sku : string) (p : IProductDocument) :
  In p st ->
  Product.sku p = Product.set_sku sku ->
  exists found, ProductRepository.findBySku sku st = (inr (Some found), st).
Proof.
  intros Hin Heq. rewrite findBySku_eq.
  match goal with
  | |- context [List.find ?g st] => destruct (List.find g st) as [found|] eqn:F
  end; [now exists found|].
  exfalso.
  pose proof (find_none _ _ F p Hin) as Hp. simpl in Hp.
  apply String.eqb_neq in Hp. now apply Hp.
Qed.

(** [findBySku] finds something as soon as a stored SKU equals the given
    one up to letter case. *)
Lemma findBySku_hits (st : ProductStore) (sku : string) (p : IProductDocument) :
  skus_upper st ->
  In p st ->
  JS.eq_ignore_case (Product.sku p) sku ->
  exists found, ProductRepository.findBySku sku st = (inr (Some found), st).
Proof.
  intros Hup Hin Heq. apply findBySku_finds with (p := p); [exact Hin|].
  rewrite <- (Hup p Hin). unfold Product.set_sku. now rewrite Heq.
Qed.

(** And as soon as one equals it up to letter case once the white space
    around it is removed. *)
Lemma findBySku_hits_trimmed
    (st : ProductStore) (sku : string) (p : IProductDocument) :
  skus_upper st ->
  In p st ->
  JS.eq_ignore_case (Product.sku p) (JS.trim sku) ->
  exists found, ProductRepository.findBySku sku st = (inr (Some found), st).
Proof.
  intros Hup Hin Heq. apply findBySku_finds with (p := p); [exact Hin|].
  rewrite <- (Hup p Hin). unfold Product.set_sku at 1. rewrite Heq.
  fold (Product.set_sku (JS.trim sku)). apply set_sku_trim.
Qed.

(** [findBySku] finds nothing when no stored SKU is what the setter makes
    of the given one. *)
Lemma findBySku_misses (st : ProductStore) (sku : string) :
  (forall p, In p st -> Product.sku p <> Product.set_sku sku) ->
  ProductRepository.findBySku sku st = (inr None, st).
Proof.
  intros Hno. rewrite findBySku_eq.
  match goal with
  | |- context [List.find ?g st] => destruct (List.find g st) as [found|] eqn:F
  end; [|reflexivity].
  exfalso. apply find_some in F. destruct F as [Hin Hsku].
  apply String.eqb_eq in Hsku. exact (Hno found Hin Hsku).
Qed.

Lemma createProduct_rejects_found
    (st : ProductStore) (newId userId : string)
    (productData : CreateProductRequest.t) (found : IProductDocument) :
  ProductRepository.findBySku (CreateProductRequest.sku productData) st
  = (inr (Some found), st) ->
  ProductService.createProduct newId userId productData st
  = (inl (Error msg_duplicate_sku), st).
Proof.
  intros Hf. unfold ProductService.createProduct, bind. now rewrite Hf.
Qed.

Lemma createProduct_rejects_duplicate
    (st : ProductStore) (newId userId : string)
    (productData : CreateProductRequest.t) (p : IProductDocument) :
  skus_upper st ->
  In p st ->
  JS.eq_ignore_case (Product.sku p) (CreateProductRequest.sku productData) ->
  ProductService.createProduct newId userId productData st
  = (inl (Error msg_duplicate_sku), st).
Proof.
  intros Hup Hin Heq.
  destruct (findBySku_hits st _ p Hup Hin Heq) as (found & Hf).
  now apply createProduct_rejects_found with (found := found).
Qed.

Lemma castNewProduct_inr (newId : string) (d : NewProduct.t)
    (doc : IProductDocument) :
  castNewProduct newId d = inr doc <->
  validateProduct (newDocument newId d) = [] /\ doc = newDocument newId d.
Proof.
  unfold castNewProduct.
  destruct (validateProduct (newDocument newId d)) eqn:V; split.
  - intros H. inversion H. now split.
  - intros [_ ->]. reflexivity.
  - discriminate.
  - intros [H _]. discriminate.
Qed.

(** A document the schema accepts has a quantity and a price that are not
    negative. *)
Lemma validateProduct_nonneg (doc : IProductDocument) :
  validateProduct doc = [] ->
  0 <= Product.quantity doc /\ 0 <= Product.price doc.
Proof.
  unfold validateProduct. intros V.
  repeat (apply app_eq_nil in V; destruct V as [? V]).
  split.
  - unfold Product.validate_quantity in *. simpl in *.
    destruct (0 <=? Product.quantity doc) eqn:E; [lia | discriminate].
  - unfold Product.validate_price in *. simpl in *.
    destruct (0 <=? Product.price doc) eqn:E; [lia | discriminate].
Qed.

(** [create] either appends the document the schema makes of the data, or
    throws the validation error and writes nothing. *)
Lemma create_eq (st : ProductStore) (newId : string) (d : NewProduct.t) :
  ProductRepository.create newId d st
  = match validateProduct (newDocument newId d) with
    | [] => (inr (newDocument newId d), st ++ [newDocument newId d])
    | errs => (inl (ValidationError errs), st)
    end.
Proof.
  unfold ProductRepository.create, BaseRepository.create, castNewProduct.
  destruct (validateProduct (newDocument newId d)); reflexivity.
Qed.

(** C2. In a collection whose SKUs are as the schema stores them (upper
    case, trimmed): [createProduct] fails with the duplicate-SKU error, and
    writes nothing, whenever some stored product, active or not, has a SKU
    equal up to letter case to the request's, as it is given or with the
    white space around it removed, and more generally whenever the look-up
    of the SKU finds a product. When the look-up finds none, the request
    goes to the repository's [create] with [userId] set to the owner and
    [images] defaulting to the empty list; the document the schema makes
    of it, with that owner and those images, is appended to the collection
    when it passes the schema's validators, and when it does not the
    validation error is thrown and nothing is written. For a SKU of ASCII
    characters the look-up finds none when no stored SKU is the request's
    trimmed and in upper case. *)
Theorem createProduct_sku_unique
    (st : ProductStore) (newId ownerId : string)
    (productData : CreateProductRequest.t) :
  skus_upper st ->
  let sku := CreateProductRequest.sku productData in
  let doc := newDocument newId (ProductService.withOwner ownerId productData) in
  (forall p active,
      In p st ->
      Product.isActive p = active ->
      JS.eq_ignore_case (Product.sku p) sku
      \/ JS.eq_ignore_case (Product.sku p) (JS.trim sku) ->
      ProductService.createProduct newId ownerId productData st
      = (inl (Error msg_duplicate_sku), st))
  /\ (forall found,
      ProductRepository.findBySku sku st = (inr (Some found), st) ->
      ProductService.createProduct newId ownerId productData st
      = (inl (Error msg_duplicate_sku), st))
  /\ (ProductRepository.findBySku sku st = (inr None, st) ->
      ProductService.createProduct newId ownerId productData st
      = ProductRepository.create newId
          (ProductService.withOwner ownerId productData) st
      /\ Product.userId doc = ownerId
      /\ Product.images doc
         = match CreateProductRequest.images productData with
           | Some urls => urls
           | None => []
           end
      /\ (validateProduct doc = [] ->
          ProductService.createProduct newId ownerId productData st
          = (inr doc, st ++ [doc]))
      /\ (validateProduct doc <> [] ->
          exists messages,
            messages <> []
            /\ ProductService.createProduct newId ownerId productData st
               = (inl (ValidationError messages), st)))
  /\ (JS.is_ascii sku = true ->
      (forall p, In p st -> Product.sku p <> JS.toUpperCase (JS.trim sku)) ->
      ProductRepository.findBySku sku st = (inr None, st)).
Proof.
  intros Hup sku doc. split; [|split; [|split]].
  - intros p active Hin _ [Heq | Heq].
    + now apply createProduct_rejects_duplicate with (p := p).
    + destruct (findBySku_hits_trimmed st sku p Hup Hin Heq) as (found & Hf).
      now apply createProduct_rejects_found with (found := found).
  - intros found Hf. now apply createProduct_rejects_found with (found := found).
  - intros Hnone.
    assert (Hc : ProductService.createProduct newId ownerId productData st
                 = ProductRepository.create newId
                     (ProductService.withOwner ownerId productData) st).
    { unfold ProductService.createProduct, bind. fold sku. now rewrite Hnone. }
    split; [exact Hc|]. split; [reflexivity|]. split; [reflexivity|].
    rewrite Hc, create_eq. fold doc. split.
    + intros ->. reflexivity.
    + intros Hbad. exists (validateProduct doc). split; [exact Hbad|].
      destruct (validateProduct doc); [contradiction | reflexivity].
  - intros _ Hno. apply findBySku_misses. intros p Hin Heq.
    apply (Hno p Hin). rewrite Heq. unfold Product.set_sku.
    symmetry. apply toUpperCase_trim.
Qed.

(* ================================================================== *)
(** ** The invariants are those of the collections the code builds *)

Lemma skus_upper_nil : skus_upper [].
Proof. intros p []. Qed.

(** A collection with the SKUs of the schema has them in upper case and
    trimmed. *)
Lemma skus_upper_toUpperCase (st : ProductStore) (p : IProductDocument) :
  skus_upper st -> In p st -> JS.toUpperCase (Product.sku p) = Product.sku p.
Proof. intros Hup Hin. rewrite <- (Hup p Hin). apply set_sku_upper. Qed.

Lemma skus_upper_trim (st : ProductStore) (p : IProductDocument) :
  skus_upper st -> In p st -> JS.trim (Product.sku p) = Product.sku p.
Proof. intros Hup Hin. rewrite <- (Hup p Hin). apply set_sku_trimmed. Qed.

Lemma applyProductUpdate_sku_upper (u : ProductUpdate.t) (p : IProductDocument) :
  Product.set_sku (Product.sku p) = Product.sku p ->
  Product.set_sku (Product.sku (applyProductUpdate u p))
  = Product.sku (applyProductUpdate u p).
Proof.
  intros Hp. unfold applyProductUpdate. simpl.
  destruct (ProductUpdate.sku u); simpl; [apply set_sku_idem | exact Hp].
Qed.

Lemma skus_upper_replace_first (st : ProductStore) (productId : string)
    (u : ProductUpdate.t) :
  skus_upper st ->
  skus_upper
    (BaseRepository.replace_first Product._id productId (applyProductUpdate u) st).
Proof.
  unfold skus_upper.
  induction st as [|d rest IH]; simpl; intros Hup p Hin; [contradiction|].
  destruct (BaseRepository.has_id Product._id productId d); simpl in Hin.
  - destruct Hin as [<- | Hin].
    + apply applyProductUpdate_sku_upper. apply Hup. now left.
    + apply Hup. now right.
  - destruct Hin as [<- | Hin].
    + apply Hup. now left.
    + apply IH; [|assumption]. intros q Hq. apply Hup. now right.
Qed.

(** [create] keeps the SKUs upper-cased, and the identifiers distinct when
    the new identifier is fresh. *)
Lemma create_keeps_invariants (st st' : ProductStore) (newId : string)
    (d : NewProduct.t) (doc : IProductDocument) :
  ProductRepository.create newId d st = (inr doc, st') ->
  (skus_upper st -> skus_upper st')
  /\ (ids_unique st -> ~ In newId (map Product._id st) -> ids_unique st').
Proof.
  unfold ProductRepository.create, BaseRepository.create.
  destruct (castNewProduct newId d) as [errs|doc0] eqn:C; [discriminate|].
  intros H. inversion H; subst doc0 st'. clear H.
  apply castNewProduct_inr in C. destruct C as [_ ->].
  split.
  - intros Hup p Hin. apply in_app_or in Hin. destruct Hin as [Hin | [<- | []]].
    + now apply Hup.
    + apply set_sku_idem.
  - unfold ids_unique. intros Hnd Hfresh.
    rewrite map_app. simpl.
    apply NoDup_app; [assumption | repeat constructor; auto | ].
    intros x Hx [<- | []]. contradiction.
Qed.

(** [update] keeps both invariants. *)
Lemma update_keeps_invariants (st st' : ProductStore) (productId : string)
    (u : ProductUpdate.t) (r : option IProductDocument) :
  ProductRepository.update productId u st = (inr r, st') ->
  (skus_upper st -> skus_upper st') /\ (ids_unique st -> ids_unique st').
Proof.
  unfold ProductRepository.update, BaseRepository.update,
    BaseRepository.findByIdAndUpdate, castProductUpdate.
  match goal with
  | |- context [match ?v with [] => _ | _ :: _ => _ end] => destruct v
  end; [|discriminate].
  destruct (List.find (BaseRepository.has_id Product._id productId) st);
    intros H; inversion H; subst; clear H.
  - split.
    + apply skus_upper_replace_first.
    + unfold ids_unique. rewrite map_id_replace_first; [tauto|].
      intros d. reflexivity.
  - tauto.
Qed.

(* ================================================================== *)
(** ** Soft delete *)

Lemma In_firstn {A : Type} (n : nat) (l : list A) (x : A) :
  In x (firstn n l) -> In x l.
Proof.
  revert l. induction n as [|n IH]; intros [|a l]; simpl; try tauto.
  intros [-> | H]; [now left | right; now apply IH].
Qed.

Lemma In_skipn {A : Type} (n : nat) (l : list A) (x : A) :
  In x (skipn n l) -> In x l.
Proof.
  revert l. induction n as [|n IH]; intros [|a l]; simpl; try tauto.
  intros H. right. now apply IH.
Qed.

Lemma update_isActive_eq (st : ProductStore) (productId : string) :
  ProductRepository.update productId (ProductUpdate.of_isActive false) st
  = match stored st productId with
    | Some p =>
        (inr (Some (deactivated p)),
         BaseRepository.replace_first Product._id productId deactivated st)
    | None => (inr None, st)
    end.
Proof.
  unfold ProductRepository.update, BaseRepository.update,
    BaseRepository.findByIdAndUpdate, stored.
  simpl.
  destruct (List.find (BaseRepository.has_id Product._id productId) st); reflexivity.
Qed.

(** [deleteProduct] succeeds exactly on a product the caller can reach, and
    then deactivates the stored document. *)
Lemma deleteProduct_ok (st st' : ProductStore) (productId userId : string) (b : bool) :
  ProductService.deleteProduct productId userId st = (inr b, st')
  <-> exists p,
      stored st productId = Some p
      /\ visible (Some userId) p = true
      /\ b = true
      /\ st' = BaseRepository.replace_first Product._id productId deactivated st.
Proof.
  unfold ProductService.deleteProduct. unfold bind at 1.
  rewrite getProductById_eq.
  destruct (stored st productId) as [p|] eqn:Hs.
  - destruct (visible (Some userId) p) eqn:Hv.
    + unfold bind. rewrite update_isActive_eq, Hs. unfold ret. split.
      * intros H. inversion H; subst. exists p. auto.
      * intros (p' & Hp' & _ & -> & ->). reflexivity.
    + split; [discriminate|]. intros (p' & Hp' & Hv' & _).
      inversion Hp'; subst. congruence.
  - split; [discriminate|]. intros (p' & Hp' & _). discriminate.
Qed.

Lemma deactivated_invisible (scope : option string) (p : IProductDocument) :
  visible scope (deactivated p) = false.
Proof. reflexivity. Qed.

Section SoftDelete.

Variable regexTest : string -> string -> bool.
Variable sortProducts : string -> SortOrder -> ProductStore -> ProductStore.
Variable matchUserId : string -> string -> bool.
(** A sorted query returns the documents it was given, reordered. *)
Hypothesis sortProducts_perm :
  forall sortBy order docs, Permutation (sortProducts sortBy order docs) docs.




End SoftDelete.

(* ================================================================== *)
(** ** Bulk stock update *)

(** A successful [updateStock] is the replacement of the quantity of a
    product the caller can reach. *)
Lemma updateStock_inv (st st' : ProductStore) (productId : string) (q : Z)
    (userId : option string) (r : option IProductDocument) :
  ProductService.updateStock productId q userId st = (inr r, st') ->
  exists p,
    stored st productId = Some p
    /\ visible userId p = true
    /\ 0 <= q
    /\ r = Some (with_quantity q p)
    /\ st' = BaseRepository.replace_first Product._id productId (with_quantity q) st.
Proof.
  unfold ProductService.updateStock.
  destruct (q <? 0) eqn:E; [discriminate|].
  unfold bind at 1. rewrite getProductById_eq.
  destruct (stored st productId) as [p|] eqn:Hs; [|discriminate].
  destruct (visible userId p) eqn:Hv; [|discriminate].
  rewrite (repo_updateStock_eq st productId q p) by (lia || assumption).
  intros H. inversion H; subst. exists p. repeat split; auto. lia.
Qed.

(** Any [updateStock] either succeeds or fails without writing. *)
Lemma updateStock_cases (st : ProductStore) (productId : string) (q : Z)
    (userId : option string) :
  (exists r st', ProductService.updateStock productId q userId st = (inr r, st'))
  \/ (exists msg, ProductService.updateStock productId q userId st
                  = (inl (Error msg), st)).
Proof.
  destruct (Z.ltb_spec q 0) as [Hneg | Hpos].
  - right. destruct (updateStock_fails st productId q userId (or_introl Hneg))
      as (msg & H & _). now exists msg.
  - destruct (stored st productId) as [p|] eqn:Hs.
    + destruct (visible userId p) eqn:Hv.
      * left. do 2 eexists. now apply updateStock_ok with (p := p).
      * right. destruct (updateStock_fails st productId q userId) as (msg & H & _).
        { right. rewrite getProductById_eq, Hs, Hv. reflexivity. }
        now exists msg.
    + right. destruct (updateStock_fails st productId q userId) as (msg & H & _).
      { right. rewrite getProductById_eq, Hs. reflexivity. }
      now exists msg.
Qed.

Section BulkUpdate.

Variable userId : option string.

Lemma bulkUpdateStock_cons (u : StockUpdate.t) (rest : list StockUpdate.t)
    (st : ProductStore) :
  ProductService.bulkUpdateStock (u :: rest) userId st
  = match ProductService.updateStock (StockUpdate.productId u)
            (StockUpdate.quantity u) userId st with
    | (inl e, s) => (inl e, s)
    | (inr _, s) => ProductService.bulkUpdateStock rest userId s
    end.
Proof. reflexivity. Qed.

Lemma bulkUpdateStock_app (pre rest : list StockUpdate.t) (st : ProductStore) :
  ProductService.bulkUpdateStock (pre ++ rest) userId st
  = match ProductService.bulkUpdateStock pre userId st with
    | (inl e, s) => (inl e, s)
    | (inr _, s) => ProductService.bulkUpdateStock rest userId s
    end.
Proof.
  revert st. induction pre as [|u pre IH]; intros st; [reflexivity|].
  simpl app. rewrite !bulkUpdateStock_cons.
  destruct (ProductService.updateStock _ _ userId st) as [[e|r] s];
    [reflexivity | apply IH].
Qed.

(** A successful run leaves alone the products it has no entry for. *)
Lemma bulkUpdateStock_untouched (l : list StockUpdate.t) (st st1 : ProductStore)
    (productId : string) :
  ProductService.bulkUpdateStock l userId st = (inr tt, st1) ->
  ~ In productId (map StockUpdate.productId l) ->
  stored st1 productId = stored st productId.
Proof.
  revert st. induction l as [|u l IH]; intros st Hrun Hnot.
  - inversion Hrun. reflexivity.
  - rewrite bulkUpdateStock_cons in Hrun.
    destruct (ProductService.updateStock _ _ userId st) as [[e|r] s] eqn:Hu;
      [discriminate|].
    apply updateStock_inv in Hu. destruct Hu as (p & _ & _ & _ & _ & ->).
    simpl in Hnot.
    rewrite (IH _ Hrun) by tauto.
    unfold with_quantity. apply stored_after_replace_other.
    intros ->. apply Hnot. now left.
Qed.

(** After a successful run, an entry that no later entry overrides has its
    quantity stored. *)
Lemma bulkUpdateStock_applied (pre1 pre2 : list StockUpdate.t) (u : StockUpdate.t)
    (st st1 : ProductStore) :
  ProductService.bulkUpdateStock (pre1 ++ u :: pre2) userId st = (inr tt, st1) ->
  ~ In (StockUpdate.productId u) (map StockUpdate.productId pre2) ->
  exists p,
    stored st1 (StockUpdate.productId u) = Some p
    /\ Product.quantity p = StockUpdate.quantity u.
Proof.
  intros Hrun Hnot.
  rewrite bulkUpdateStock_app in Hrun.
  destruct (ProductService.bulkUpdateStock pre1 userId st) as [[e|[]] s0];
    [discriminate|].
  rewrite bulkUpdateStock_cons in Hrun.
  destruct (ProductService.updateStock _ _ userId s0) as [[e|r] s] eqn:Hu;
    [discriminate|].
  apply updateStock_inv in Hu. destruct Hu as (p & Hs & _ & _ & _ & ->).
  exists (with_quantity (StockUpdate.quantity u) p). split; [|reflexivity].
  rewrite (bulkUpdateStock_untouched _ _ _ _ Hrun Hnot).
  unfold with_quantity. rewrite stored_after_replace, Hs. reflexivity.
Qed.

(** C9. [bulkUpdateStock] runs [updateStock] on the entries one after the
    other, in list order, and is not atomic: when the entries before the
    k-th have succeeded and the k-th fails (negative quantity, or a product
    the caller cannot reach), the call fails with the k-th entry's error in
    the collection the earlier entries produced, whatever follows the
    k-th entry; in that collection every earlier entry that no later one
    of them overrides has its quantity stored. *)
Theorem bulkUpdateStock_sequential_not_atomic
    (st st1 : ProductStore) (pre post : list StockUpdate.t) (k : StockUpdate.t) :
  ProductService.bulkUpdateStock pre userId st = (inr tt, st1) ->
  StockUpdate.quantity k < 0
  \/ ProductService.getProductById (StockUpdate.productId k) userId st1
     = (inr None, st1) ->
  (exists msg,
      ProductService.bulkUpdateStock (pre ++ k :: post) userId st
      = (inl (Error msg), st1)
      /\ ProductService.updateStock (StockUpdate.productId k)
           (StockUpdate.quantity k) userId st1
         = (inl (Error msg), st1)
      /\ (msg = msg_negative_quantity \/ msg = msg_not_found))
  /\ (forall pre1 u pre2,
      pre = pre1 ++ u :: pre2 ->
      ~ In (StockUpdate.productId u) (map StockUpdate.productId pre2) ->
      exists p,
        stored st1 (StockUpdate.productId u) = Some p
        /\ Product.quantity p = StockUpdate.quantity u).
Proof.
  intros Hpre Hk. split.
  - destruct (updateStock_fails st1 _ _ userId Hk) as (msg & Hfail & Hmsg).
    exists msg. split; [|split; assumption].
    rewrite bulkUpdateStock_app, Hpre, bulkUpdateStock_cons, Hfail. reflexivity.
  - intros pre1 u pre2 -> Hnot.
    now apply bulkUpdateStock_applied with (pre1 := pre1) (pre2 := pre2) (st := st).
Qed.

End BulkUpdate.

(* ================================================================== *)
(** ** The scope of an administrator *)

(** C10. An empty scope is no scope. [getProductById(id, "")] and
    [getProductById(id, undefined)] are the same computation, for every
    identifier and every collection, and both skip the ownership check:
    they return the product stored under the identifier as soon as it is
    active, whoever owns it, where the scope of another user returns
    nothing. The scope the controller builds for an administrator in
    [updateProduct] and [deleteProduct] is the empty string, and through it
    these two reach the product of any owner: [deleteProduct] deactivates
    it and answers [true], [updateProduct] passes the look-up and, the SKU
    not being changed, hands the update to the repository. *)
Theorem getProductById_empty_scope_is_no_scope :
  (forall (st : ProductStore) (productId : string),
      ProductService.getProductById productId (Some "") st
      = ProductService.getProductById productId None st)
  /\ (forall (st : ProductStore) (productId adminId : string),
      ProductService.getProductById productId
        (Some (ProductController.ownerUserId_or_empty ADMIN adminId)) st
      = ProductService.getProductById productId
          (ProductController.ownerUserId_or_undefined ADMIN adminId) st)
  /\ (forall (st : ProductStore) (productId : string) (p : IProductDocument),
      stored st productId = Some p ->
      Product.isActive p = true ->
      ProductService.getProductById productId (Some "") st = (inr (Some p), st)
      /\ ProductService.getProductById productId None st = (inr (Some p), st)
      /\ (forall other,
             other <> "" -> Product.userId p <> other ->
             ProductService.getProductById productId (Some other) st
             = (inr None, st))
      /\ (forall adminId,
             ProductService.deleteProduct productId
               (ProductController.ownerUserId_or_empty ADMIN adminId) st
             = (inr true,
                BaseRepository.replace_first Product._id productId
                  deactivated st))
      /\ (forall adminId updateData,
             UpdateProductRequest.sku updateData = None ->
             ProductService.updateProduct productId
               (ProductController.ownerUserId_or_empty ADMIN adminId)
               updateData st
             = ProductRepository.update productId
                 (ProductUpdate.of_request updateData) st)).
Proof.
  split; [|split].
  - intros. rewrite !getProductById_eq. reflexivity.
  - intros. rewrite !getProductById_eq. reflexivity.
  - intros st productId p Hs Hact.
    assert (Hv1 : visible None p = true).
    { unfold visible. rewrite Hact. reflexivity. }
    assert (Hv2 : visible (Some "") p = true).
    { unfold visible. rewrite Hact. reflexivity. }
    split; [|split; [|split; [|split]]].
    + now rewrite getProductById_eq, Hs, Hv2.
    + now rewrite getProductById_eq, Hs, Hv1.
    + intros other Hne Hown. rewrite getProductById_eq, Hs.
      unfold visible. rewrite Hact. simpl.
      apply String.eqb_neq in Hne. rewrite Hne. simpl.
      apply String.eqb_neq in Hown. rewrite Hown. reflexivity.
    + intros adminId. change (ProductController.ownerUserId_or_empty ADMIN adminId) with "".
      unfold ProductService.deleteProduct. unfold bind at 1.
      rewrite getProductById_eq, Hs, Hv2. unfold bind, ret.
      rewrite update_isActive_eq, Hs. reflexivity.
    + intros adminId updateData Hsku.
      change (ProductController.ownerUserId_or_empty ADMIN adminId) with "".
      unfold ProductService.updateProduct. unfold bind at 1.
      rewrite getProductById_eq, Hs, Hv2, Hsku. reflexivity.
Qed.

(* ================================================================== *)
(** ** SKU check on update *)

(** C6, as the code runs: an update that re-submits the product's own SKU
    in another letter case, or with white space around it, is rejected with
    the duplicate-SKU error, and nothing is written. The comparison with
    the current SKU is exact, the look-up that follows compares what the
    schema's setters make of the SKU and finds the product itself. *)
Theorem updateProduct_own_sku_other_case_rejected
    (st : ProductStore) (productId userId : string)
    (updateData : UpdateProductRequest.t) (existing : IProductDocument)
    (resubmitted : string) :
  ProductService.getProductById productId (Some userId) st
    = (inr (Some existing), st) ->
  UpdateProductRequest.sku updateData = Some resubmitted ->
  resubmitted <> Product.sku existing ->
  Product.set_sku resubmitted = Product.sku existing ->
  ProductService.updateProduct productId userId updateData st
  = (inl (Error msg_duplicate_sku), st).
Proof.
  intros Hget Hsku Hdiff Hupper.
  unfold ProductService.updateProduct. unfold bind at 1. rewrite Hget.
  rewrite Hsku. simpl JS.or_empty.
  assert (Hne : resubmitted <> "").
  { intros ->. apply Hdiff. now rewrite <- Hupper. }
  unfold JS.truthy.
  apply String.eqb_neq in Hne. rewrite Hne.
  apply String.eqb_neq in Hdiff. rewrite Hdiff. simpl.
  apply getProductById_Some in Hget. destruct Hget as [Hs _].
  apply stored_has_id in Hs. destruct Hs as [Hin _].
  unfold bind. rewrite findBySku_eq.
  match goal with
  | |- context [List.find ?g st] => destruct (List.find g st) as [found|] eqn:F
  end; [reflexivity|].
  exfalso. pose proof (find_none _ _ F existing Hin) as Hp. cbv beta in Hp.
  rewrite Hupper, String.eqb_refl in Hp. discriminate.
Qed.

(** The SKU check where it does what the specification says: a non-empty
    SKU that differs from the current one, letter case aside, and equals a
    stored SKU up to letter case is rejected. *)
Lemma updateProduct_rejects_taken_sku
    (st : ProductStore) (productId userId : string)
    (updateData : UpdateProductRequest.t) (existing other : IProductDocument)
    (wanted : string) :
  skus_upper st ->
  ProductService.getProductById productId (Some userId) st
    = (inr (Some existing), st) ->
  UpdateProductRequest.sku updateData = Some wanted ->
  wanted <> "" ->
  ~ JS.eq_ignore_case wanted (Product.sku existing) ->
  In other st ->
  JS.eq_ignore_case (Product.sku other) wanted ->
  ProductService.updateProduct productId userId updateData st
  = (inl (Error msg_duplicate_sku), st).
Proof.
  intros Hup Hget Hsku Hne Hdiff Hin Heq.
  unfold ProductService.updateProduct. unfold bind at 1. rewrite Hget.
  rewrite Hsku. simpl JS.or_empty. unfold JS.truthy.
  apply String.eqb_neq in Hne. rewrite Hne.
  destruct (String.eqb wanted (Product.sku existing)) eqn:E.
  - apply String.eqb_eq in E. exfalso. apply Hdiff. now rewrite E.
  - simpl. destruct (findBySku_hits st wanted other Hup Hin Heq) as (found & Hf).
    unfold bind. now rewrite Hf.
Qed.

(** Without a SKU in the update, with an empty one, with the current one
    letter for letter, or with one of which the setters make no stored SKU,
    the update goes to the repository. *)
Lemma updateProduct_applies
    (st : ProductStore) (productId userId : string)
    (updateData : UpdateProductRequest.t) (existing : IProductDocument) :
  ProductService.getProductById productId (Some userId) st
    = (inr (Some existing), st) ->
  UpdateProductRequest.sku updateData = None
  \/ UpdateProductRequest.sku updateData = Some ""
  \/ UpdateProductRequest.sku updateData = Some (Product.sku existing)
  \/ (forall p, In p st ->
        Product.sku p
        <> Product.set_sku (JS.or_empty (UpdateProductRequest.sku updateData))) ->
  ProductService.updateProduct productId userId updateData st
  = ProductRepository.update productId (ProductUpdate.of_request updateData) st.
Proof.
  intros Hget Hcase.
  unfold ProductService.updateProduct. unfold bind at 1. rewrite Hget.
  destruct Hcase as [H | [H | [H | H]]].
  - rewrite H. reflexivity.
  - rewrite H. reflexivity.
  - rewrite H. simpl JS.or_empty. rewrite String.eqb_refl.
    rewrite Bool.andb_false_r. reflexivity.
  - destruct (JS.truthy (UpdateProductRequest.sku updateData) && _)%bool;
      [|reflexivity].
    unfold bind. rewrite (findBySku_misses st _ H). reflexivity.
Qed.

(* ================================================================== *)
(** ** Authentication *)

Section Authentication.

Variable hashPassword : string -> string.
Variable passwordMatches : string -> string -> bool.
Variable jwtSign : IJWTPayload.t -> string.

Lemma findByEmailWithPassword_eq (users : UserStore) (email : string) :
  UserRepository.findByEmailWithPassword email users
  = (inr (List.find
            (fun d => String.eqb (User.email d) (JS.toLowerCase email)) users),
     users).
Proof. reflexivity. Qed.

(** C7, as the code runs: [changePassword] looks the user up by the empty
    e-mail address, not by [userId]; in a collection where every user has
    an e-mail address it fails with "User not found" whatever the
    passwords, and no hash is replaced. *)
Theorem changePassword_ignores_userId
    (users : UserStore) (userId currentPassword newPassword : string) :
  (forall u, In u users -> User.email u <> "") ->
  AuthService.changePassword hashPassword passwordMatches
    userId currentPassword newPassword users
  = (inl (Error msg_user_not_found), users).
Proof.
  intros Hmail.
  unfold AuthService.changePassword, bind.
  rewrite findByEmailWithPassword_eq.
  match goal with
  | |- context [List.find ?g users] => destruct (List.find g users) as [u|] eqn:F
  end; [|reflexivity].
  exfalso. apply find_some in F. destruct F as [Hin He].
  apply String.eqb_eq in He. now apply (Hmail u Hin).
Qed.

Lemma updateLastLogin_eq (users : UserStore) (now : Z) (u : IUserDocument) :
  In u users ->
  exists d,
    List.find (BaseRepository.has_id User._id (User._id u)) users = Some d
    /\ UserRepository.updateLastLogin hashPassword now (User._id u) users
       = (inr (Some (UserRepository.applyUserUpdate hashPassword
                       (UserUpdate.of_lastLoginAt now) d)),
          BaseRepository.replace_first User._id (User._id u)
            (UserRepository.applyUserUpdate hashPassword
               (UserUpdate.of_lastLoginAt now)) users).
Proof.
  intros Hin.
  unfold UserRepository.updateLastLogin, BaseRepository.findByIdAndUpdate.
  destruct (List.find (BaseRepository.has_id User._id (User._id u)) users)
    as [d|] eqn:F.
  - exists d. split; reflexivity.
  - exfalso. pose proof (find_none _ _ F u Hin) as H.
    unfold BaseRepository.has_id in H. now rewrite String.eqb_refl in H.
Qed.

(** C8, amended. For every login attempt: an unknown e-mail address, and
    a password that does not match on an active account, fail with one
    and the same message; a deactivated account fails with the
    deactivation message whether or not the password matches, the active
    flag being checked first; on success the time of the login is
    recorded on the stored user, and the user without its password hash
    is returned with a token. No failure writes to the collection. *)
Theorem login_outcomes
    (users : UserStore) (now : Z) (credentials : LoginRequest.t) :
  let found := UserRepository.findByEmailWithPassword
                 (LoginRequest.email credentials) users in
  let attempt := AuthService.login hashPassword passwordMatches jwtSign
                   now credentials users in
  (found = (inr None, users) ->
     attempt = (inl (Error msg_invalid_credentials), users))
  /\ (forall u, found = (inr (Some u), users) ->
        User.isActive u = false ->
        attempt = (inl (Error msg_deactivated), users))
  /\ (forall u, found = (inr (Some u), users) ->
        User.isActive u = true ->
        AuthService.comparePassword passwordMatches u
          (LoginRequest.password credentials) = false ->
        attempt = (inl (Error msg_invalid_credentials), users))
  /\ (forall u, found = (inr (Some u), users) ->
        User.isActive u = true ->
        AuthService.comparePassword passwordMatches u
          (LoginRequest.password credentials) = true ->
        exists users' u',
          attempt
          = (inr {| AuthResponse.user := AuthService.sanitizeUser u;
                    AuthResponse.token := AuthService.generateToken jwtSign u |},
             users')
          /\ List.find (BaseRepository.has_id User._id (User._id u)) users'
             = Some u'
          /\ User.lastLoginAt u' = Some now).
Proof.
  intros found attempt. subst found attempt.
  unfold AuthService.login. unfold bind at 1 3 5 7.
  split; [|split; [|split]].
  - intros ->. reflexivity.
  - intros u -> Hact. now rewrite Hact.
  - intros u -> Hact Hpw. now rewrite Hact, Hpw.
  - intros u Hf Hact Hpw. rewrite Hf, Hact, Hpw.
    rewrite findByEmailWithPassword_eq in Hf. inversion Hf as [Hfind].
    apply find_some in Hfind. destruct Hfind as [Hin _].
    destruct (updateLastLogin_eq users now u Hin) as (d & Hd & Hupd).
    unfold bind, ret. cbn [negb]. cbv beta iota. rewrite Hupd.
    do 2 eexists. split; [reflexivity|]. split.
    + rewrite find_replace_first_same by reflexivity. rewrite Hd. reflexivity.
    + reflexivity.
Qed.

End Authentication.

(* ================================================================== *)
(** ** The properties on the sample collections *)

Lemma sample_products_skus_upper : skus_upper Sample.products.
Proof. intros p [<- | [<- | []]]; reflexivity. Qed.

Lemma sample_products_ids_unique : ids_unique Sample.products.
Proof.
  unfold ids_unique. simpl. repeat constructor; simpl; intuition discriminate.
Qed.



(** Scenario 3 of the specification: SKU "X1" exists; creating "x1" as
    another user is a conflict. With a SKU nobody has, the same call stores
    the product under its owner, upper-cased, without images. *)
Lemma createProduct_sku_unique_witness :
  ProductService.createProduct "p3" "u9" Sample.request_x1 Sample.products
    = (inl (Error msg_duplicate_sku), Sample.products)
  /\ ProductService.createProduct "p3" "u9" Sample.request_new Sample.products
     = (inr Sample.stored_new, Sample.products ++ [Sample.stored_new]).
Proof.
  split.
  - apply (proj1 (createProduct_sku_unique Sample.products "p3" "u9"
                    Sample.request_x1 sample_products_skus_upper)
             Sample.gadget true).
    + right. left. reflexivity.
    + reflexivity.
    + left. reflexivity.
  - apply (proj1 (proj2 (proj2 (createProduct_sku_unique Sample.products "p3" "u9"
                                  Sample.request_new sample_products_skus_upper)))).
    + reflexivity.
    + reflexivity.
Defined.

(** C2 as stated fails in its second half. The SKU [" x1"] equals no
    stored SKU up to letter case, and the call fails with the duplicate-SKU
    error, the look-up having trimmed it; the SKU ["NEW-7"] equals no
    stored SKU either, and the request that carries it with a negative
    price is not persisted: the schema's validators reject it. *)
Lemma createProduct_not_persisted_without_equal_sku :
  ~ JS.eq_ignore_case (Product.sku Sample.widget) " x1"
  /\ ~ JS.eq_ignore_case (Product.sku Sample.gadget) " x1"
  /\ ProductService.createProduct "p3" "u9" Sample.request_padded_x1
       Sample.products
     = (inl (Error msg_duplicate_sku), Sample.products)
  /\ ~ JS.eq_ignore_case (Product.sku Sample.widget) "NEW-7"
  /\ ~ JS.eq_ignore_case (Product.sku Sample.gadget) "NEW-7"
  /\ exists messages,
      ProductService.createProduct "p3" "u9" Sample.request_negative_price
        Sample.products
      = (inl (ValidationError messages), Sample.products).
Proof.
  repeat split; try discriminate.
  eexists. reflexivity.
Qed.

(** The empty scope reaches [gadget], which belongs to the user u2, and
    the administrator's [deleteProduct] deactivates it. *)
Lemma getProductById_empty_scope_is_no_scope_witness :
  ProductService.getProductById "p2" (Some "") Sample.products
    = (inr (Some Sample.gadget), Sample.products)
  /\ ProductService.getProductById "p2" (Some "u1") Sample.products
     = (inr None, Sample.products)
  /\ ProductService.deleteProduct "p2"
       (ProductController.ownerUserId_or_empty ADMIN "u9") Sample.products
     = (inr true, [Sample.widget; deactivated Sample.gadget]).
Proof.
  destruct (proj2 (proj2 getProductById_empty_scope_is_no_scope)
              Sample.products "p2" Sample.gadget eq_refl eq_refl)
    as (H1 & _ & H3 & H4 & _).
  split; [exact H1|]. split.
  - apply H3; discriminate.
  - exact (H4 "u9").
Defined.

Lemma getProductById_foreign_is_absent_witness :
  ProductService.getProductById "p1" (Some "u2") Sample.products
  = ProductService.getProductById "p404" (Some "u2") Sample.products.
Proof.
  apply (proj2 (proj2 (getProductById_foreign_is_absent Sample.products "u2"
                         ltac:(discriminate)))
           "p404" "p1" Sample.widget).
  - reflexivity.
  - reflexivity.
  - left. discriminate.
Defined.

(** Scenario 2 of the specification: quantity 10 over a minimum of 5 is in
    stock, 5 is low, 0 is out. *)
Lemma stockStatus_classification_witness :
  Product.stockStatus (with_quantity 5 Sample.widget) = Product.LOW_STOCK.
Proof.
  apply (proj2 (proj1 (proj2 (stockStatus_classification
                                (with_quantity 5 Sample.widget)
                                ltac:(discriminate))))).
  split; [reflexivity | discriminate].
Defined.


Lemma bulkUpdateStock_sequential_not_atomic_witness :
  exists msg,
    ProductService.bulkUpdateStock
      [StockUpdate.mk "p1" 7; StockUpdate.mk "p2" (-1); StockUpdate.mk "p1" 0]
      None Sample.products
    = (inl (Error msg),
       [with_quantity 7 Sample.widget; Sample.gadget]).
Proof.
  destruct (proj1 (bulkUpdateStock_sequential_not_atomic None
                     Sample.products [with_quantity 7 Sample.widget; Sample.gadget]
                     [StockUpdate.mk "p1" 7] [StockUpdate.mk "p1" 0]
                     (StockUpdate.mk "p2" (-1))
                     eq_refl (or_introl eq_refl)))
    as (msg & H & _).
  exists msg. exact H.
Defined.

Lemma updateProduct_own_sku_other_case_rejected_witness :
  ProductService.updateProduct "p1" "u1" Sample.resubmit_own_sku Sample.products
  = (inl (Error msg_duplicate_sku), Sample.products).
Proof.
  apply (updateProduct_own_sku_other_case_rejected Sample.products "p1" "u1"
           Sample.resubmit_own_sku Sample.widget "abc-1").
  - reflexivity.
  - reflexivity.
  - discriminate.
  - reflexivity.
Defined.

(** The right current password, and still no change of password. *)
Lemma changePassword_ignores_userId_witness :
  AuthService.changePassword Sample.hashPassword Sample.passwordMatches
    "u1" "secret123" "newpass456" Sample.users
  = (inl (Error msg_user_not_found), Sample.users).
Proof.
  apply (changePassword_ignores_userId Sample.hashPassword Sample.passwordMatches
           Sample.users "u1" "secret123" "newpass456").
  intros u [<- | [<- | []]]; discriminate.
Defined.

(** Scenario 1 of the specification: the registered credentials log in, and
    the time of the login is stored. *)
Lemma login_outcomes_witness :
  exists users' u',
    AuthService.login Sample.hashPassword Sample.passwordMatches Sample.jwtSign
      1000 (LoginRequest.mk "a@x.com" "secret123") Sample.users
    = (inr {| AuthResponse.user := AuthService.sanitizeUser Sample.alice;
              AuthResponse.token := "token:u1" |}, users')
    /\ List.find (BaseRepository.has_id User._id "u1") users' = Some u'
    /\ User.lastLoginAt u' = Some 1000.
Proof.
  apply (proj2 (proj2 (proj2
    (login_outcomes Sample.hashPassword Sample.passwordMatches Sample.jwtSign
       Sample.users 1000 (LoginRequest.mk "a@x.com" "secret123"))))
    Sample.alice).
  - reflexivity.
  - reflexivity.
  - reflexivity.
Defined.

(** C8 as stated fails: on a deactivated account a wrong password yields
    the deactivation message, which is not the message of an unknown
    e-mail address. *)
Lemma login_wrong_password_on_deactivated_account :
  UserRepository.findByEmailWithPassword "b@x.com" Sample.users
    = (inr (Some Sample.bob), Sample.users)
  /\ AuthService.comparePassword Sample.passwordMatches Sample.bob "wrong" = false
  /\ AuthService.login Sample.hashPassword Sample.passwordMatches Sample.jwtSign
       1000 (LoginRequest.mk "b@x.com" "wrong") Sample.users
     = (inl (Error msg_deactivated), Sample.users)
  /\ AuthService.login Sample.hashPassword Sample.passwordMatches Sample.jwtSign
       1000 (LoginRequest.mk "nobody@x.com" "wrong") Sample.users
     = (inl (Error msg_invalid_credentials), Sample.users)
  /\ msg_deactivated <> msg_invalid_credentials.
Proof.
  repeat split; try reflexivity. discriminate.
Qed.

(* ================================================================== *)
(** ** The scenarios of the specification, run on the sample collection *)

(** Scenario 2: quantity 10 over a minimum of 5 is IN_STOCK; after
    [updateStock] to 5 the product is LOW_STOCK, and after [updateStock] to 0
    it is OUT_OF_STOCK. *)
Example scenario_stock_status :
  Product.stockStatus Sample.widget = Product.IN_STOCK
  /\ (exists p st,
        ProductService.updateStock "p1" 5 (Some "u1") Sample.products
          = (inr (Some p), st)
        /\ Product.stockStatus p = Product.LOW_STOCK
        /\ exists p0 st0,
            ProductService.updateStock "p1" 0 (Some "u1") st = (inr (Some p0), st0)
            /\ Product.stockStatus p0 = Product.OUT_OF_STOCK).
Proof.
  split; [reflexivity|].
  do 2 eexists. split; [reflexivity|]. split; [reflexivity|].
  do 2 eexists. split; reflexivity.
Qed.

(** A negative quantity is refused before the product is looked up. *)
Example updateStock_negative_refused :
  ProductService.updateStock "p404" (-1) None Sample.products
  = (inl (Error msg_negative_quantity), Sample.products).
Proof. reflexivity. Qed.

(** A request the schema rejects is not stored. *)
Example createProduct_negative_price_refused :
  ProductService.createProduct "p3" "u9"
    {| CreateProductRequest.name := "Sprocket";
       CreateProductRequest.description := None;
       CreateProductRequest.sku := "new-7";
       CreateProductRequest.category := "tools";
       CreateProductRequest.price := -1;
       CreateProductRequest.quantity := 1;
       CreateProductRequest.minStockLevel := 5;
       CreateProductRequest.images := None |}
    Sample.products
  = (inl (ValidationError ["Price cannot be negative"]), Sample.products).
Proof. reflexivity. Qed.

(** Another user's product, an inactive product and an unknown identifier
    all look the same to a scoped caller; an admin's scope sees the
    product. *)
Example scoped_lookup_examples :
  ProductService.getProductById "p2" (Some "u1") Sample.products
    = (inr None, Sample.products)
  /\ ProductService.getProductById "p404" (Some "u1") Sample.products
     = (inr None, Sample.products)
  /\ ProductService.getProductById "p2"
       (ProductController.ownerUserId_or_undefined ADMIN "u1") Sample.products
     = (inr (Some Sample.gadget), Sample.products)
  /\ ProductService.getProductById "p2"
       (Some (ProductController.ownerUserId_or_empty ADMIN "u1")) Sample.products
     = (inr (Some Sample.gadget), Sample.products).
Proof. repeat split. Qed.

(** After the owner deletes the widget, a search for it finds nothing and
    its SKU is still taken. *)
Example soft_delete_example :
  exists st,
    ProductService.deleteProduct "p1" "u1" Sample.products = (inr true, st)
    /\ (exists r,
          ProductService.searchProducts Sample.regexTest Sample.sortProducts
            (ProductQuery.mk (Some "widget") None None None None None None None None)
            st
          = (inr r, st)
          /\ data r = []
          /\ pg_total (pagination r) = 0)
    /\ ProductService.createProduct "p3" "u2"
         {| CreateProductRequest.name := "Widget again";
            CreateProductRequest.description := None;
            CreateProductRequest.sku := "Abc-1";
            CreateProductRequest.category := "tools";
            CreateProductRequest.price := 1;
            CreateProductRequest.quantity := 1;
            CreateProductRequest.minStockLevel := 5;
            CreateProductRequest.images := None |}
         st
       = (inl (Error msg_duplicate_sku), st).
Proof.
  eexists. split; [reflexivity|]. split; [|reflexivity].
  eexists. split; [reflexivity|]. split; reflexivity.
Qed.

(** Before the deletion the same search finds the widget. *)
Example search_finds_active :
  exists r,
    ProductService.searchProducts Sample.regexTest Sample.sortProducts
      (ProductQuery.mk (Some "widget") None None None None None None None None)
      Sample.products
    = (inr r, Sample.products)
    /\ data r = [Sample.widget]
    /\ pagination r
       = {| pg_page := 1; pg_limit := 10; pg_total := 1; pg_pages := 1;
            pg_hasNext := false; pg_hasPrev := false |}.
Proof. eexists. split; [reflexivity|]. split; reflexivity. Qed.

(* ================================================================== *)
(** * Further properties of the code *)

(** ** Pagination *)

Lemma ceil_div_bounds (total limit : Z) :
  0 < limit ->
  (ceil_div total limit - 1) * limit < total <= ceil_div total limit * limit.
Proof.
  intros Hl. unfold ceil_div.
  pose proof (Z.div_mod (total + limit - 1) limit ltac:(lia)) as Hdm.
  pose proof (Z.mod_pos_bound (total + limit - 1) limit Hl) as Hm.
  nia.
Qed.

Lemma lt_ceil_div (page total limit : Z) :
  0 < limit ->
  (page < ceil_div total limit <-> page * limit < total).
Proof.
  intros Hl. pose proof (ceil_div_bounds total limit Hl) as [H1 H2].
  split; intros H; nia.
Qed.

Section Pagination.

Context {T : Type}.
Variable doc_id : T -> string.
Variable sortDocs : string -> SortOrder -> list T -> list T.
Hypothesis sortDocs_perm :
  forall sortBy order docs, Permutation (sortDocs sortBy order docs) docs.

(** X1. For a page number and a page size of at least 1,
    [findWithPagination] writes nothing and answers: [total], the number of
    documents that match; [pages], the least number of pages of that size
    that hold them; [hasNext] exactly when documents remain after this page;
    [hasPrev] exactly when the page is not the first; and a page of
    [min(limit, max(0, total - (page - 1) * limit))] matching documents. *)
Theorem findWithPagination_math
    (filter : T -> bool) (page limit : Z) (sortBy : string) (order : SortOrder)
    (docs : list T) :
  1 <= page ->
  1 <= limit ->
  exists r,
    BaseRepository.findWithPagination sortDocs filter page limit sortBy order docs
      = (inr r, docs)
    /\ pg_page (pagination r) = page
    /\ pg_limit (pagination r) = limit
    /\ pg_total (pagination r) = Z.of_nat (List.length (List.filter filter docs))
    /\ (pg_pages (pagination r) - 1) * limit < pg_total (pagination r)
         <= pg_pages (pagination r) * limit
    /\ (pg_hasNext (pagination r) = true <-> page * limit < pg_total (pagination r))
    /\ (pg_hasPrev (pagination r) = true <-> 1 < page)
    /\ Z.of_nat (List.length (data r))
       = Z.min limit (Z.max 0 (pg_total (pagination r) - (page - 1) * limit))
    /\ (forall x, In x (data r) -> In x docs /\ filter x = true).
Proof.
  intros Hp Hl.
  unfold BaseRepository.findWithPagination, BaseRepository.count.
  run_eff. eexists. split; [reflexivity|]. simpl.
  set (total := Z.of_nat (List.length (List.filter filter docs))).
  repeat split; try lia.
  - apply ceil_div_bounds. lia.
  - apply ceil_div_bounds. lia.
  - intros H. apply Z.ltb_lt in H. apply lt_ceil_div in H; lia.
  - intros H. apply Z.ltb_lt. apply lt_ceil_div; lia.
  - rewrite length_firstn, length_skipn.
    rewrite (Permutation_length (sortDocs_perm sortBy order _)).
    fold total. unfold total. nia.
  - apply In_firstn, In_skipn in H.
    apply (Permutation_in _ (sortDocs_perm _ _ _)) in H.
    now apply filter_In in H.
  - apply In_firstn, In_skipn in H.
    apply (Permutation_in _ (sortDocs_perm _ _ _)) in H.
    now apply filter_In in H.
Qed.

End Pagination.

(** ** Listings *)

Section Listings.

Variable regexTest : string -> string -> bool.
Variable sortProducts : string -> SortOrder -> ProductStore -> ProductStore.
Variable matchUserId : string -> string -> bool.
Hypothesis sortProducts_perm :
  forall sortBy order docs, Permutation (sortProducts sortBy order docs) docs.

(** X2. The search has no owner scope: with no criterion in the query, on
    the first page and with a page size that holds them all, it returns
    every active product of the collection, whoever owns it, and nothing
    else. *)
Theorem searchProducts_returns_all_owners
    (st : ProductStore) (limit : Z) (sortBy : option string)
    (order : option SortOrder) :
  Z.of_nat (List.length (List.filter Product.isActive st)) <= limit ->
  exists r,
    ProductService.searchProducts regexTest sortProducts
      (ProductQuery.mk None None None None None (Some 1) (Some limit) sortBy order)
      st
    = (inr r, st)
    /\ Permutation (data r) (List.filter Product.isActive st)
    /\ (forall p, In p st -> Product.isActive p = true -> In p (data r)).
Proof.
  intros Hfit.
  unfold ProductService.searchProducts, ProductRepository.searchProducts,
    BaseRepository.findWithPagination, BaseRepository.count.
  run_eff. eexists. split; [reflexivity|]. simpl.
  assert (Hf : List.filter
                 (ProductRepository.searchFilter regexTest
                    (ProductQuery.mk None None None None None (Some 1)
                       (Some limit) sortBy order)) st
               = List.filter Product.isActive st).
  { apply filter_ext. intros p. unfold ProductRepository.searchFilter. simpl.
    now rewrite !Bool.andb_true_r. }
  rewrite Hf.
  assert (Hperm : Permutation
                    (firstn (Z.to_nat limit)
                       (sortProducts
                          match sortBy with Some f => f | None => "createdAt" end
                          match order with Some o => o | None => desc end
                          (List.filter Product.isActive st)))
                    (List.filter Product.isActive st)).
  { rewrite firstn_all2; [apply sortProducts_perm|].
    match goal with
    | |- (List.length (sortProducts ?f ?o ?l) <= _)%nat =>
        pose proof (Permutation_length (sortProducts_perm f o l)) as Hlen
    end.
    rewrite Hlen. apply Nat2Z.inj_le.
    rewrite Z2Nat.id; [exact Hfit|].
    eapply Z.le_trans; [apply Nat2Z.is_nonneg | exact Hfit]. }
  split; [exact Hperm|].
  intros p Hin Hact.
  apply (Permutation_in _ (Permutation_sym Hperm)).
  apply filter_In. now split.
Qed.

(** X3. For minimum stock levels that are not negative, the unscoped
    low-stock listing holds exactly the active products whose stock status
    is not IN_STOCK. *)
Theorem getLowStockProducts_is_not_in_stock (st : ProductStore) :
  minStockLevels_nonneg st ->
  exists l,
    ProductService.getLowStockProducts matchUserId None st = (inr l, st)
    /\ forall p,
        In p l
        <-> In p st /\ Product.isActive p = true
            /\ Product.stockStatus p <> Product.IN_STOCK.
Proof.
  intros Hmin.
  unfold ProductService.getLowStockProducts, ProductRepository.findLowStock.
  run_eff. eexists. split; [reflexivity|].
  intros p. rewrite filter_In.
  unfold ProductRepository.lowStockMatch, Product.stockStatus. simpl.
  split.
  - intros [Hin Hm]. split; [assumption|].
    destruct (Product.isActive p); [|discriminate]. split; [reflexivity|].
    simpl in Hm. rewrite Hm.
    destruct (Product.quantity p =? 0); discriminate.
  - intros (Hin & Hact & Hst). split; [assumption|].
    rewrite Hact. simpl.
    destruct (Product.quantity p =? 0) eqn:E0.
    + apply Z.eqb_eq in E0. apply Z.leb_le. specialize (Hmin p Hin). lia.
    + destruct (Product.quantity p <=? Product.minStockLevel p);
        [reflexivity | contradiction].
Qed.

End Listings.

(** X4. With distinct identifiers and a non-empty user identifier, the
    products [getUserProducts] lists for a user are exactly those
    [getProductById] returns under that user's scope. *)
Theorem getUserProducts_agrees_with_getProductById
    (st : ProductStore) (userId : string) :
  ids_unique st ->
  userId <> "" ->
  exists l,
    ProductService.getUserProducts userId st = (inr l, st)
    /\ forall p,
        In p l
        <-> ProductService.getProductById (Product._id p) (Some userId) st
            = (inr (Some p), st).
Proof.
  intros Hids Hne.
  unfold ProductService.getUserProducts, ProductRepository.findByUserId.
  run_eff. eexists. split; [reflexivity|].
  intros p. rewrite filter_In, getProductById_Some.
  unfold visible. simpl.
  apply String.eqb_neq in Hne. rewrite Hne. simpl.
  split.
  - intros [Hin Hm]. apply Bool.andb_true_iff in Hm. destruct Hm as [Hown Hact].
    split.
    + unfold stored.
      destruct (List.find (BaseRepository.has_id Product._id (Product._id p)) st)
        as [q|] eqn:F.
      * apply find_some in F. destruct F as [Hq Hid].
        unfold BaseRepository.has_id in Hid. apply String.eqb_eq in Hid.
        f_equal. unfold ids_unique in Hids.
        clear - Hids Hin Hq Hid.
        induction st as [|d rest IH]; [contradiction|].
        simpl in Hids. inversion Hids as [|? ? Hnotin Hnd]; subst.
        destruct Hin as [-> | Hin], Hq as [-> | Hq]; try reflexivity.
        -- exfalso. apply Hnotin. rewrite <- Hid. now apply in_map.
        -- exfalso. apply Hnotin. rewrite Hid. now apply in_map.
        -- now apply IH.
      * exfalso. pose proof (find_none _ _ F p Hin) as H.
        unfold BaseRepository.has_id in H. now rewrite String.eqb_refl in H.
    + now rewrite Hact, Hown.
  - intros [Hs Hv]. apply stored_has_id in Hs. destruct Hs as [Hin _].
    split; [assumption|].
    destruct (Product.isActive p); [|discriminate].
    destruct (String.eqb (Product.userId p) userId); [reflexivity | discriminate].
Qed.

(** ** What the mutating operations can and cannot change *)

Lemma unique_by_id (st : ProductStore) (p q : IProductDocument) :
  ids_unique st -> In p st -> In q st -> Product._id p = Product._id q -> p = q.
Proof.
  unfold ids_unique. induction st as [|d rest IH]; [contradiction|].
  simpl. intros Hnd Hp Hq Hid. inversion Hnd as [|? ? Hnotin Hnd']; subst.
  destruct Hp as [-> | Hp], Hq as [-> | Hq]; try reflexivity.
  - exfalso. apply Hnotin. rewrite Hid. now apply in_map.
  - exfalso. apply Hnotin. rewrite <- Hid. now apply in_map.
  - now apply IH.
Qed.

(** An update the validators accept is the modification it describes, and
    the numbers it sets are not negative. *)
Lemma castProductUpdate_inr (u : ProductUpdate.t) (f : IProductDocument -> IProductDocument) :
  castProductUpdate u = inr f ->
  f = applyProductUpdate u
  /\ (forall q, ProductUpdate.quantity u = Some q -> 0 <= q)
  /\ (forall v, ProductUpdate.price u = Some v -> 0 <= v)
  /\ (forall v, ProductUpdate.minStockLevel u = Some v -> 0 <= v).
Proof.
  unfold castProductUpdate.
  match goal with
  | |- context [match ?v with [] => _ | _ :: _ => _ end] => destruct v eqn:V
  end; [|discriminate].
  intros H. inversion H. split; [reflexivity|].
  repeat (apply app_eq_nil in V; destruct V as [? V]).
  repeat split; intros v Hv.
  - rewrite Hv in *. unfold Product.validate_quantity in *. simpl in *.
    destruct (0 <=? v) eqn:E; [lia | discriminate].
  - rewrite Hv in *. unfold Product.validate_price in *. simpl in *.
    destruct (0 <=? v) eqn:E; [lia | discriminate].
  - rewrite Hv in *. unfold Product.validate_minStockLevel in *. simpl in *.
    destruct (0 <=? v) eqn:E; [lia | discriminate].
Qed.

(** The collection a repository update leaves: the one it found, or that
    one with the first document of the identifier modified. *)
Lemma repo_update_cases (st st' : ProductStore) (productId : string)
    (u : ProductUpdate.t) (r : Exn + option IProductDocument) :
  ProductRepository.update productId u st = (r, st') ->
  st' = st
  \/ (exists p,
        stored st productId = Some p
        /\ castProductUpdate u = inr (applyProductUpdate u)
        /\ r = inr (Some (applyProductUpdate u p))
        /\ st' = BaseRepository.replace_first Product._id productId
                   (applyProductUpdate u) st).
Proof.
  unfold ProductRepository.update, BaseRepository.update,
    BaseRepository.findByIdAndUpdate.
  destruct (castProductUpdate u) as [errs|f] eqn:C.
  - intros H. inversion H. now left.
  - destruct (castProductUpdate_inr u f C) as [-> _].
    fold (stored st productId).
    destruct (stored st productId) as [p|] eqn:Hs; intros H; inversion H; subst.
    + right. exists p. auto.
    + now left.
Qed.

(** Every mutating operation of the service, when it writes at all,
    modifies the one product it was given, which its caller can reach,
    by an update the validators accept. *)
Lemma updateProduct_wrote_one (st st' : ProductStore) (productId userId : string)
    (updateData : UpdateProductRequest.t) (r : Exn + option IProductDocument) :
  ProductService.updateProduct productId userId updateData st = (r, st') ->
  wrote_one (Some userId) productId st st'.
Proof.
  unfold ProductService.updateProduct. unfold bind at 1.
  rewrite getProductById_eq.
  destruct (stored st productId) as [p|] eqn:Hs;
    [|intros H; inversion H; now left].
  destruct (visible (Some userId) p) eqn:Hv;
    [|intros H; inversion H; now left].
  unfold bind at 1.
  match goal with
  | |- context [if ?c then _ else _] => destruct c
  end.
  - unfold bind at 1. rewrite findBySku_eq.
    match goal with
    | |- context [List.find ?g st] => destruct (List.find g st)
    end; [intros H; inversion H; now left|].
    unfold ret. intros H. apply repo_update_cases in H.
    destruct H as [-> | (p' & Hp' & C & _ & ->)]; [now left|].
    right. exists p, (ProductUpdate.of_request updateData). auto.
  - unfold ret. intros H. apply repo_update_cases in H.
    destruct H as [-> | (p' & Hp' & C & _ & ->)]; [now left|].
    right. exists p, (ProductUpdate.of_request updateData). auto.
Qed.

Lemma deleteProduct_wrote_one (st st' : ProductStore) (productId userId : string)
    (r : Exn + bool) :
  ProductService.deleteProduct productId userId st = (r, st') ->
  wrote_one (Some userId) productId st st'.
Proof.
  unfold ProductService.deleteProduct. unfold bind at 1.
  rewrite getProductById_eq.
  destruct (stored st productId) as [p|] eqn:Hs;
    [|intros H; inversion H; now left].
  destruct (visible (Some userId) p) eqn:Hv;
    [|intros H; inversion H; now left].
  unfold bind. rewrite update_isActive_eq, Hs. unfold ret.
  intros H. inversion H. right.
  exists p, (ProductUpdate.of_isActive false). auto.
Qed.

Lemma updateStock_wrote_one (st st' : ProductStore) (productId : string) (q : Z)
    (scope : option string) (r : Exn + option IProductDocument) :
  ProductService.updateStock productId q scope st = (r, st') ->
  wrote_one scope productId st st'.
Proof.
  intros H. destruct r as [e|r].
  - destruct (updateStock_cases st productId q scope)
      as [(r0 & s0 & H0) | (msg & H0)]; rewrite H0 in H; inversion H.
    now left.
  - apply updateStock_inv in H. destruct H as (p & Hs & Hv & Hq & _ & ->).
    right. exists p, (ProductUpdate.of_quantity q).
    repeat split; try assumption.
    unfold castProductUpdate, Product.validate_quantity. simpl.
    destruct (0 <=? q) eqn:E; [reflexivity | lia].
Qed.

Lemma adjustStock_wrote_one (st st' : ProductStore) (productId : string)
    (adjustment : Z) (scope : option string) (r : Exn + option IProductDocument) :
  ProductService.adjustStock productId adjustment scope st = (r, st') ->
  wrote_one scope productId st st'.
Proof.
  unfold ProductService.adjustStock. unfold bind at 1.
  rewrite getProductById_eq.
  destruct (stored st productId) as [p|] eqn:Hs;
    [|intros H; inversion H; now left].
  destruct (visible scope p) eqn:Hv; [|intros H; inversion H; now left].
  cbv zeta.
  destruct (JS.add (Product.quantity p) adjustment <? 0);
    [intros H; inversion H; now left|].
  apply updateStock_wrote_one.
Qed.

Lemma wrote_one_spares_others (scope productId : string) (st st' : ProductStore) :
  scope <> "" ->
  wrote_one (Some scope) productId st st' ->
  spares_others scope st st'.
Proof.
  intros Hne [-> | (p & u & Hs & Hv & _ & ->)] other q Hq Hown; [assumption|].
  destruct (String.eqb other productId) eqn:E.
  - apply String.eqb_eq in E. subst other. rewrite Hs in Hq. inversion Hq; subst q.
    exfalso. unfold visible in Hv. simpl in Hv.
    apply String.eqb_neq in Hne. rewrite Hne in Hv. simpl in Hv.
    apply String.eqb_neq in Hown. rewrite Hown in Hv.
    destruct (Product.isActive p); discriminate.
  - apply String.eqb_neq in E. now rewrite stored_after_replace_other.
Qed.

(** X5. Under the non-empty scope of a caller, [updateProduct],
    [deleteProduct], [updateStock] and [adjustStock], whatever they are
    asked and whether they succeed or fail, leave every product owned by
    another user stored exactly as it was. *)
Theorem scoped_mutations_spare_other_owners (st : ProductStore) (scope : string) :
  scope <> "" ->
  (forall productId updateData r st',
      ProductService.updateProduct productId scope updateData st = (r, st') ->
      spares_others scope st st')
  /\ (forall productId r st',
      ProductService.deleteProduct productId scope st = (r, st') ->
      spares_others scope st st')
  /\ (forall productId quantity r st',
      ProductService.updateStock productId quantity (Some scope) st = (r, st') ->
      spares_others scope st st')
  /\ (forall productId adjustment r st',
      ProductService.adjustStock productId adjustment (Some scope) st = (r, st') ->
      spares_others scope st st').
Proof.
  intros Hne. repeat split; intros.
  - eapply wrote_one_spares_others; eauto using updateProduct_wrote_one.
  - eapply wrote_one_spares_others; eauto using deleteProduct_wrote_one.
  - eapply wrote_one_spares_others; eauto using updateStock_wrote_one.
  - eapply wrote_one_spares_others; eauto using adjustStock_wrote_one.
Qed.

(** X6. A soft-deleted product can no longer be changed through the
    service, by its owner or by an admin: [updateProduct], [deleteProduct]
    and [adjustStock] fail with the not-found error, [updateStock] fails
    (with that error, or with the negative-quantity error), and none of
    them writes. *)
Theorem deleted_product_is_frozen
    (st : ProductStore) (productId : string) (p : IProductDocument) :
  stored st productId = Some p ->
  Product.isActive p = false ->
  (forall userId updateData,
      ProductService.updateProduct productId userId updateData st
      = (inl (Error msg_not_found), st))
  /\ (forall userId,
      ProductService.deleteProduct productId userId st
      = (inl (Error msg_not_found), st))
  /\ (forall scope adjustment,
      ProductService.adjustStock productId adjustment scope st
      = (inl (Error msg_not_found), st))
  /\ (forall scope quantity,
      ProductService.updateStock productId quantity scope st
      = (inl (Error (if quantity <? 0 then msg_negative_quantity
                     else msg_not_found)), st)).
Proof.
  intros Hs Hina.
  assert (Hget : forall scope,
             ProductService.getProductById productId scope st = (inr None, st)).
  { intros scope. rewrite getProductById_eq, Hs. unfold visible.
    now rewrite Hina. }
  repeat split; intros.
  - unfold ProductService.updateProduct, bind. now rewrite Hget.
  - unfold ProductService.deleteProduct, bind. now rewrite Hget.
  - unfold ProductService.adjustStock, bind. now rewrite Hget.
  - unfold ProductService.updateStock.
    destruct (quantity <? 0); [reflexivity|].
    unfold bind. now rewrite Hget.
Qed.

(** ** The invariants under every operation *)

Lemma wrote_one_keeps_store_ok (scope : option string) (productId : string)
    (st st' : ProductStore) :
  wrote_one scope productId st st' -> store_ok st -> store_ok st'.
Proof.
  intros [-> | (p & u & Hs & Hv & C & ->)] Hok; [assumption|].
  destruct Hok as (Hids & Hup & Hq & Hp & Hm).
  destruct (castProductUpdate_inr u _ C) as (_ & Vq & Vp & Vm).
  assert (Hcases : forall x,
             In x (BaseRepository.replace_first Product._id productId
                     (applyProductUpdate u) st) ->
             In x st \/ exists d, In d st /\ x = applyProductUpdate u d).
  { intros x. apply In_replace_first_cases. }
  repeat split.
  - unfold ids_unique. rewrite map_id_replace_first; [assumption|].
    intros d. reflexivity.
  - now apply skus_upper_replace_first.
  - intros x Hx. destruct (Hcases x Hx) as [Hin | (d & Hd & ->)]; [now apply Hq|].
    simpl. destruct (ProductUpdate.quantity u) as [q|] eqn:E; simpl;
      [now apply Vq | now apply Hq].
  - intros x Hx. destruct (Hcases x Hx) as [Hin | (d & Hd & ->)]; [now apply Hp|].
    simpl. destruct (ProductUpdate.price u) as [v|] eqn:E; simpl;
      [now apply Vp | now apply Hp].
  - intros x Hx. destruct (Hcases x Hx) as [Hin | (d & Hd & ->)]; [now apply Hm|].
    simpl. destruct (ProductUpdate.minStockLevel u) as [v|] eqn:E; simpl;
      [now apply Vm | now apply Hm].
Qed.

Lemma validateProduct_minStockLevel (doc : IProductDocument) :
  validateProduct doc = [] -> 0 <= Product.minStockLevel doc.
Proof.
  unfold validateProduct. intros V.
  repeat (apply app_eq_nil in V; destruct V as [? V]).
  unfold Product.validate_minStockLevel in *. simpl in *.
  destruct (0 <=? Product.minStockLevel doc) eqn:E; [lia | discriminate].
Qed.

Lemma createProduct_keeps_store_ok (st st' : ProductStore) (newId userId : string)
    (productData : CreateProductRequest.t) (r : Exn + IProductDocument) :
  ~ In newId (map Product._id st) ->
  ProductService.createProduct newId userId productData st = (r, st') ->
  store_ok st -> store_ok st'.
Proof.
  intros Hfresh. unfold ProductService.createProduct. unfold bind.
  rewrite findBySku_eq.
  match goal with
  | |- context [List.find ?g st] => destruct (List.find g st)
  end; [intros H; inversion H; subst; auto|].
  rewrite create_eq.
  destruct (validateProduct _) eqn:V; [|intros H; inversion H; subst; auto].
  intros H. inversion H; subst. clear H.
  intros (Hids & Hup & Hq & Hp & Hm).
  destruct (validateProduct_nonneg _ V) as [Vq Vp].
  pose proof (validateProduct_minStockLevel _ V) as Vm.
  repeat split.
  - unfold ids_unique. rewrite map_app. simpl.
    apply NoDup_app; [assumption | repeat constructor; auto | ].
    intros x Hx [<- | []]. contradiction.
  - intros x Hx. apply in_app_or in Hx. destruct Hx as [Hx | [<- | []]].
    + now apply Hup.
    + apply set_sku_idem.
  - intros x Hx. apply in_app_or in Hx.
    destruct Hx as [Hx | [<- | []]]; [now apply Hq | exact Vq].
  - intros x Hx. apply in_app_or in Hx.
    destruct Hx as [Hx | [<- | []]]; [now apply Hp | exact Vp].
  - intros x Hx. apply in_app_or in Hx.
    destruct Hx as [Hx | [<- | []]]; [now apply Hm | exact Vm].
Qed.

Lemma bulkUpdateStock_keeps_store_ok (updates : list StockUpdate.t)
    (scope : option string) (st st' : ProductStore) (r : Exn + unit) :
  ProductService.bulkUpdateStock updates scope st = (r, st') ->
  store_ok st -> store_ok st'.
Proof.
  revert st. induction updates as [|u rest IH]; intros st H Hok.
  - inversion H; subst. exact Hok.
  - rewrite bulkUpdateStock_cons in H.
    destruct (ProductService.updateStock _ _ scope st) as [[e|r0] s] eqn:Hu.
    + inversion H; subst.
      eapply wrote_one_keeps_store_ok; eauto using updateStock_wrote_one.
    + apply (IH s H).
      eapply wrote_one_keeps_store_ok; eauto using updateStock_wrote_one.
Qed.

(** X7. Every writing operation of the product service, on any input and
    whether it succeeds or fails, keeps the invariants of the collection:
    distinct identifiers (the identifier of a created product being new),
    upper-cased SKUs, and no negative quantity, price or minimum stock
    level. *)
Theorem product_service_keeps_invariants (st : ProductStore) :
  store_ok st ->
  (forall newId userId productData r st',
      ~ In newId (map Product._id st) ->
      ProductService.createProduct newId userId productData st = (r, st') ->
      store_ok st')
  /\ (forall productId userId updateData r st',
      ProductService.updateProduct productId userId updateData st = (r, st') ->
      store_ok st')
  /\ (forall productId userId r st',
      ProductService.deleteProduct productId userId st = (r, st') ->
      store_ok st')
  /\ (forall productId quantity scope r st',
      ProductService.updateStock productId quantity scope st = (r, st') ->
      store_ok st')
  /\ (forall productId adjustment scope r st',
      ProductService.adjustStock productId adjustment scope st = (r, st') ->
      store_ok st')
  /\ (forall updates scope r st',
      ProductService.bulkUpdateStock updates scope st = (r, st') ->
      store_ok st').
Proof.
  intros Hok. repeat split; intros.
  all: try (eapply createProduct_keeps_store_ok; eassumption).
  all: try (eapply bulkUpdateStock_keeps_store_ok; eassumption).
  all: eapply wrote_one_keeps_store_ok; [|exact Hok];
    eauto using updateProduct_wrote_one, deleteProduct_wrote_one,
      updateStock_wrote_one, adjustStock_wrote_one.
Qed.

(** ** How stock operations compose *)

Section ReplaceFacts.

Context {T : Type}.
Variable doc_id : T -> string.

Lemma replace_first_ext (id : string) (f g : T -> T) (docs : list T) :
  (forall d, f d = g d) ->
  BaseRepository.replace_first doc_id id f docs
  = BaseRepository.replace_first doc_id id g docs.
Proof.
  intros Hfg. induction docs as [|d rest IH]; simpl; [reflexivity|].
  destruct (BaseRepository.has_id doc_id id d); [now rewrite Hfg | now rewrite IH].
Qed.

Lemma replace_first_twice (id : string) (f g : T -> T) (docs : list T) :
  (forall d, doc_id (f d) = doc_id d) ->
  BaseRepository.replace_first doc_id id g
    (BaseRepository.replace_first doc_id id f docs)
  = BaseRepository.replace_first doc_id id (fun d => g (f d)) docs.
Proof.
  intros Hf. induction docs as [|d rest IH]; simpl; [reflexivity|].
  destruct (BaseRepository.has_id doc_id id d) eqn:E; simpl.
  - unfold BaseRepository.has_id in *. now rewrite Hf, E.
  - now rewrite E, IH.
Qed.

Lemma replace_first_fixed (id : string) (f : T -> T) (docs : list T) (p : T) :
  List.find (BaseRepository.has_id doc_id id) docs = Some p ->
  f p = p ->
  BaseRepository.replace_first doc_id id f docs = docs.
Proof.
  intros Hfind Hp. induction docs as [|d rest IH]; simpl in *; [reflexivity|].
  destruct (BaseRepository.has_id doc_id id d).
  - inversion Hfind; subst. now rewrite Hp.
  - now rewrite IH.
Qed.

Lemma find_app_id (id : string) (docs : list T) (d : T) :
  List.find (BaseRepository.has_id doc_id id) (docs ++ [d])
  = match List.find (BaseRepository.has_id doc_id id) docs with
    | Some p => Some p
    | None => if BaseRepository.has_id doc_id id d then Some d else None
    end.
Proof.
  induction docs as [|x rest IH]; simpl; [reflexivity|].
  destruct (BaseRepository.has_id doc_id id x); [reflexivity | exact IH].
Qed.

End ReplaceFacts.

Lemma with_quantity_twice (q1 q2 : Z) (p : IProductDocument) :
  with_quantity q2 (with_quantity q1 p) = with_quantity q2 p.
Proof. reflexivity. Qed.

Lemma with_quantity_same (p : IProductDocument) :
  with_quantity (Product.quantity p) p = p.
Proof. destruct p. reflexivity. Qed.

Lemma reachable_iff (scope : option string) (st : ProductStore) (productId : string) :
  reachable scope st productId
  <-> exists p, stored st productId = Some p /\ visible scope p = true.
Proof.
  unfold reachable. split; intros (p & H); exists p; now apply getProductById_Some.
Qed.

(** A change of quantity moves no product in or out of reach. *)
Lemma reachable_after_with_quantity (scope : option string) (st : ProductStore)
    (productId other : string) (q : Z) :
  reachable scope
    (BaseRepository.replace_first Product._id productId (with_quantity q) st) other
  <-> reachable scope st other.
Proof.
  rewrite !reachable_iff.
  destruct (String.eqb other productId) eqn:E.
  - apply String.eqb_eq in E. subst other.
    unfold with_quantity. rewrite stored_after_replace.
    destruct (stored st productId) as [p|]; simpl.
    + split; intros (p' & Hp' & Hv); inversion Hp'; subst; eexists; split;
        try reflexivity; exact Hv.
    + split; intros (p' & Hp' & _); discriminate.
  - apply String.eqb_neq in E. unfold with_quantity.
    now rewrite stored_after_replace_other.
Qed.

(** X8. [bulkUpdateStock] succeeds exactly when every entry, taken alone
    against the collection as it is before the call, has a quantity that is
    not negative and names a product the caller can reach. *)
Theorem bulkUpdateStock_succeeds_iff
    (updates : list StockUpdate.t) (scope : option string) (st : ProductStore) :
  (exists st', ProductService.bulkUpdateStock updates scope st = (inr tt, st'))
  <-> Forall (fun u => 0 <= StockUpdate.quantity u
                       /\ reachable scope st (StockUpdate.productId u)) updates.
Proof.
  revert st. induction updates as [|u rest IH]; intros st.
  - split; [constructor | intros _; now exists st].
  - rewrite bulkUpdateStock_cons. split.
    + intros (st' & H).
      destruct (ProductService.updateStock _ _ scope st) as [[e|r] s] eqn:Hu;
        [discriminate|].
      apply updateStock_inv in Hu. destruct Hu as (p & Hs & Hv & Hq & _ & ->).
      constructor.
      * split; [assumption|]. apply reachable_iff. now exists p.
      * assert (Hrest : Forall
                  (fun u0 => 0 <= StockUpdate.quantity u0
                             /\ reachable scope
                                  (BaseRepository.replace_first Product._id
                                     (StockUpdate.productId u)
                                     (with_quantity (StockUpdate.quantity u)) st)
                                  (StockUpdate.productId u0)) rest).
        { apply IH. now exists st'. }
        eapply Forall_impl; [|exact Hrest].
        intros u0 [H0 H1]. split; [assumption|].
        now apply reachable_after_with_quantity in H1.
    + intros HF. inversion HF as [|? ? [Hq Hr] Hrest]; subst.
      apply reachable_iff in Hr. destruct Hr as (p & Hs & Hv).
      rewrite (updateStock_ok st _ _ scope p Hq Hs Hv).
      apply IH. eapply Forall_impl; [|exact Hrest].
      intros u0 [H0 H1]. split; [assumption|].
      now apply reachable_after_with_quantity.
Qed.





(** X11. [updateStock] sets an absolute quantity: of two successive calls
    on the same product only the second shows, in the returned product and
    in the collection; calling it twice with one quantity is calling it
    once. *)
Theorem updateStock_last_write_wins
    (st : ProductStore) (productId : string) (q1 q2 : Z) (scope : option string)
    (p : IProductDocument) :
  ProductService.getProductById productId scope st = (inr (Some p), st) ->
  0 <= q1 ->
  0 <= q2 ->
  exists p1 st1 p2 st2,
    ProductService.updateStock productId q1 scope st = (inr (Some p1), st1)
    /\ ProductService.updateStock productId q2 scope st1 = (inr (Some p2), st2)
    /\ ProductService.updateStock productId q2 scope st = (inr (Some p2), st2)
    /\ Product.quantity p2 = q2.
Proof.
  intros Hget H1 H2.
  apply getProductById_Some in Hget. destruct Hget as [Hs Hv].
  set (st1 := BaseRepository.replace_first Product._id productId
                (with_quantity q1) st).
  assert (Hs1 : stored st1 productId = Some (with_quantity q1 p)).
  { unfold st1, with_quantity. now rewrite stored_after_replace, Hs. }
  exists (with_quantity q1 p), st1, (with_quantity q2 p),
    (BaseRepository.replace_first Product._id productId (with_quantity q2) st).
  split; [now apply updateStock_ok|]. split; [|split; [now apply updateStock_ok|]].
  - rewrite (updateStock_ok st1 productId q2 scope (with_quantity q1 p) H2 Hs1 Hv).
    apply f_equal2; [reflexivity|].
    unfold st1, with_quantity.
    rewrite replace_first_twice by (intros d; reflexivity).
    apply replace_first_ext. intros d. reflexivity.
  - reflexivity.
Qed.

(** ** Creation and look-up *)

Lemma stored_after_append (st : ProductStore) (doc : IProductDocument)
    (productId : string) :
  stored (st ++ [doc]) productId
  = match stored st productId with
    | Some p => Some p
    | None => if String.eqb (Product._id doc) productId then Some doc else None
    end.
Proof. unfold stored. apply find_app_id. Qed.

Lemma stored_none_of_fresh (st : ProductStore) (newId : string) :
  ~ In newId (map Product._id st) -> stored st newId = None.
Proof.
  intros Hfresh. unfold stored.
  destruct (List.find (BaseRepository.has_id Product._id newId) st) as [p|] eqn:F;
    [|reflexivity].
  exfalso. apply find_some in F. destruct F as [Hin Hid].
  unfold BaseRepository.has_id in Hid. apply String.eqb_eq in Hid.
  apply Hfresh. rewrite <- Hid. now apply in_map.
Qed.

(** X12. After a successful [createProduct] under a new identifier: the
    owner and an unscoped caller find the created product under that
    identifier; what was stored under any identifier before is still stored
    under it; and, the request's SKU having no surrounding white space, a
    second [createProduct] with that SKU in any letter case fails with the
    duplicate-SKU error. *)
Theorem createProduct_then_lookup
    (st st' : ProductStore) (newId ownerId : string)
    (productData : CreateProductRequest.t) (doc : IProductDocument) :
  skus_upper st ->
  ~ In newId (map Product._id st) ->
  ProductService.createProduct newId ownerId productData st = (inr doc, st') ->
  ProductService.getProductById newId (Some ownerId) st' = (inr (Some doc), st')
  /\ ProductService.getProductById newId None st' = (inr (Some doc), st')
  /\ (forall productId p,
        stored st productId = Some p -> stored st' productId = Some p)
  /\ (JS.trim (CreateProductRequest.sku productData)
        = CreateProductRequest.sku productData ->
      forall newId2 ownerId2 again,
        JS.eq_ignore_case (CreateProductRequest.sku again)
          (CreateProductRequest.sku productData) ->
        ProductService.createProduct newId2 ownerId2 again st'
        = (inl (Error msg_duplicate_sku), st')).
Proof.
  intros Hup Hfresh Hcreate.
  unfold ProductService.createProduct in Hcreate. unfold bind in Hcreate.
  rewrite findBySku_eq in Hcreate.
  match type of Hcreate with
  | context [List.find ?g st] => destruct (List.find g st)
  end; [discriminate|].
  rewrite create_eq in Hcreate.
  destruct (validateProduct _) eqn:V; [|discriminate].
  inversion Hcreate; subst. clear Hcreate.
  set (doc := newDocument newId (ProductService.withOwner ownerId productData)).
  assert (Hs : stored (st ++ [doc]) newId = Some doc).
  { rewrite stored_after_append, (stored_none_of_fresh st newId Hfresh).
    simpl. now rewrite String.eqb_refl. }
  split; [|split; [|split]].
  - apply getProductById_Some. split; [exact Hs|].
    unfold visible. simpl. rewrite String.eqb_refl.
    now rewrite Bool.andb_false_r.
  - apply getProductById_Some. split; [exact Hs | reflexivity].
  - intros productId p Hp. now rewrite stored_after_append, Hp.
  - intros Htrim newId2 ownerId2 again Heq.
    apply createProduct_rejects_duplicate with (p := doc).
    + intros x Hx. apply in_app_or in Hx. destruct Hx as [Hx | [<- | []]].
      * now apply Hup.
      * apply set_sku_idem.
    + apply in_or_app. right. now left.
    + unfold JS.eq_ignore_case in *. simpl.
      rewrite set_sku_upper. unfold Product.set_sku.
      rewrite <- toUpperCase_trim, Htrim. now symmetry.
Qed.

(** ** Statistics and categories *)



Section Statistics.

Variable matchUserId : string -> string -> bool.



End Statistics.

Lemma In_insert_sorted (s x : string) (l : list string) :
  In x (JS.insert_sorted s l) <-> x = s \/ In x l.
Proof.
  induction l as [|a l IH]; simpl; [intuition|].
  destruct (String.leb s a); simpl; [intuition|].
  rewrite IH. intuition.
Qed.

Lemma In_sort (x : string) (l : list string) : In x (JS.sort l) <-> In x l.
Proof.
  unfold JS.sort. induction l as [|a l IH]; simpl; [tauto|].
  rewrite In_insert_sorted, IH. intuition.
Qed.

Lemma insert_sorted_Sorted (s : string) (l : list string) :
  Sorted leb_true l -> Sorted leb_true (JS.insert_sorted s l).
Proof.
  induction l as [|a l IH]; simpl; intros Hs.
  - repeat constructor.
  - destruct (String.leb s a) eqn:E.
    + constructor; [assumption|]. constructor. exact E.
    + inversion Hs as [|? ? Hs' Hhd]; subst.
      constructor; [now apply IH|].
      assert (Has : leb_true a s).
      { destruct (String.leb_total a s) as [H|H]; [exact H|]. congruence. }
      destruct l as [|b l]; simpl.
      * constructor. exact Has.
      * destruct (String.leb s b); constructor; [exact Has|].
        now inversion Hhd.
Qed.

Lemma sort_Sorted (l : list string) : Sorted leb_true (JS.sort l).
Proof.
  unfold JS.sort. induction l as [|a l IH]; simpl; [constructor|].
  now apply insert_sorted_Sorted.
Qed.

Lemma insert_sorted_NoDup (s : string) (l : list string) :
  ~ In s l -> NoDup l -> NoDup (JS.insert_sorted s l).
Proof.
  induction l as [|a l IH]; simpl; intros Hnot Hnd.
  - repeat constructor. tauto.
  - destruct (String.leb s a).
    + constructor; [simpl; tauto | assumption].
    + inversion Hnd as [|? ? Ha Hl]; subst. constructor.
      * rewrite In_insert_sorted. intuition.
      * apply IH; tauto.
Qed.

Lemma sort_NoDup (l : list string) : NoDup l -> NoDup (JS.sort l).
Proof.
  unfold JS.sort. induction l as [|a l IH]; simpl; intros Hnd; [constructor|].
  inversion Hnd; subst. apply insert_sorted_NoDup; [|now apply IH].
  fold (JS.sort l). now rewrite In_sort.
Qed.

(** X14. [getCategories] writes nothing and answers the categories of the
    active products, each once, in ascending order. *)
Theorem getCategories_sorted_distinct (st : ProductStore) :
  exists l,
    ProductService.getCategories st = (inr l, st)
    /\ NoDup l
    /\ Sorted leb_true l
    /\ forall c,
        In c l
        <-> exists p, In p st /\ Product.isActive p = true
                      /\ Product.category p = c.
Proof.
  unfold ProductService.getCategories, ProductRepository.getCategories.
  run_eff. eexists. split; [reflexivity|].
  split; [apply sort_NoDup, NoDup_nodup|]. split; [apply sort_Sorted|].
  intros c. rewrite In_sort, nodup_In, in_map_iff. split.
  - intros (p & Hc & Hin). apply filter_In in Hin. exists p. tauto.
  - intros (p & Hin & Hact & Hc). exists p. split; [assumption|].
    apply filter_In. tauto.
Qed.

(** ** Users *)

Section MoreCollectionFacts.

Context {T : Type}.
Variable doc_id : T -> string.

Lemma map_replace_first {B : Type} (g : T -> B) (id : string) (f : T -> T)
    (docs : list T) :
  (forall d, g (f d) = g d) ->
  map g (BaseRepository.replace_first doc_id id f docs) = map g docs.
Proof.
  intros Hg. induction docs as [|d rest IH]; simpl; [reflexivity|].
  destruct (BaseRepository.has_id doc_id id d); simpl;
    [now rewrite Hg | now rewrite IH].
Qed.

(** With distinct identifiers, a look-up by a criterion the modification
    does not affect finds the same document, modified if it is the one
    with the identifier. *)
Lemma find_after_replace_first (g : T -> bool) (id : string) (f : T -> T)
    (docs : list T) :
  NoDup (map doc_id docs) ->
  (forall d, g (f d) = g d) ->
  List.find g (BaseRepository.replace_first doc_id id f docs)
  = option_map (fun d => if BaseRepository.has_id doc_id id d then f d else d)
      (List.find g docs).
Proof.
  intros Hnd Hg. induction docs as [|d rest IH]; simpl; [reflexivity|].
  inversion Hnd as [|? ? Hnotin Hnd']; subst.
  destruct (BaseRepository.has_id doc_id id d) eqn:E; simpl.
  - rewrite Hg. destruct (g d); simpl; [now rewrite E|].
    destruct (List.find g rest) as [x|] eqn:F; simpl; [|reflexivity].
    apply find_some in F. destruct F as [Hx _].
    destruct (BaseRepository.has_id doc_id id x) eqn:Ex; [|reflexivity].
    exfalso. apply Hnotin.
    unfold BaseRepository.has_id in *.
    apply String.eqb_eq in E. apply String.eqb_eq in Ex.
    rewrite E, <- Ex. now apply in_map.
  - destruct (g d); simpl; [now rewrite E | now apply IH].
Qed.

End MoreCollectionFacts.

Section Users.

Variable hashPassword : string -> string.
Variable passwordMatches : string -> string -> bool.
Variable jwtSign : IJWTPayload.t -> string.
Variable jwtVerify : string -> option IJWTPayload.t.

(** X15. Whatever the body of the request holds, [updateProfile] changes
    the identifier, e-mail address, password hash, role and active flag of
    no user: a role or a password sent to it is ignored. *)
Theorem updateProfile_keeps_credentials
    (users users' : UserStore) (userId : string) (profileData : ProfileData.t)
    (r : Exn + option IUserDocument) :
  AuthService.updateProfile hashPassword userId profileData users = (r, users') ->
  map credentials users' = map credentials users
  /\ List.length users' = List.length users.
Proof.
  unfold AuthService.updateProfile, UserRepository.update, BaseRepository.update,
    BaseRepository.findByIdAndUpdate.
  destruct (List.find (BaseRepository.has_id User._id userId) users);
    intros H; inversion H; subst; [|now split].
  assert (Hc : map credentials
                 (BaseRepository.replace_first User._id userId
                    (UserRepository.applyUserUpdate hashPassword
                       (AuthService.filteredData profileData)) users)
               = map credentials users).
  { apply map_replace_first. intros d. reflexivity. }
  split; [exact Hc|].
  rewrite <- (length_map credentials), Hc. apply length_map.
Qed.

Lemma getCurrentUser_eq (users : UserStore) (userId : string) :
  AuthService.getCurrentUser userId users
  = (inr match stored_user users userId with
         | Some u => if User.isActive u then Some u else None
         | None => None
         end, users).
Proof.
  unfold AuthService.getCurrentUser, UserRepository.findById, stored_user.
  run_eff.
  destruct (List.find (BaseRepository.has_id User._id userId) users) as [u|];
    [|reflexivity].
  destruct (User.isActive u); reflexivity.
Qed.

(** X16. [refreshToken] succeeds exactly for the users [getCurrentUser]
    returns: it then signs the stored e-mail address and role under the
    identifier it was given; for any other identifier it fails with
    "User not found or inactive". Neither writes. *)
Theorem refreshToken_follows_getCurrentUser (users : UserStore) (userId : string) :
  (forall u,
      AuthService.getCurrentUser userId users = (inr (Some u), users) ->
      AuthService.refreshToken jwtSign userId users
      = (inr (jwtSign {| IJWTPayload.userId := userId;
                         IJWTPayload.email := User.email u;
                         IJWTPayload.role := User.role u |}), users))
  /\ (AuthService.getCurrentUser userId users = (inr None, users) ->
      AuthService.refreshToken jwtSign userId users
      = (inl (Error msg_user_inactive), users))
  /\ (exists found, AuthService.getCurrentUser userId users = (inr found, users)).
Proof.
  rewrite getCurrentUser_eq.
  unfold AuthService.refreshToken, UserRepository.findById. run_eff.
  fold (stored_user users userId).
  destruct (stored_user users userId) as [u0|] eqn:Hs.
  - assert (Hid : User._id u0 = userId).
    { unfold stored_user in Hs. apply find_some in Hs. destruct Hs as [_ H].
      now apply String.eqb_eq in H. }
    destruct (User.isActive u0); simpl.
    + split; [|split; [discriminate | eauto]].
      intros u H. inversion H; subst u.
      unfold AuthService.generateToken. now rewrite Hid.
    + split; [discriminate | split; [reflexivity | eauto]].
  - split; [discriminate | split; [reflexivity | eauto]].
Qed.

(** X17. With distinct identifiers, once [deactivateUser] has run on the
    user an e-mail address belongs to: a login with that address fails with
    the deactivation message whatever the password, and [getCurrentUser]
    returns nothing for the identifier; [activateUser] then opens the
    account again, with the e-mail address and the password hash it had:
    [getCurrentUser] returns the user it has activated. *)
Theorem deactivateUser_locks_out
    (users : UserStore) (attempt : LoginRequest.t) (now : Z)
    (u : IUserDocument) :
  user_ids_unique users ->
  UserRepository.findByEmailWithPassword (LoginRequest.email attempt) users
    = (inr (Some u), users) ->
  exists users',
    UserRepository.deactivateUser (User._id u) users
      = (inr (Some (UserRepository.set_isActive false u)), users')
    /\ AuthService.login hashPassword passwordMatches jwtSign now attempt users'
       = (inl (Error msg_deactivated), users')
    /\ AuthService.getCurrentUser (User._id u) users' = (inr None, users')
    /\ exists u' users'',
        UserRepository.activateUser (User._id u) users'
          = (inr (Some u'), users'')
        /\ User.isActive u' = true
        /\ User.email u' = User.email u
        /\ User.password u' = User.password u
        /\ AuthService.getCurrentUser (User._id u) users''
           = (inr (Some u'), users'').
Proof.
  intros Hids Hfind.
  rewrite findByEmailWithPassword_eq in Hfind.
  assert (Hf : List.find
                 (fun d => String.eqb (User.email d)
                             (JS.toLowerCase (LoginRequest.email attempt)))
                 users = Some u) by (now inversion Hfind).
  clear Hfind.
  pose proof (find_some _ _ Hf) as [Hin _].
  assert (Hs : stored_user users (User._id u) = Some u).
  { unfold stored_user.
    destruct (List.find (BaseRepository.has_id User._id (User._id u)) users)
      as [x|] eqn:F.
    - apply find_some in F. destruct F as [Hx Hid].
      unfold BaseRepository.has_id in Hid. apply String.eqb_eq in Hid.
      f_equal. unfold user_ids_unique in Hids. clear - Hids Hin Hx Hid.
      induction users as [|d rest IH]; [contradiction|].
      simpl in Hids. inversion Hids as [|? ? Hnotin Hnd]; subst.
      destruct Hin as [-> | Hin], Hx as [-> | Hx]; try reflexivity.
      + exfalso. apply Hnotin. rewrite <- Hid. now apply in_map.
      + exfalso. apply Hnotin. rewrite Hid. now apply in_map.
      + now apply IH.
    - exfalso. pose proof (find_none _ _ F u Hin) as H.
      unfold BaseRepository.has_id in H. now rewrite String.eqb_refl in H. }
  set (users' := BaseRepository.replace_first User._id (User._id u)
                   (UserRepository.set_isActive false) users).
  exists users'.
  assert (Hs' : stored_user users' (User._id u)
                = Some (UserRepository.set_isActive false u)).
  { unfold stored_user, users'.
    rewrite find_replace_first_same by reflexivity.
    fold (stored_user users (User._id u)). now rewrite Hs. }
  split; [|split; [|split]].
  - unfold UserRepository.deactivateUser, BaseRepository.findByIdAndUpdate.
    fold (stored_user users (User._id u)). now rewrite Hs.
  - assert (Hf' : List.find
                     (fun d => String.eqb (User.email d)
                                 (JS.toLowerCase (LoginRequest.email attempt)))
                     users'
                   = Some (UserRepository.set_isActive false u)).
    { unfold users'.
      rewrite (find_after_replace_first User._id) by (assumption || reflexivity).
      rewrite Hf. cbn [option_map].
      unfold BaseRepository.has_id. now rewrite String.eqb_refl. }
    unfold AuthService.login. unfold bind at 1.
    rewrite findByEmailWithPassword_eq, Hf'. reflexivity.
  - rewrite getCurrentUser_eq, Hs'. reflexivity.
  - exists (UserRepository.set_isActive true
              (UserRepository.set_isActive false u)).
    exists (BaseRepository.replace_first User._id (User._id u)
              (UserRepository.set_isActive true) users').
    split; [|repeat split].
    + unfold UserRepository.activateUser, BaseRepository.findByIdAndUpdate.
      fold (stored_user users' (User._id u)). now rewrite Hs'.
    + rewrite getCurrentUser_eq. unfold stored_user.
      rewrite find_replace_first_same by reflexivity.
      fold (stored_user users' (User._id u)). rewrite Hs'. reflexivity.
Qed.

End Users.

(** ** Authentication middleware *)

Lemma split_nonempty (sep : ascii) (s : string) : JS.split sep s <> [].
Proof.
  destruct s as [|c rest]; simpl; [discriminate|].
  destruct (Ascii.eqb c sep); [discriminate|].
  destruct (JS.split sep rest); discriminate.
Qed.

Lemma concat_cons_char (sep : string) (c : ascii) (piece : string)
    (pieces : list string) :
  String.concat sep (String c piece :: pieces)
  = String c (String.concat sep (piece :: pieces)).
Proof. destruct pieces; reflexivity. Qed.

(** Joining the pieces of a split with the separator gives the string
    back. *)
Lemma join_split (sep : ascii) (s : string) :
  JS.join (String sep EmptyString) (JS.split sep s) = s.
Proof.
  unfold JS.join. induction s as [|c rest IH]; [reflexivity|].
  simpl JS.split. destruct (Ascii.eqb c sep) eqn:E.
  - apply Ascii.eqb_eq in E. subst c.
    pose proof (split_nonempty sep rest) as Hne.
    destruct (JS.split sep rest) as [|x xs] eqn:S; [contradiction|].
    change (String.concat (String sep "") ("" :: x :: xs))
      with (String sep (String.concat (String sep "") (x :: xs))).
    now rewrite IH.
  - pose proof (split_nonempty sep rest) as Hne.
    destruct (JS.split sep rest) as [|x xs] eqn:S; [contradiction|].
    rewrite concat_cons_char. now rewrite IH.
Qed.

Lemma split_pieces_clean (sep : ascii) (s : string) :
  Forall (fun piece => has_char sep piece = false) (JS.split sep s).
Proof.
  induction s as [|c rest IH]; simpl; [repeat constructor|].
  destruct (Ascii.eqb c sep) eqn:E.
  - constructor; [reflexivity | exact IH].
  - pose proof (split_nonempty sep rest) as Hne.
    destruct (JS.split sep rest) as [|x xs]; [contradiction|].
    inversion IH; subst. constructor; [|assumption].
    simpl. now rewrite E.
Qed.

Lemma split_clean (sep : ascii) (t : string) :
  has_char sep t = false -> JS.split sep t = [t].
Proof.
  induction t as [|c rest IH]; simpl; [reflexivity|].
  intros H. apply Bool.orb_false_iff in H. destruct H as [Hc Hrest].
  rewrite Hc, (IH Hrest). reflexivity.
Qed.

Lemma split_append_sep (sep : ascii) (a b : string) :
  has_char sep a = false ->
  JS.split sep (String.append a (String sep b)) = a :: JS.split sep b.
Proof.
  induction a as [|c rest IH]; simpl; intros H.
  - now rewrite Ascii.eqb_refl.
  - apply Bool.orb_false_iff in H. destruct H as [Hc Hrest].
    now rewrite Hc, (IH Hrest).
Qed.

(** X18. [extractToken] returns a token exactly for a header made of
    [Bearer], one space and a token without a space, and then returns that
    token; any other header, and a missing one, give nothing. *)
Theorem extractToken_bearer_only :
  AuthMiddleware.extractToken None = None
  /\ forall header token,
      AuthMiddleware.extractToken (Some header) = Some token
      <-> header = String.append "Bearer " token /\ has_char " " token = false.
Proof.
  split; [reflexivity|].
  intros header token. unfold AuthMiddleware.extractToken. split.
  - destruct (JS.truthy (Some header)) eqn:T; simpl; [|discriminate].
    simpl JS.or_empty.
    pose proof (join_split " " header) as Hjoin.
    pose proof (split_pieces_clean " " header) as Hclean.
    destruct (JS.split " " header) as [|scheme [|tok [|more rest]]];
      try discriminate.
    destruct (String.eqb scheme "Bearer") eqn:E; [|discriminate].
    intros H. inversion H; subst tok. apply String.eqb_eq in E. subst scheme.
    split.
    + rewrite <- Hjoin. reflexivity.
    + inversion Hclean as [|? ? _ Hrest]; subst. now inversion Hrest.
  - intros [-> Hclean].
    assert (Hsp : JS.split " " (String.append "Bearer " token) = ["Bearer"; token]).
    { change (String.append "Bearer " token)
        with (String.append "Bearer" (String " " token)).
      rewrite split_append_sep by reflexivity.
      now rewrite (split_clean " " token Hclean). }
    assert (T : JS.truthy (Some (String.append "Bearer " token)) = true)
      by reflexivity.
    rewrite T. unfold JS.or_empty. cbn [negb]. rewrite Hsp. reflexivity.
Qed.

Section Authenticate.

Variable jwtVerify : string -> option IJWTPayload.t.

(** X19. [authenticate] neither throws nor writes. It hands the request
    on, with the decoded payload as its identity, exactly when the header
    carries a non-empty bearer token that verifies and the user the payload
    names is stored and active; every other request is answered with status
    401. A token that still verifies is thus refused once its user is
    deactivated. *)
Theorem authenticate_passes_iff
    (users : UserStore) (authHeader : option string) :
  (exists outcome,
      AuthMiddleware.authenticate jwtVerify authHeader users = (inr outcome, users)
      /\ forall response, outcome = Responded response ->
                          ApiResponse.status response = 401)
  /\ forall payload,
      AuthMiddleware.authenticate jwtVerify authHeader users
        = (inr (Next payload), users)
      <-> exists token u,
          AuthMiddleware.extractToken authHeader = Some token
          /\ token <> ""
          /\ jwtVerify token = Some payload
          /\ stored_user users (IJWTPayload.userId payload) = Some u
          /\ User.isActive u = true.
Proof.
  unfold AuthMiddleware.authenticate, AuthService.verifyToken.
  destruct (AuthMiddleware.extractToken authHeader) as [token|] eqn:X.
  - unfold JS.truthy. destruct (String.eqb token "") eqn:E; simpl.
    + split.
      * eexists. split; [reflexivity|]. intros r H. now inversion H.
      * intros payload. split; [discriminate|].
        intros (t & u & Ht & Hne & _). inversion Ht; subst t.
        apply String.eqb_eq in E. contradiction.
    + destruct (jwtVerify token) as [decoded|] eqn:V.
      * unfold bind. rewrite getCurrentUser_eq. unfold ret.
        destruct (stored_user users (IJWTPayload.userId decoded)) as [u|] eqn:Hs.
        -- destruct (User.isActive u) eqn:A.
           ++ split.
              ** eexists. split; [reflexivity|]. discriminate.
              ** intros payload. split.
                 --- intros H. inversion H; subst payload.
                     exists token, u. apply String.eqb_neq in E. auto.
                 --- intros (t & u' & Ht & _ & Hv & _).
                     inversion Ht; subst t. rewrite V in Hv. now inversion Hv.
           ++ split.
              ** eexists. split; [reflexivity|]. intros r H. now inversion H.
              ** intros payload. split; [discriminate|].
                 intros (t & u' & Ht & _ & Hv & Hu & Ha).
                 inversion Ht; subst t. rewrite V in Hv. inversion Hv; subst payload.
                 rewrite Hs in Hu. inversion Hu; subst u'. congruence.
        -- split.
           ++ eexists. split; [reflexivity|]. intros r H. now inversion H.
           ++ intros payload. split; [discriminate|].
              intros (t & u' & Ht & _ & Hv & Hu & _).
              inversion Ht; subst t. rewrite V in Hv. inversion Hv; subst payload.
              rewrite Hs in Hu. discriminate.
      * split.
        -- eexists. split; [reflexivity|]. intros r H. now inversion H.
        -- intros payload. split; [discriminate|].
           intros (t & u' & Ht & _ & Hv & _).
           inversion Ht; subst t. rewrite V in Hv. discriminate.
  - simpl. split.
    + eexists. split; [reflexivity|]. intros r H. now inversion H.
    + intros payload. split; [discriminate|].
      intros (t & u' & Ht & _). discriminate.
Qed.

End Authenticate.

(** ** The failures of the product service and how they are answered *)

Lemma updateStock_outcome (st st' : ProductStore) (productId : string) (q : Z)
    (scope : option string) (r : Exn + option IProductDocument) :
  ProductService.updateStock productId q scope st = (r, st') ->
  (exists p, r = inr (Some p))
  \/ (st' = st
      /\ (r = inl (Error msg_negative_quantity) \/ r = inl (Error msg_not_found))).
Proof.
  destruct (Z.ltb_spec q 0) as [Hq | Hq].
  - unfold ProductService.updateStock.
    destruct (q <? 0) eqn:E; [|lia].
    intros H. inversion H. right. split; [reflexivity | now left].
  - destruct (stored st productId) as [p|] eqn:Hs.
    + destruct (visible scope p) eqn:Hv.
      * rewrite (updateStock_ok st productId q scope p Hq Hs Hv).
        intros H. inversion H. left. eauto.
      * unfold ProductService.updateStock.
        destruct (q <? 0) eqn:E; [lia|].
        unfold bind. rewrite getProductById_eq, Hs, Hv.
        intros H. inversion H. right. split; [reflexivity | now right].
    + unfold ProductService.updateStock.
      destruct (q <? 0) eqn:E; [lia|].
      unfold bind. rewrite getProductById_eq, Hs.
      intros H. inversion H. right. split; [reflexivity | now right].
Qed.

Lemma adjustStock_outcome (st st' : ProductStore) (productId : string) (a : Z)
    (scope : option string) (r : Exn + option IProductDocument) :
  ProductService.adjustStock productId a scope st = (r, st') ->
  (exists p, r = inr (Some p))
  \/ (st' = st
      /\ (r = inl (Error msg_insufficient_stock) \/ r = inl (Error msg_not_found))).
Proof.
  unfold ProductService.adjustStock. unfold bind at 1.
  rewrite getProductById_eq.
  destruct (stored st productId) as [p|] eqn:Hs;
    [|intros H; inversion H; right; split; [reflexivity | now right]].
  destruct (visible scope p) eqn:Hv;
    [|intros H; inversion H; right; split; [reflexivity | now right]].
  cbv zeta. rewrite add_ltb_0.
  destruct (Z.ltb_spec (Product.quantity p + a) 0) as [Hq | Hq];
    [intros H; inversion H; right; split; [reflexivity | now left]|].
  rewrite (updateStock_ok st productId _ scope p (add_nonneg _ _ Hq) Hs Hv).
  intros H. inversion H. left. eauto.
Qed.

Lemma deleteProduct_outcome (st st' : ProductStore) (productId userId : string)
    (r : Exn + bool) :
  ProductService.deleteProduct productId userId st = (r, st') ->
  r = inr true \/ (st' = st /\ r = inl (Error msg_not_found)).
Proof.
  intros H. destruct r as [e|b].
  - right. unfold ProductService.deleteProduct in H. unfold bind at 1 in H.
    rewrite getProductById_eq in H.
    destruct (stored st productId) as [p|] eqn:Hs;
      [|inversion H; split; reflexivity].
    destruct (visible (Some userId) p); [|inversion H; split; reflexivity].
    unfold bind in H. rewrite update_isActive_eq, Hs in H. discriminate.
  - apply deleteProduct_ok in H. destruct H as (p & _ & _ & -> & _). now left.
Qed.

Lemma createProduct_outcome (st st' : ProductStore) (newId userId : string)
    (productData : CreateProductRequest.t) (r : Exn + IProductDocument) :
  ProductService.createProduct newId userId productData st = (r, st') ->
  (exists doc, r = inr doc)
  \/ (st' = st
      /\ (r = inl (Error msg_duplicate_sku)
          \/ exists messages, messages <> [] /\ r = inl (ValidationError messages))).
Proof.
  unfold ProductService.createProduct. unfold bind. rewrite findBySku_eq.
  match goal with
  | |- context [List.find ?g st] => destruct (List.find g st)
  end; [intros H; inversion H; right; split; [reflexivity | now left]|].
  rewrite create_eq.
  destruct (validateProduct _) eqn:V; intros H; inversion H.
  - left. eauto.
  - right. split; [reflexivity|]. right. eexists. split; [|reflexivity].
    discriminate.
Qed.

Lemma repo_update_outcome (st st' : ProductStore) (productId : string)
    (u : ProductUpdate.t) (r : Exn + option IProductDocument) :
  stored st productId <> None ->
  ProductRepository.update productId u st = (r, st') ->
  (exists p, r = inr (Some p))
  \/ (st' = st
      /\ exists messages, messages <> [] /\ r = inl (ValidationError messages)).
Proof.
  intros Hs.
  unfold ProductRepository.update, BaseRepository.update,
    BaseRepository.findByIdAndUpdate.
  destruct (castProductUpdate u) as [errs|f] eqn:C.
  - intros H. inversion H. right. split; [reflexivity|].
    exists errs. split; [|reflexivity].
    unfold castProductUpdate in C.
    match type of C with
    | context [match ?v with [] => _ | _ :: _ => _ end] => destruct v
    end; [discriminate|]. inversion C. discriminate.
  - fold (stored st productId).
    destruct (stored st productId); [|contradiction].
    intros H. inversion H. left. eauto.
Qed.

Lemma updateProduct_outcome (st st' : ProductStore) (productId userId : string)
    (updateData : UpdateProductRequest.t) (r : Exn + option IProductDocument) :
  ProductService.updateProduct productId userId updateData st = (r, st') ->
  (exists p, r = inr (Some p))
  \/ (st' = st
      /\ (r = inl (Error msg_not_found)
          \/ r = inl (Error msg_duplicate_sku)
          \/ exists messages, messages <> [] /\ r = inl (ValidationError messages))).
Proof.
  unfold ProductService.updateProduct. unfold bind at 1.
  rewrite getProductById_eq.
  destruct (stored st productId) as [p|] eqn:Hs;
    [|intros H; inversion H; right; split; [reflexivity | now left]].
  destruct (visible (Some userId) p);
    [|intros H; inversion H; right; split; [reflexivity | now left]].
  unfold bind at 1.
  match goal with
  | |- context [if ?c then _ else _] => destruct c
  end.
  - unfold bind at 1. rewrite findBySku_eq.
    match goal with
    | |- context [List.find ?g st] => destruct (List.find g st)
    end; [intros H; inversion H; right; split; [reflexivity | right; now left]|].
    unfold ret. intros H. apply repo_update_outcome in H; [|congruence].
    destruct H as [H | [E H]]; [now left | right; split; [exact E | right; now right]].
  - unfold ret. intros H. apply repo_update_outcome in H; [|congruence].
    destruct H as [H | [E H]]; [now left | right; split; [exact E | right; now right]].
Qed.

(** X20. A failure of [createProduct], [updateProduct], [deleteProduct],
    [updateStock] or [adjustStock] has written nothing: whatever the
    exception, the collection is as it was before the call. Moreover
    [deleteProduct] answers [true] whenever it answers, and [adjustStock]
    never fails with the negative-quantity error of the [updateStock] it
    calls. *)
Theorem product_service_failures (st st' : ProductStore) :
  (forall newId userId productData e,
      ProductService.createProduct newId userId productData st = (inl e, st') ->
      st' = st)
  /\ (forall productId userId updateData e,
      ProductService.updateProduct productId userId updateData st = (inl e, st') ->
      st' = st)
  /\ (forall productId userId e,
      ProductService.deleteProduct productId userId st = (inl e, st') ->
      st' = st)
  /\ (forall productId quantity scope e,
      ProductService.updateStock productId quantity scope st = (inl e, st') ->
      st' = st)
  /\ (forall productId adjustment scope e,
      ProductService.adjustStock productId adjustment scope st = (inl e, st') ->
      st' = st)
  /\ (forall productId userId b,
      ProductService.deleteProduct productId userId st = (inr b, st') ->
      b = true)
  /\ (forall productId adjustment scope,
      ProductService.adjustStock productId adjustment scope st
      <> (inl (Error msg_negative_quantity), st')).
Proof.
  split; [|split; [|split; [|split; [|split; [|split]]]]].
  - intros newId userId productData e H.
    apply createProduct_outcome in H.
    destruct H as [(doc & H) | (H & _)]; [discriminate | exact H].
  - intros productId userId updateData e H.
    apply updateProduct_outcome in H.
    destruct H as [(p & H) | (H & _)]; [discriminate | exact H].
  - intros productId userId e H.
    apply deleteProduct_outcome in H.
    destruct H as [H | (H & _)]; [discriminate | exact H].
  - intros productId quantity scope e H.
    apply updateStock_outcome in H.
    destruct H as [(p & H) | (H & _)]; [discriminate | exact H].
  - intros productId adjustment scope e H.
    apply adjustStock_outcome in H.
    destruct H as [(p & H) | (H & _)]; [discriminate | exact H].
  - intros productId userId b H.
    apply deleteProduct_outcome in H.
    destruct H as [H | (_ & H)]; [now inversion H | discriminate].
  - intros productId adjustment scope H.
    apply adjustStock_outcome in H.
    destruct H as [(p & H) | (_ & [H | H])]; discriminate.
Qed.

(** X21. Whoever calls a product endpoint and whatever the collection
    holds, an answer that is not a success has written nothing. The read
    endpoint never writes. A caller without a user identifier is answered
    401 by the five writing endpoints, which then leave the collection
    alone. The deletion endpoint never answers [Failed to delete product]. *)
Theorem product_endpoints_answers (st st' : ProductStore)
    (user : option IJWTPayload.t) (response : ApiResponse.t) :
  (forall newId productData,
      ProductEndpoints.createProduct newId user productData st = (response, st') ->
      ApiResponse.success response = false -> st' = st)
  /\ (forall id,
      ProductEndpoints.getProductById user id st = (response, st') -> st' = st)
  /\ (forall id updateData,
      ProductEndpoints.updateProduct user id updateData st = (response, st') ->
      ApiResponse.success response = false -> st' = st)
  /\ (forall id,
      ProductEndpoints.deleteProduct user id st = (response, st') ->
      (ApiResponse.success response = false -> st' = st)
      /\ ApiResponse.message response <> "Failed to delete product")
  /\ (forall id quantity,
      ProductEndpoints.updateStock user id quantity st = (response, st') ->
      ApiResponse.success response = false -> st' = st)
  /\ (forall id adjustment,
      ProductEndpoints.adjustStock user id adjustment st = (response, st') ->
      ApiResponse.success response = false -> st' = st)
  /\ (JS.truthy (ProductEndpoints.userId_of user) = false ->
      (forall newId productData,
          ProductEndpoints.createProduct newId user productData st
          = (ProductEndpoints.not_authenticated, st))
      /\ (forall id updateData,
          ProductEndpoints.updateProduct user id updateData st
          = (ProductEndpoints.not_authenticated, st))
      /\ (forall id,
          ProductEndpoints.deleteProduct user id st
          = (ProductEndpoints.not_authenticated, st))
      /\ (forall id quantity,
          ProductEndpoints.updateStock user id quantity st
          = (ProductEndpoints.not_authenticated, st))
      /\ (forall id adjustment,
          ProductEndpoints.adjustStock user id adjustment st
          = (ProductEndpoints.not_authenticated, st))).
Proof.
  assert (H401 : forall resp s,
             (ProductEndpoints.not_authenticated, st) = (resp, s) -> s = st).
  { intros resp s H. now inversion H. }
  split; [|split; [|split; [|split; [|split; [|split]]]]].
  - intros newId productData. unfold ProductEndpoints.createProduct.
    destruct (negb (JS.truthy (ProductEndpoints.userId_of user)));
      [intros H _; now apply H401 in H|].
    unfold ErrorHandler.catchAsync.
    destruct (ProductService.createProduct _ _ _ st) as [r s] eqn:E.
    apply createProduct_outcome in E.
    destruct E as [(doc & ->) | (-> & _)]; intros H Hf.
    + inversion H; subst. discriminate.
    + destruct r; now inversion H.
  - intros id H.
    unfold ProductEndpoints.getProductById, ErrorHandler.catchAsync in H.
    rewrite getProductById_eq in H. now inversion H.
  - intros id updateData. unfold ProductEndpoints.updateProduct.
    destruct user as [u|]; [|intros H _; now apply H401 in H].
    destruct (negb (JS.truthy (ProductEndpoints.userId_of (Some u))));
      [intros H _; now apply H401 in H|].
    unfold ErrorHandler.catchAsync.
    destruct (ProductService.updateProduct _ _ _ st) as [r s] eqn:E.
    apply updateProduct_outcome in E.
    destruct E as [(p & ->) | (-> & _)]; intros H Hf.
    + inversion H; subst. discriminate.
    + destruct r; now inversion H.
  - intros id. unfold ProductEndpoints.deleteProduct.
    destruct user as [u|];
      [|intros H; inversion H; subst; split; [reflexivity | discriminate]].
    destruct (negb (JS.truthy (ProductEndpoints.userId_of (Some u))));
      [intros H; inversion H; subst; split; [reflexivity | discriminate]|].
    unfold ErrorHandler.catchAsync.
    destruct (ProductService.deleteProduct _ _ st) as [r s] eqn:E.
    apply deleteProduct_outcome in E.
    destruct E as [-> | (-> & ->)]; intros H; inversion H; subst;
      (split; [|discriminate]); [discriminate | reflexivity].
  - intros id quantity. unfold ProductEndpoints.updateStock.
    destruct (negb (JS.truthy (ProductEndpoints.userId_of user)));
      [intros H _; now apply H401 in H|].
    unfold ErrorHandler.catchAsync.
    destruct (ProductService.updateStock _ _ _ st) as [r s] eqn:E.
    apply updateStock_outcome in E.
    destruct E as [(p & ->) | (-> & _)]; intros H Hf.
    + inversion H; subst. discriminate.
    + destruct r; now inversion H.
  - intros id adjustment. unfold ProductEndpoints.adjustStock.
    destruct (negb (JS.truthy (ProductEndpoints.userId_of user)));
      [intros H _; now apply H401 in H|].
    unfold ErrorHandler.catchAsync.
    destruct (ProductService.adjustStock _ _ _ st) as [r s] eqn:E.
    apply adjustStock_outcome in E.
    destruct E as [(p & ->) | (-> & _)]; intros H Hf.
    + inversion H; subst. discriminate.
    + destruct r; now inversion H.
  - intros Hno.
    unfold ProductEndpoints.createProduct, ProductEndpoints.updateProduct,
      ProductEndpoints.deleteProduct, ProductEndpoints.updateStock,
      ProductEndpoints.adjustStock.
    destruct user as [u|]; rewrite ?Hno; cbn [negb];
      repeat split; reflexivity.
Qed.

Lemma truthy_Some (s : string) : s <> "" -> JS.truthy (Some s) = true.
Proof. destruct s; [contradiction | reflexivity]. Qed.

(** X22. For a caller who is not an administrator, a product that is
    absent, deleted or owned by somebody else is the same product: the
    read endpoint answers 404 [Product not found], and the four writing
    endpoints answer 500 with the one not-found-or-access-denied message,
    in each case leaving the collection as it was. *)
Theorem endpoints_hide_unreachable_products (st : ProductStore)
    (user : IJWTPayload.t) (id : string) :
  IJWTPayload.userId user <> "" ->
  is_admin (IJWTPayload.role user) = false ->
  ProductService.getProductById id (Some (IJWTPayload.userId user)) st
  = (inr None, st) ->
  let denied := (ApiResponse.mk 500 false msg_not_found, st) in
  ProductEndpoints.getProductById (Some user) id st
  = (ApiResponse.mk 404 false "Product not found", st)
  /\ (forall updateData,
         ProductEndpoints.updateProduct (Some user) id updateData st = denied)
  /\ ProductEndpoints.deleteProduct (Some user) id st = denied
  /\ (forall quantity, 0 <= quantity ->
         ProductEndpoints.updateStock (Some user) id quantity st = denied)
  /\ (forall adjustment,
         ProductEndpoints.adjustStock (Some user) id adjustment st = denied).
Proof.
  intros Hid Hrole Hget denied. subst denied.
  pose proof (truthy_Some _ Hid) as Ht.
  unfold ProductEndpoints.getProductById, ProductEndpoints.updateProduct,
    ProductEndpoints.deleteProduct, ProductEndpoints.updateStock,
    ProductEndpoints.adjustStock, ProductEndpoints.ownerUserId,
    ProductEndpoints.userId_of, ProductController.ownerUserId_or_undefined,
    ProductController.ownerUserId_or_empty, ErrorHandler.catchAsync.
  rewrite Hrole. cbn [option_map]. rewrite Ht. cbn [negb].
  repeat split.
  - rewrite Hget. reflexivity.
  - intros updateData. unfold ProductService.updateProduct, bind.
    rewrite Hget. reflexivity.
  - unfold ProductService.deleteProduct, bind. rewrite Hget. reflexivity.
  - intros quantity Hq. unfold ProductService.updateStock.
    destruct (quantity <? 0) eqn:E; [lia|].
    unfold bind. rewrite Hget. reflexivity.
  - intros adjustment. unfold ProductService.adjustStock, bind.
    rewrite Hget. reflexivity.
Qed.

(** X23. An administrator reaches every product that is not deleted,
    whoever owns it: the read endpoint answers 200, the deletion answers
    200 and stores the product deactivated, and a stock update with a
    quantity that is not negative answers 200 and stores that quantity. *)
Theorem admin_endpoints_reach_any_active_product (st : ProductStore)
    (user : IJWTPayload.t) (id : string) (p : IProductDocument) :
  IJWTPayload.userId user <> "" ->
  is_admin (IJWTPayload.role user) = true ->
  stored st id = Some p ->
  Product.isActive p = true ->
  ProductEndpoints.getProductById (Some user) id st
  = (ApiResponse.mk 200 true "Product retrieved successfully", st)
  /\ ProductEndpoints.deleteProduct (Some user) id st
     = (ApiResponse.mk 200 true "Product deleted successfully",
        BaseRepository.replace_first Product._id id deactivated st)
  /\ (forall quantity, 0 <= quantity ->
         ProductEndpoints.updateStock (Some user) id quantity st
         = (ApiResponse.mk 200 true "Stock updated successfully",
            BaseRepository.replace_first Product._id id
              (with_quantity quantity) st)).
Proof.
  intros Hid Hrole Hs Hact.
  pose proof (truthy_Some _ Hid) as Ht.
  assert (Hv1 : visible None p = true).
  { unfold visible. rewrite Hact. reflexivity. }
  assert (Hv2 : visible (Some "") p = true).
  { unfold visible. rewrite Hact. reflexivity. }
  unfold ProductEndpoints.getProductById, ProductEndpoints.deleteProduct,
    ProductEndpoints.updateStock, ProductEndpoints.ownerUserId,
    ProductEndpoints.userId_of, ProductController.ownerUserId_or_undefined,
    ProductController.ownerUserId_or_empty, ErrorHandler.catchAsync.
  rewrite Hrole. cbn [option_map]. rewrite Ht. cbn [negb].
  repeat split.
  - rewrite getProductById_eq, Hs, Hv1. reflexivity.
  - unfold ProductService.deleteProduct. unfold bind at 1.
    rewrite getProductById_eq, Hs, Hv2. unfold bind, ret.
    rewrite update_isActive_eq, Hs. reflexivity.
  - intros quantity Hq.
    rewrite (updateStock_ok st id quantity None p Hq Hs Hv1). reflexivity.
Qed.

(** ** The further properties on the sample collections *)

Lemma sample_products_store_ok : store_ok Sample.products.
Proof.
  split; [exact sample_products_ids_unique|].
  split; [exact sample_products_skus_upper|].
  repeat split; intros p [<- | [<- | []]]; simpl; lia.
Qed.

Lemma sample_users_ids_unique : user_ids_unique Sample.users.
Proof.
  unfold user_ids_unique. simpl. repeat constructor; simpl; intuition discriminate.
Qed.

Lemma findWithPagination_math_witness :
  exists r,
    BaseRepository.findWithPagination Sample.sortProducts Product.isActive
      1 10 "createdAt" desc Sample.products
    = (inr r, Sample.products)
    /\ pg_total (pagination r) = 2.
Proof.
  destruct (findWithPagination_math Sample.sortProducts
              (fun _ _ docs => Permutation_refl docs)
              Product.isActive 1 10 "createdAt" desc Sample.products
              ltac:(lia) ltac:(lia))
    as (r & H & _ & _ & Ht & _).
  exists r. split; [exact H | exact Ht].
Defined.

Lemma searchProducts_returns_all_owners_witness :
  exists r,
    ProductService.searchProducts Sample.regexTest Sample.sortProducts
      (ProductQuery.mk None None None None None (Some 1) (Some 10) None None)
      Sample.products
    = (inr r, Sample.products)
    /\ In Sample.gadget (data r).
Proof.
  destruct (searchProducts_returns_all_owners Sample.regexTest Sample.sortProducts
              (fun _ _ docs => Permutation_refl docs)
              Sample.products 10 None None ltac:(simpl; lia))
    as (r & H & _ & Hall).
  exists r. split; [exact H|].
  apply Hall; [simpl; tauto | reflexivity].
Defined.

Lemma getLowStockProducts_is_not_in_stock_witness :
  exists l,
    ProductService.getLowStockProducts Sample.matchUserId None Sample.products
    = (inr l, Sample.products)
    /\ In Sample.gadget l.
Proof.
  destruct (getLowStockProducts_is_not_in_stock Sample.matchUserId Sample.products
              (proj2 (proj2 (proj2 (proj2 sample_products_store_ok)))))
    as (l & H & Hl).
  exists l. split; [exact H|].
  apply Hl. split; [simpl; tauto|]. split; [reflexivity | discriminate].
Defined.

Lemma getUserProducts_agrees_with_getProductById_witness :
  exists l,
    ProductService.getUserProducts "u1" Sample.products = (inr l, Sample.products)
    /\ In Sample.widget l.
Proof.
  destruct (getUserProducts_agrees_with_getProductById Sample.products "u1"
              sample_products_ids_unique ltac:(discriminate))
    as (l & H & Hl).
  exists l. split; [exact H|]. apply Hl. reflexivity.
Defined.

Lemma scoped_mutations_spare_other_owners_witness :
  spares_others "u1" Sample.products
    [with_quantity 7 Sample.widget; Sample.gadget].
Proof.
  apply (proj1 (proj2 (proj2
           (scoped_mutations_spare_other_owners Sample.products "u1"
              ltac:(discriminate))))
           "p1" 7 (inr (Some (with_quantity 7 Sample.widget)))).
  reflexivity.
Defined.

Lemma deleted_product_is_frozen_witness :
  ProductService.adjustStock "p1" 1 None Sample.products_after_delete
  = (inl (Error msg_not_found), Sample.products_after_delete).
Proof.
  apply (proj1 (proj2 (proj2
           (deleted_product_is_frozen Sample.products_after_delete "p1"
              (deactivated Sample.widget) eq_refl eq_refl)))).
Defined.

Lemma product_service_keeps_invariants_witness :
  store_ok [with_quantity 7 Sample.widget; Sample.gadget].
Proof.
  apply (proj1 (proj2 (proj2 (proj2
           (product_service_keeps_invariants Sample.products
              sample_products_store_ok))))
           "p1" 7 None (inr (Some (with_quantity 7 Sample.widget)))).
  reflexivity.
Defined.

Lemma bulkUpdateStock_succeeds_iff_witness :
  exists st',
    ProductService.bulkUpdateStock
      [StockUpdate.mk "p1" 7; StockUpdate.mk "p2" 0] None Sample.products
    = (inr tt, st').
Proof.
  apply (proj2 (bulkUpdateStock_succeeds_iff
                  [StockUpdate.mk "p1" 7; StockUpdate.mk "p2" 0]
                  None Sample.products)).
  repeat constructor; simpl; try lia.
  - exists Sample.widget. reflexivity.
  - exists Sample.gadget. reflexivity.
Defined.



Lemma updateStock_last_write_wins_witness :
  exists p2 st2,
    ProductService.updateStock "p1" 9 None Sample.products = (inr (Some p2), st2)
    /\ Product.quantity p2 = 9.
Proof.
  destruct (updateStock_last_write_wins Sample.products "p1" 4 9 None
              Sample.widget eq_refl ltac:(lia) ltac:(lia))
    as (p1 & st1 & p2 & st2 & _ & _ & H & Hq).
  exists p2, st2. split; [exact H | exact Hq].
Defined.

Lemma createProduct_then_lookup_witness :
  ProductService.getProductById "p3" (Some "u9")
    (Sample.products ++ [Sample.stored_new])
  = (inr (Some Sample.stored_new), Sample.products ++ [Sample.stored_new]).
Proof.
  apply (proj1 (createProduct_then_lookup Sample.products
                  (Sample.products ++ [Sample.stored_new]) "p3" "u9"
                  Sample.request_new Sample.stored_new
                  sample_products_skus_upper
                  ltac:(simpl; intuition discriminate)
                  eq_refl)).
Defined.


Lemma updateProfile_keeps_credentials_witness :
  map credentials
    (snd (AuthService.updateProfile Sample.hashPassword "u1"
            Sample.profile_all_fields Sample.users))
  = map credentials Sample.users.
Proof.
  apply (proj1 (updateProfile_keeps_credentials Sample.hashPassword
                  Sample.users _ "u1" Sample.profile_all_fields
                  (fst (AuthService.updateProfile Sample.hashPassword "u1"
                          Sample.profile_all_fields Sample.users))
                  eq_refl)).
Defined.

Lemma refreshToken_follows_getCurrentUser_witness :
  AuthService.refreshToken Sample.jwtSign "u2" Sample.users
  = (inl (Error msg_user_inactive), Sample.users).
Proof.
  apply (proj1 (proj2 (refreshToken_follows_getCurrentUser Sample.jwtSign
                         Sample.users "u2"))).
  reflexivity.
Defined.

Lemma deactivateUser_locks_out_witness :
  exists users',
    UserRepository.deactivateUser "u1" Sample.users
    = (inr (Some (UserRepository.set_isActive false Sample.alice)), users')
    /\ AuthService.login Sample.hashPassword Sample.passwordMatches
         Sample.jwtSign 0 (LoginRequest.mk "a@x.com" "secret123") users'
       = (inl (Error msg_deactivated), users').
Proof.
  destruct (deactivateUser_locks_out Sample.hashPassword Sample.passwordMatches
              Sample.jwtSign Sample.users (LoginRequest.mk "a@x.com" "secret123")
              0 Sample.alice sample_users_ids_unique eq_refl)
    as (users' & H1 & H2 & _).
  exists users'. split; [exact H1 | exact H2].
Defined.

Lemma extractToken_bearer_only_witness :
  AuthMiddleware.extractToken (Some "Bearer abc.def") = Some "abc.def".
Proof.
  apply (proj2 (proj2 extractToken_bearer_only "Bearer abc.def" "abc.def")).
  split; reflexivity.
Defined.

Lemma authenticate_passes_iff_witness :
  AuthMiddleware.authenticate Sample.jwtVerify (Some "Bearer token:u1")
    Sample.users
  = (inr (Next Sample.alice_identity), Sample.users).
Proof.
  apply (proj2 (proj2 (authenticate_passes_iff Sample.jwtVerify Sample.users
                         (Some "Bearer token:u1"))
                  Sample.alice_identity)).
  exists "token:u1", Sample.alice.
  repeat split; try reflexivity. discriminate.
Defined.

Lemma product_service_failures_witness :
  snd (ProductService.updateProduct "p1" "u1" Sample.resubmit_own_sku
         Sample.products)
  = Sample.products.
Proof.
  apply (proj1 (proj2 (product_service_failures Sample.products _))
           "p1" "u1" Sample.resubmit_own_sku (Error msg_duplicate_sku)).
  reflexivity.
Defined.

Lemma product_endpoints_answers_witness :
  snd (ProductEndpoints.deleteProduct (Some Sample.alice_identity) "p2"
         Sample.products)
  = Sample.products.
Proof.
  apply (proj1 (proj1 (proj2 (proj2 (proj2
           (product_endpoints_answers Sample.products _
              (Some Sample.alice_identity)
              (ApiResponse.mk 500 false msg_not_found)))))
           "p2" eq_refl)).
  reflexivity.
Defined.

Lemma endpoints_hide_unreachable_products_witness :
  ProductEndpoints.getProductById (Some Sample.alice_identity) "p2" Sample.products
  = (ApiResponse.mk 404 false "Product not found", Sample.products).
Proof.
  apply (proj1 (endpoints_hide_unreachable_products Sample.products
                  Sample.alice_identity "p2"
                  ltac:(discriminate) eq_refl eq_refl)).
Defined.

Lemma admin_endpoints_reach_any_active_product_witness :
  ProductEndpoints.deleteProduct (Some Sample.admin_identity) "p2" Sample.products
  = (ApiResponse.mk 200 true "Product deleted successfully",
     [Sample.widget; deactivated Sample.gadget]).
Proof.
  apply (proj1 (proj2 (admin_endpoints_reach_any_active_product Sample.products
                         Sample.admin_identity "p2" Sample.gadget
                         ltac:(discriminate) eq_refl eq_refl eq_refl))).
Defined.
